(** * Supervisor request routing: session/identity resolution, memory
      assembly and trace reconstruction

    A shallow embedding of [send_message] and
    [SupervisorAgent.process_request] of [agent.py].

    Python values are embedded as the inductive type [value] (JSON data
    plus attribute-only objects); Python exceptions as the error side of
    [result]; calls to the external collaborators (Memory Store, decision
    step) as events appended to a log that survives exceptions.  Strings
    model ASCII text: [lower], [upper] and [title] act on ASCII letters. *)

From Stdlib Require Import String Ascii List ZArith Bool Lia DecimalString.
Import ListNotations.
Local Open Scope list_scope.
Local Open Scope string_scope.

Set Implicit Arguments.
Set Warnings "-register-all".

(* ===================================================================== *)
(** ** Python values *)
(* ===================================================================== *)

Inductive value : Type :=
| VNone
| VBool (b : bool)
| VInt (z : Z)
| VStr (s : string)
| VList (l : list value)
| VDict (d : list (string * value))
| VObj (attrs : list (string * value)).

(** A dict is an insertion-ordered association list with unique keys. *)
Definition dict := list (string * value).

Inductive exn : Type :=
| AttributeError (msg : string)
| TypeError (msg : string)
| KeyError (msg : string)
| ExternalError (msg : string).

(** [str(e)] *)
Definition str_exn (e : exn) : string :=
  match e with
  | AttributeError m | TypeError m | KeyError m | ExternalError m => m
  end.

Inductive result (A : Type) : Type :=
| Ok (a : A)
| Raise (e : exn).
Arguments Ok {A} a.
Arguments Raise {A} e.

Definition rbind {A B} (r : result A) (k : A -> result B) : result B :=
  match r with
  | Ok a => k a
  | Raise e => Raise e
  end.

Declare Scope result_scope.
Delimit Scope result_scope with res.
Notation "x <~ c ;; k" := (rbind c (fun x => k))
  (at level 61, c at next level, right associativity) : result_scope.

(* --------------------------------------------------------------------- *)
(** *** Strings *)

Definition nl : string := String (ascii_of_nat 10) EmptyString.

Definition is_upper (c : ascii) : bool :=
  let n := nat_of_ascii c in (65 <=? n)%nat && (n <=? 90)%nat.
Definition is_lower (c : ascii) : bool :=
  let n := nat_of_ascii c in (97 <=? n)%nat && (n <=? 122)%nat.
Definition lower_char (c : ascii) : ascii :=
  if is_upper c then ascii_of_nat (nat_of_ascii c + 32) else c.
Definition upper_char (c : ascii) : ascii :=
  if is_lower c then ascii_of_nat (nat_of_ascii c - 32) else c.

Fixpoint smap (f : ascii -> ascii) (s : string) : string :=
  match s with
  | EmptyString => EmptyString
  | String c s' => String (f c) (smap f s')
  end.

(** [s.lower()], [s.upper()] *)
Definition lower : string -> string := smap lower_char.
Definition upper : string -> string := smap upper_char.

(** [s.title()]: a letter is upper-cased when it follows a non-letter and
    lower-cased otherwise. *)
Fixpoint title_from (prev_cased : bool) (s : string) : string :=
  match s with
  | EmptyString => EmptyString
  | String c s' =>
      let cased := is_upper c || is_lower c in
      String (if prev_cased then lower_char c else upper_char c)
             (title_from cased s')
  end.
Definition title : string -> string := title_from false.

(** [s.startswith(p)] *)
Definition startswith (p s : string) : bool := String.prefix p s.

(** [sub in s] *)
Fixpoint contains (sub s : string) : bool :=
  String.prefix sub s ||
  match s with
  | EmptyString => false
  | String _ s' => contains sub s'
  end.

Fixpoint last_char (s : string) : option ascii :=
  match s with
  | EmptyString => None
  | String c EmptyString => Some c
  | String _ s' => last_char s'
  end.

Definition ascii_is (c : ascii) (o : option ascii) : bool :=
  match o with
  | Some c' => Ascii.eqb c c'
  | None => false
  end.

Fixpoint chars (s : string) : list string :=
  match s with
  | EmptyString => []
  | String c s' => String c EmptyString :: chars s'
  end.

(** [sep.join(parts)] on strings *)
Fixpoint join (sep : string) (parts : list string) : string :=
  match parts with
  | [] => ""
  | [p] => p
  | p :: ps => p ++ sep ++ join sep ps
  end.

Definition string_of_Z (z : Z) : string :=
  NilZero.string_of_int (Z.to_int z).

(** [l[-n:]] on a list *)
Definition lastn {A} (n : nat) (l : list A) : list A :=
  skipn (length l - n) l.

(* --------------------------------------------------------------------- *)
(** *** Truth value, [or], type names *)

(** [bool(v)] *)
Definition truthy (v : value) : bool :=
  match v with
  | VNone => false
  | VBool b => b
  | VInt z => negb (Z.eqb z 0)
  | VStr s => negb (String.eqb s "")
  | VList l => match l with [] => false | _ => true end
  | VDict d => match d with [] => false | _ => true end
  | VObj _ => true
  end.

(** [a or b] when evaluating [b] cannot fail *)
Definition py_or (a b : value) : value := if truthy a then a else b.

Definition type_name (v : value) : string :=
  match v with
  | VNone => "NoneType"
  | VBool _ => "bool"
  | VInt _ => "int"
  | VStr _ => "str"
  | VList _ => "list"
  | VDict _ => "dict"
  | VObj _ => "object"
  end.

Definition no_attribute {A} (v : value) (name : string) : result A :=
  Raise (AttributeError
           ("'" ++ type_name v ++ "' object has no attribute '" ++ name ++ "'")).

(* --------------------------------------------------------------------- *)
(** *** Dicts and attributes *)

Fixpoint lookup (k : string) (d : dict) : option value :=
  match d with
  | [] => None
  | (k', v) :: d' => if String.eqb k k' then Some v else lookup k d'
  end.

(** [d[k] = v] *)
Fixpoint dict_set (k : string) (v : value) (d : dict) : dict :=
  match d with
  | [] => [(k, v)]
  | (k', v') :: d' =>
      if String.eqb k k' then (k, v) :: d' else (k', v') :: dict_set k v d'
  end.

(** [{**a, **b}] *)
Definition dict_merge (a b : dict) : dict :=
  fold_left (fun acc kv => dict_set (fst kv) (snd kv) acc) b a.

(** [d.get(k, dflt)] on a dict *)
Definition dget (d : dict) (k : string) (dflt : value) : value :=
  match lookup k d with
  | Some v => v
  | None => dflt
  end.

(** [v.get(k, dflt)] on any value: only dicts have the method. *)
Definition m_get (v : value) (k : string) (dflt : value) : result value :=
  match v with
  | VDict d => Ok (dget d k dflt)
  | _ => no_attribute v "get"
  end.

(** [hasattr(v, name)] for the attributes the code probes; the built-in
    JSON types carry none of them (dict has no [dict] attribute either). *)
Definition hasattr (v : value) (name : string) : bool :=
  match v with
  | VObj attrs => match lookup name attrs with Some _ => true | None => false end
  | _ => false
  end.

(** [getattr(v, name, dflt)] *)
Definition getattr (v : value) (name : string) (dflt : value) : value :=
  match v with
  | VObj attrs => dget attrs name dflt
  | _ => dflt
  end.

(** [isinstance(v, dict)], [isinstance(v, str)] *)
Definition is_dict (v : value) : bool :=
  match v with VDict _ => true | _ => false end.
Definition is_str (v : value) : bool :=
  match v with VStr _ => true | _ => false end.

(* --------------------------------------------------------------------- *)
(** *** Sequences *)

(** [len(v)] *)
Definition py_len (v : value) : result Z :=
  match v with
  | VStr s => Ok (Z.of_nat (String.length s))
  | VList l => Ok (Z.of_nat (length l))
  | VDict d => Ok (Z.of_nat (length d))
  | _ => Raise (TypeError ("object of type '" ++ type_name v ++ "' has no len()"))
  end.

(** The elements [for x in v] visits. *)
Definition py_iter (v : value) : result (list value) :=
  match v with
  | VList l => Ok l
  | VStr s => Ok (map VStr (chars s))
  | VDict d => Ok (map (fun kv => VStr (fst kv)) d)
  | _ => Raise (TypeError ("'" ++ type_name v ++ "' object is not iterable"))
  end.

(** [v[-n:]] *)
Definition py_last (n : nat) (v : value) : result value :=
  match v with
  | VList l => Ok (VList (lastn n l))
  | VStr s => Ok (VStr (String.concat "" (lastn n (chars s))))
  | VDict _ => Raise (KeyError "slice(-6, None, None)")
  | _ => Raise (TypeError ("'" ++ type_name v ++ "' object is not subscriptable"))
  end.

(** [s.lower()] / [s.upper()] / [s.title()] as method calls on a value *)
Definition m_lower (v : value) : result string :=
  match v with VStr s => Ok (lower s) | _ => no_attribute v "lower" end.
Definition m_upper (v : value) : result string :=
  match v with VStr s => Ok (upper s) | _ => no_attribute v "upper" end.
Definition m_title (v : value) : result string :=
  match v with VStr s => Ok (title s) | _ => no_attribute v "title" end.

(** [sep.join(v)]: every element must be a string. *)
Fixpoint strings_of (i : nat) (l : list value) : result (list string) :=
  match l with
  | [] => Ok []
  | VStr s :: l' =>
      match strings_of (S i) l' with
      | Ok ss => Ok (s :: ss)
      | Raise e => Raise e
      end
  | v :: _ =>
      Raise (TypeError ("sequence item " ++ string_of_Z (Z.of_nat i)
                          ++ ": expected str instance, " ++ type_name v
                          ++ " found"))
  end.

Definition py_join (sep : string) (v : value) : result string :=
  match py_iter v with
  | Ok l =>
      match strings_of 0 l with
      | Ok ss => Ok (join sep ss)
      | Raise e => Raise e
      end
  | Raise _ => Raise (TypeError "can only join an iterable")
  end.

(** [v1 != v2] against a string constant *)
Definition not_str (v : value) (s : string) : bool :=
  match v with
  | VStr s' => negb (String.eqb s' s)
  | _ => true
  end.

(* ===================================================================== *)
(** ** External collaborators and the call log *)
(* ===================================================================== *)

(** One entry per call that leaves the Router. *)
Inductive event : Type :=
| EvMemoryClient
| EvGetLastKTurns (actor_id session_id : value) (k : Z)
| EvRetrieveMemories (namespace : string) (query : value) (top_k : Z)
| EvInvoke (prompt : string).

Definition is_decision_event (ev : event) : bool :=
  match ev with
  | EvInvoke _ => true
  | _ => false
  end.

(** Everything [agent.py] takes from outside the repository: the Python
    runtime's printers and parsers, the Memory Store client, the decision
    step (the Strands agent) and the platform application object. *)
Record world : Type := {
  now : string;                      (* datetime.now().isoformat() *)
  model_id : string;                 (* BEDROCK_MODEL_ID *)
  repr : value -> string;            (* str() of containers and objects *)
  json_loads : string -> result value;
  literal_eval : string -> result value;
  memory_client : result unit;       (* MemoryClient(region_name=...) *)
  get_last_k_turns : value -> value -> Z -> result value;
  retrieve_memories : string -> value -> Z -> result value;
  invoke_async : string -> result value;
  agent_conversation : option value; (* self.agent.conversation, if any *)
  app_get_runtime_session_id : option (result value);
  app_runtime_session_id : option value
}.

(** Computations that may raise and that log their external calls; the
    log is kept when an exception propagates. *)
Definition M (A : Type) : Type := list event -> result A * list event.

Definition ret {A} (a : A) : M A := fun log => (Ok a, log).

Definition bind {A B} (m : M A) (k : A -> M B) : M B :=
  fun log =>
    match m log with
    | (Ok a, log') => k a log'
    | (Raise e, log') => (Raise e, log')
    end.

Definition lift {A} (r : result A) : M A := fun log => (r, log).

Definition call {A} (ev : event) (r : result A) : M A :=
  fun log => (r, (log ++ [ev])%list).

(** [try: m  except Exception as e: handler e] *)
Definition try_except {A} (m : M A) (handler : exn -> M A) : M A :=
  fun log =>
    match m log with
    | (Ok a, log') => (Ok a, log')
    | (Raise e, log') => handler e log'
    end.

Declare Scope m_scope.
Delimit Scope m_scope with M.
Notation "x <- c ;; k" := (bind c (fun x => k))
  (at level 61, c at next level, right associativity) : m_scope.

(* ===================================================================== *)
(** ** Printing *)
(* ===================================================================== *)

Section Printing.
Variable w : world.

(** [str(v)], as f-strings apply it *)
Definition str_of (v : value) : string :=
  match v with
  | VStr s => s
  | VNone => "None"
  | VBool true => "True"
  | VBool false => "False"
  | VInt z => string_of_Z z
  | _ => repr w v
  end.
End Printing.

(* ===================================================================== *)
(** ** Memory assembly (process_request, lines 219-293) *)
(* ===================================================================== *)

Definition warn : string := "⚠️".

Definition ltm_prefs_header : string :=
  nl ++ "=== LONG-TERM MEMORY (USER PREFERENCES/FACTS) ===" ++ nl.
Definition ltm_end : string := "=== END OF LONG-TERM MEMORY ===" ++ nl.
Definition ltm_prefs_critical : string :=
  nl ++ "CRITICAL: The above information is from PREVIOUS SESSIONS (Long-Term Memory). Use this to answer questions about the user's preferences or past information." ++ nl.
Definition ltm_turns_header : string :=
  nl ++ "=== LONG-TERM MEMORY (FROM PREVIOUS SESSIONS) ===" ++ nl.
Definition ltm_turns_critical : string :=
  nl ++ "CRITICAL: The above conversation is from PREVIOUS SESSIONS (Long-Term Memory). If the user asks about their name, preferences, or past information, use this LTM data." ++ nl.
Definition no_history_banner : string :=
  nl ++ "=== NO CONVERSATION HISTORY IN THIS SESSION ===" ++ nl.
Definition previous_header : string :=
  nl ++ "=== PREVIOUS CONVERSATION (YOU MUST USE THIS FOR MEMORY QUESTIONS) ===" ++ nl.
Definition previous_end : string := "=== END OF PREVIOUS CONVERSATION ===" ++ nl.
Definition previous_critical : string :=
  nl ++ "CRITICAL: If the user asks about information from the conversation above (like their name, preferences, or what they told you), you MUST reference it from the Previous Conversation section." ++ nl.
Definition first_message_notice : string :=
  nl ++ "=== NO PREVIOUS CONVERSATION ===" ++ nl
     ++ "This is the first message in the session." ++ nl.

Section MemoryAssembly.
Variable w : world.

(** Line 278-279: no turns and (whatever semantic retrieval gave) no
    long-term memory. *)
Definition no_ltm_notice (uid : value) : string :=
  no_history_banner
    ++ warn ++ " This is a NEW session for user_id '" ++ str_of w uid
    ++ "', but no Long-Term Memory (LTM) found from previous sessions." ++ nl.

(** Line 282-283: the Memory Store failed. *)
Definition ltm_failed_notice (uid : value) : string :=
  no_history_banner
    ++ warn ++ " This is a NEW session for user_id '" ++ str_of w uid
    ++ "'." ++ nl.

(** Lines 256-259, the loop over the retrieved memories.  The text
    accumulated so far is returned together with the exception that
    stopped the loop, if one did: [history_text] is a local variable
    that keeps its value when the enclosing [try] is left. *)
Fixpoint render_memories (acc : string) (ms : list value)
  : string * option exn :=
  match ms with
  | [] => (acc, None)
  | memory :: ms' =>
      match (c <~ m_get memory "content" (VDict []) ;;
             m_get c "text" (VStr ""))%res with
      | Raise e => (acc, Some e)
      | Ok content =>
          render_memories
            (if truthy content then acc ++ str_of w content ++ nl else acc)
            ms'
      end
  end.

(** Lines 245-263: semantic retrieval, with its own [try]; the result
    is the value of [history_text] afterwards. *)
Definition semantic_stage (question uid : value) : M string :=
  fun log =>
    let namespace := "support/user/" ++ str_of w uid ++ "/preferences" in
    let log' := (log ++ [EvRetrieveMemories namespace question 3])%list in
    match retrieve_memories w namespace question 3 with
    | Raise _ => (Ok "", log')
    | Ok memories =>
        if truthy memories then
          match py_len memories with
          | Raise _ => (Ok "", log')
          | Ok _ =>
              match py_iter memories with
              | Raise _ => (Ok ltm_prefs_header, log')
              | Ok ms =>
                  match render_memories ltm_prefs_header ms with
                  | (txt, Some _) => (Ok txt, log')
                  | (txt, None) =>
                      (Ok (txt ++ ltm_end ++ ltm_prefs_critical), log')
                  end
              end
          end
        else (Ok "", log')
    end.

(** Lines 269-273, one message of a replayed turn. *)
Definition render_turn_message (acc : string) (message : value)
  : result string :=
  (role <~ m_get message "role" (VStr "unknown") ;;
   c <~ m_get message "content" (VDict []) ;;
   content <~ m_get c "text" (VStr "") ;;
   if truthy content then
     r <~ m_upper role ;;
     Ok (acc ++ r ++ ": " ++ str_of w content ++ nl)
   else Ok acc)%res.

Fixpoint rfold {A B} (f : A -> B -> result A) (acc : A) (l : list B)
  : result A :=
  match l with
  | [] => Ok acc
  | x :: l' =>
      match f acc x with
      | Ok acc' => rfold f acc' l'
      | Raise e => Raise e
      end
  end.

(** Lines 268-273 *)
Definition render_turns (acc : string) (recent_turns : value)
  : result string :=
  (turns <~ py_iter recent_turns ;;
   rfold (fun acc turn =>
            messages <~ py_iter turn ;;
            rfold render_turn_message acc messages)
         acc turns)%res.

(** Lines 226-283: long-term retrieval. *)
Definition ltm_block (question : value) (context : dict) (uid : value)
  : M string :=
  try_except
    (_ <- call EvMemoryClient (memory_client w) ;;
     let runtime_session_id :=
       py_or (dget context "runtime_session_id" VNone)
             (dget context "session_id" VNone) in
     let session_id := py_or runtime_session_id uid in
     recent_turns <- call (EvGetLastKTurns uid session_id 5)
                          (get_last_k_turns w uid session_id 5) ;;
     history_text <- (if negb (truthy recent_turns)
                      then semantic_stage question uid
                      else ret "") ;;
     (* [history_text] is assigned anew on both branches below *)
     if truthy recent_turns then
       _ <- lift (py_len recent_turns) ;;
       body <- lift (render_turns ltm_turns_header recent_turns) ;;
       ret (body ++ ltm_end ++ ltm_turns_critical)
     else
       ret (no_ltm_notice uid))%M
    (fun _ => ret (ltm_failed_notice uid)).

(** Lines 286-289, one entry of the caller's history. *)
Definition render_history_entry (acc : string) (msg : value)
  : result string :=
  (role <~ m_get msg "role" (VStr "unknown") ;;
   content <~ m_get msg "content" (VStr "") ;;
   r <~ m_upper role ;;
   Ok (acc ++ r ++ ": " ++ str_of w content ++ nl))%res.

(** Lines 285-291 *)
Definition previous_block (conversation_history : value) : result string :=
  (window <~ py_last 6 conversation_history ;;
   entries <~ py_iter window ;;
   body <~ rfold render_history_entry previous_header entries ;;
   Ok (body ++ previous_end ++ previous_critical))%res.

(** [user_id_for_ltm and user_id_for_ltm != "anonymous"] *)
Definition known_identity (uid : value) : bool :=
  truthy uid && not_str uid "anonymous".

(** Lines 221-293: the memory block [history_text] of the prompt. *)
Definition history_block (question : value) (context : dict) (uid : value)
  : M string :=
  let conversation_history := dget context "conversation_history" (VList []) in
  if negb (truthy conversation_history) && known_identity uid then
    ltm_block question context uid
  else if truthy conversation_history then
    lift (previous_block conversation_history)
  else
    ret first_message_notice.
End MemoryAssembly.

(* ===================================================================== *)
(** ** Trace reconstruction (process_request, lines 318-411, 450-470) *)
(* ===================================================================== *)

(** The three lists the function grows while it reads the call records. *)
Record trace_state : Type := {
  specialized_agents : list string;
  mcp_tools_used : list string;
  response_trace : list value
}.

Definition empty_trace : trace_state :=
  {| specialized_agents := []; mcp_tools_used := []; response_trace := [] |}.

(** [x in l] on a list of strings *)
Definition mem (x : string) (l : list string) : bool :=
  existsb (String.eqb x) l.

(** Lines 360-366 *)
Definition agent_url_to_name : list (string * string) :=
  [ ("http://127.0.0.1:9001", "SentimentAgent");
    ("http://127.0.0.1:9002", "KnowledgeAgent");
    ("http://127.0.0.1:9003", "TicketAgent");
    ("http://127.0.0.1:9005", "ResolutionAgent");
    ("http://127.0.0.1:9006", "EscalationAgent") ].

(** Lines 455-461, in the order the dict literal lists them *)
Definition agent_keywords : list (string * string) :=
  [ ("knowledgeagent", "KnowledgeAgent");
    ("sentimentagent", "SentimentAgent");
    ("ticketagent", "TicketAgent");
    ("resolutionagent", "ResolutionAgent");
    ("escalationagent", "EscalationAgent") ].

Fixpoint assoc (k : string) (l : list (string * string)) : option string :=
  match l with
  | [] => None
  | (k', v) :: l' => if String.eqb k k' then Some v else assoc k l'
  end.

(** [agent_url_to_name.get(agent_url)]: the key must be hashable. *)
Definition url_to_name (agent_url : value) : result (option string) :=
  match agent_url with
  | VStr u => Ok (assoc u agent_url_to_name)
  | VList _ | VDict _ =>
      Raise (TypeError ("unhashable type: '" ++ type_name agent_url ++ "'"))
  | _ => Ok None
  end.

(** Lines 395-400 *)
Definition agent_entry (agent_name : string) (agent_url : value) : value :=
  VDict [ ("type", VStr "agent"); ("name", VStr agent_name);
          ("action", VStr "routed_to"); ("url", agent_url) ].

(** Lines 407-411 *)
Definition tool_entry (tool_name : string) : value :=
  VDict [ ("type", VStr "tool"); ("tool", VStr tool_name);
          ("action", VStr "called_mcp_tool") ].

(** Lines 465-470 *)
Definition detected_entry (agent_name : string) : value :=
  VDict [ ("type", VStr "agent"); ("name", VStr agent_name);
          ("action", VStr "detected_in_response");
          ("method", VStr "message_parsing") ].

Definition add_agent (st : trace_state) (agent_name : string) (entry : value)
  : trace_state :=
  {| specialized_agents := (specialized_agents st ++ [agent_name])%list;
     mcp_tools_used := mcp_tools_used st;
     response_trace := (response_trace st ++ [entry])%list |}.

Definition add_tool (st : trace_state) (tool_name : string) : trace_state :=
  {| specialized_agents := specialized_agents st;
     mcp_tools_used := (mcp_tools_used st ++ [tool_name])%list;
     response_trace := (response_trace st ++ [tool_entry tool_name])%list |}.

(** Line 381: the agent-routing signature *)
Definition is_a2a_name (lowered : string) : bool :=
  contains "a2a" lowered || contains "send_message" lowered
  || contains "discover_agent" lowered.

(** Line 403: the tool-call signature *)
Definition is_mcp_name (tool_name lowered : string) : bool :=
  contains "target" lowered && contains "___" tool_name.

Section TraceReconstruction.
Variable w : world.

(** [a or b.get(k, dflt)] where [b] is [tool_call.get('function', {})]:
    the right operand is evaluated only when the left one is falsy. *)
Definition or_function_field (tool_call : dict) (left : value)
           (k : string) (dflt : value) : result value :=
  if truthy left then Ok left
  else m_get (dget tool_call "function" (VDict [])) k dflt.

(** Lines 370-378: name and arguments of one call record. *)
Definition call_name_args (tool_call : value) : result (value * value) :=
  match tool_call with
  | VDict d =>
      (tool_name <~ or_function_field d (dget d "name" (VStr ""))
                                      "name" (VStr "") ;;
       tool_args <~ or_function_field d (dget d "arguments" (VDict []))
                                      "arguments" (VDict []) ;;
       Ok (tool_name, tool_args))%res
  | _ =>
      if hasattr tool_call "name" then
        Ok (getattr tool_call "name" VNone,
            getattr tool_call "arguments" (VDict []))
      else Ok (VStr "", VDict [])
  end.

(** Lines 383-388: string arguments are parsed; a parse error leaves
    them as they are. *)
Definition parse_args (tool_args : value) : value :=
  match tool_args with
  | VStr s =>
      match json_loads w s with
      | Ok v => v
      | Raise _ => tool_args
      end
  | _ => tool_args
  end.

(** Line 390 *)
Definition target_url (tool_args : value) : result value :=
  (u <~ m_get tool_args "target_agent_url" VNone ;;
   if truthy u then Ok u else m_get tool_args "url" (VStr ""))%res.

(** Lines 369-411: one iteration of the loop over the call records. *)
Definition classify_call (st : trace_state) (tool_call : value)
  : result trace_state :=
  (na <~ call_name_args tool_call ;;
   let tool_args := snd na in
   match fst na with
   | VStr tool_name =>
       let lowered := lower tool_name in
       if is_a2a_name lowered then
         agent_url <~ target_url (parse_args tool_args) ;;
         if truthy agent_url then
           agent_name <~ url_to_name agent_url ;;
           match agent_name with
           | Some n =>
               if negb (String.eqb n "")
                  && negb (mem n (specialized_agents st))
               then Ok (add_agent st n (agent_entry n agent_url))
               else Ok st
           | None => Ok st
           end
         else Ok st
       else if is_mcp_name tool_name lowered then
         if negb (mem tool_name (mcp_tools_used st))
         then Ok (add_tool st tool_name)
         else Ok st
       else Ok st
   | v => no_attribute v "lower"
   end)%res.

(** Lines 369-411 *)
Definition classify_calls (tool_calls : value) : result trace_state :=
  (calls <~ py_iter tool_calls ;;
   rfold classify_call empty_trace calls)%res.

(** Lines 462-470: one keyword of the lexical fallback. *)
Definition scan_keyword (message_lower : string) (st : trace_state)
           (kw : string * string) : trace_state :=
  let (keyword, agent_name) := kw in
  if contains keyword message_lower
     && negb (mem agent_name (specialized_agents st))
  then add_agent st agent_name (detected_entry agent_name)
  else st.

(** Lines 452-470 *)
Definition fallback_scan (st : trace_state) (message_content : value)
  : result trace_state :=
  match specialized_agents st with
  | [] =>
      (message_lower <~ m_lower message_content ;;
       Ok (fold_left (scan_keyword message_lower) agent_keywords st))%res
  | _ => Ok st
  end.
End TraceReconstruction.

(* ===================================================================== *)
(** ** Call discovery and message extraction (lines 326-357, 413-448) *)
(* ===================================================================== *)

Section Discovery.
Variable w : world.

(** [tool_calls.extend(x)] *)
Definition extend (tool_calls x : value) : result value :=
  match tool_calls with
  | VList l =>
      (xs <~ py_iter x ;; Ok (VList (l ++ xs)%list))%res
  | _ => no_attribute tool_calls "extend"
  end.

(** [k in d] for a dict *)
Definition has_key (k : string) (d : dict) : bool :=
  match lookup k d with Some _ => true | None => false end.

(** Lines 338-340 *)
Definition extend_from_item (tool_calls item : value) : result value :=
  match item with
  | VDict d =>
      if has_key "tool_calls" d
      then extend tool_calls (dget d "tool_calls" (VList []))
      else Ok tool_calls
  | _ => Ok tool_calls
  end.

(** Lines 328-342: call records carried by the result object. *)
Definition calls_of_response (response : value) : result value :=
  if hasattr response "tool_calls" then
    let tool_calls := py_or (getattr response "tool_calls" VNone) (VList []) in
    (_ <~ py_len tool_calls ;; Ok tool_calls)%res
  else if hasattr response "message" then
    match getattr response "message" VNone with
    | VDict d =>
        if has_key "tool_calls" d then
          let tool_calls := py_or (dget d "tool_calls" VNone) (VList []) in
          (_ <~ py_len tool_calls ;; Ok tool_calls)%res
        else Ok (VList [])
    | VList items => rfold extend_from_item (VList []) items
    | _ => Ok (VList [])
    end
  else Ok (VList []).

(** Lines 350-353 *)
Definition extend_from_msg (tool_calls msg : value) : result value :=
  if hasattr msg "tool_calls" && truthy (getattr msg "tool_calls" VNone)
  then extend tool_calls (getattr msg "tool_calls" VNone)
  else extend_from_item tool_calls msg.

(** A loop inside a [try] whose handler only logs: the list keeps the
    records added before the exception. *)
Fixpoint extend_while_ok (tool_calls : value) (msgs : list value) : value :=
  match msgs with
  | [] => tool_calls
  | msg :: msgs' =>
      match extend_from_msg tool_calls msg with
      | Ok tool_calls' => extend_while_ok tool_calls' msgs'
      | Raise _ => tool_calls
      end
  end.

(** Lines 346-357: call records in the agent's interaction log. *)
Definition calls_of_conversation (tool_calls : value) : value :=
  match agent_conversation w with
  | Some conversation =>
      if truthy conversation then
        match py_iter conversation with
        | Ok msgs => extend_while_ok tool_calls (lastn 5 msgs)
        | Raise _ => tool_calls
        end
      else tool_calls
  | None => tool_calls
  end.

(** Lines 326-357 *)
Definition discover_calls (response : value) : result value :=
  (tool_calls <~ calls_of_response response ;;
   Ok (calls_of_conversation tool_calls))%res.

(** Lines 420-426 *)
Definition message_part (item : value) : value :=
  match item with
  | VDict d =>
      py_or (dget d "text" VNone)
            (py_or (dget d "content" VNone) (VStr (str_of w item)))
  | _ => VStr (str_of w item)
  end.

(** Lines 440-448: a message that prints as a list is unwrapped. *)
Definition unwrap_list_text (message_content : string) : value :=
  if startswith "[" message_content
     && ascii_is "]"%char (last_char message_content)
  then
    match literal_eval w message_content with
    | Ok (VList (VDict d :: _)) =>
        py_or (dget d "text" VNone)
              (py_or (dget d "content" VNone) (VStr message_content))
    | _ => VStr message_content
    end
  else VStr message_content.

(** Lines 413-448 *)
Definition extract_message (response : value) : result value :=
  (message_content <~
     (if hasattr response "message" then
        match getattr response "message" VNone with
        | VDict d => Ok (dget d "content" (VStr ""))
        | VList items =>
            parts <~ strings_of 0 (map message_part items) ;;
            Ok (VStr (join " " parts))
        | m => Ok (VStr (str_of w m))
        end
      else if hasattr response "content" then
        Ok (VStr (str_of w (getattr response "content" VNone)))
      else Ok (VStr (str_of w response))) ;;
   Ok (unwrap_list_text (str_of w message_content)))%res.
End Discovery.

(* ===================================================================== *)
(** ** SupervisorAgent.process_request *)
(* ===================================================================== *)

Section ProcessRequest.
Variable w : world.

(** [context.get(k, dflt) if context else dflt] *)
Definition user_field (context : value) (k : string) (dflt : value)
  : result value :=
  if truthy context then m_get context k dflt else Ok dflt.

(** Lines 296-298 *)
Definition ltm_note (uid : value) : string :=
  if known_identity uid then
    nl ++ warn ++ " CRITICAL FOR LTM: User ID is '" ++ str_of w uid
       ++ "'. Long-Term Memory (LTM) has been retrieved from previous sessions (if available) and is shown above. Use this information to answer questions about the user's name, preferences, or past interactions." ++ nl
  else "".

(** Lines 300-311: the prompt when a context was supplied. *)
Definition user_info (question : value) (context : dict)
           (username department permissions authenticated uid : value)
           (history_text : string) : result string :=
  (dept <~ m_title department ;;
   perms <~ (if truthy permissions then py_join ", " permissions
             else Ok "Basic") ;;
   Ok (nl ++ "User Context:" ++ nl
          ++ "- Username: " ++ str_of w username ++ nl
          ++ "- Department: " ++ dept ++ nl
          ++ "- Permissions: " ++ perms ++ nl
          ++ "- Authenticated: " ++ str_of w authenticated ++ nl
          ++ "- User ID: " ++ str_of w uid ++ " (for LTM)" ++ nl
          ++ ltm_note uid ++ nl
          ++ history_text ++ nl
          ++ "Session ID: "
          ++ str_of w (dget context "session_id"
                            (VStr "Not provided - new session")) ++ nl
          ++ "Customer Request: " ++ str_of w question ++ nl))%res.

(** Lines 219-313: memory assembly and prompt. *)
Definition build_prompt (question context : value)
           (username department permissions authenticated uid : value)
  : M string :=
  if truthy context then
    match context with
    | VDict d =>
        (history_text <- history_block w question d uid ;;
         lift (user_info question d username department permissions
                         authenticated uid history_text))%M
    | _ => lift (no_attribute context "get")
    end
  else ret ("Customer Request: " ++ str_of w question).

(** Lines 490-509: the projection of one trace entry for the UI. *)
Definition ui_entry (trace_item : value) : list value :=
  match trace_item with
  | VDict t =>
      match dget t "type" VNone with
      | VStr "agent" =>
          [ VDict [ ("tool_calls",
                     VList [ VDict [ ("name", VStr "a2a_send_message");
                                     ("arguments",
                                      VDict [ ("target_agent_url",
                                               dget t "url" (VStr ""));
                                              ("agent_name",
                                               dget t "name" VNone) ]) ] ]);
                    ("timestamp", VStr (now w)) ] ]
      | VStr "tool" =>
          [ VDict [ ("tool_calls",
                     VList [ VDict [ ("name", dget t "tool" VNone);
                                     ("function",
                                      dget t "function" (VStr "")) ] ]);
                    ("timestamp", VStr (now w)) ] ]
      | _ => []
      end
  | _ => []
  end.

Definition conversation_context (trace : list value) : list value :=
  flat_map ui_entry trace.

Definition strs (l : list string) : value := VList (map VStr l).

(** Lines 475-514.  [response_dict["context"]] is the caller's context
    object itself, so the assignment of line 512 is seen both in the
    response and by the caller: the context after the call is returned
    next to the response. *)
Definition response_dict (context message_content authenticated : value)
           (st : trace_state) : value * value :=
  let context' :=
    match context with
    | VDict d =>
        if truthy context
        then VDict (dict_set "conversation_context"
                             (VList (conversation_context (response_trace st)))
                             d)
        else context
    | _ => context
    end in
  (VDict [ ("message", message_content);
           ("status", VStr "processed");
           ("timestamp", VStr (now w));
           ("agent", VStr "SupervisorAgent");
           ("model", VStr (model_id w));
           ("context", if truthy context then context' else VDict []);
           ("authenticated", authenticated);
           ("specialized_agents", strs (specialized_agents st));
           ("mcp_tools_used", strs (mcp_tools_used st));
           ("response_trace", VList (response_trace st)) ],
   context').

(** Lines 515-525 *)
Definition error_response (e : exn) (context : value) : value :=
  VDict [ ("error", VStr ("Failed to process request: " ++ str_exn e));
          ("status", VStr "error");
          ("timestamp", VStr (now w));
          ("agent", VStr "SupervisorAgent");
          ("authenticated",
           match context with
           | VDict d => if truthy context
                        then dget d "authenticated" (VBool false)
                        else VBool false
           | _ => VBool false
           end);
          ("context", if truthy context then context else VDict []) ].

(** Lines 318-470: what the result object tells about the agents and
    tools used, and the final message text. *)
Definition reconstruct_trace (response : value)
  : result (value * trace_state) :=
  (tool_calls <~ discover_calls w response ;;
   st <~ classify_calls w tool_calls ;;
   message_content <~ extract_message w response ;;
   st' <~ fallback_scan st message_content ;;
   Ok (message_content, st'))%res.

(** Lines 204-514, the body of the [try]. *)
Definition process_request_body (question context : value)
  : M (value * value) :=
  (uid <- lift (user_field context "user_id" (VStr "anonymous")) ;;
   username <- lift (user_field context "username" (VStr "Anonymous")) ;;
   department <- lift (user_field context "department" (VStr "general")) ;;
   permissions <- lift (user_field context "permissions" (VList [])) ;;
   authenticated <- lift (user_field context "authenticated" (VBool false)) ;;
   prompt <- build_prompt question context username department permissions
                          authenticated uid ;;
   response <- call (EvInvoke prompt) (invoke_async w prompt) ;;
   ms <- lift (reconstruct_trace response) ;;
   ret (response_dict context (fst ms) authenticated (snd ms)))%M.

(** [process_request(question, context)]: the response, and the
    caller's context object as the call leaves it. *)
Definition process_request (question context : value) : M (value * value) :=
  try_except (process_request_body question context)
             (fun e => ret (error_response e context, context)).
End ProcessRequest.

(* ===================================================================== *)
(** ** send_message, the entry point *)
(* ===================================================================== *)

Definition invalid_request_error : string :=
  "Invalid request format. Request must be a dictionary.".

Definition no_question_error : string :=
  "No question provided. Request must contain 'input', 'prompt', or 'question' field.".

Definition session_note_supplied : string :=
  "Session managed by AgentCore Runtime. Use same session ID for follow-up interactions.".

Definition session_note_absent : string :=
  "AgentCore Runtime auto-generated a session ID internally, but it's not accessible in the entrypoint. To maintain session continuity, explicitly provide a session_id in the request body or use --session-id flag with agentcore invoke.".

(** Line 595 *)
Definition extract_question (request : dict) : value :=
  py_or (dget request "input" VNone)
        (py_or (dget request "prompt" VNone) (dget request "question" VNone)).

(** Line 596 *)
Definition extract_context (request : dict) : value :=
  py_or (dget request "context" (VDict [])) (VDict []).

(** Lines 611-615 *)
Definition resolve_session (request : dict) (context : value) : result value :=
  let s := dget request "session_id" VNone in
  if truthy s then Ok s
  else
    (r <~ m_get context "runtimeSessionId" VNone ;;
     if truthy r then Ok r else m_get context "runtime_session_id" VNone)%res.

(** Lines 629-633 *)
Definition resolve_identity (request : dict) (context : value) : result value :=
  (c <~ m_get context "user_id" VNone ;;
   if truthy c then Ok c
   else Ok (py_or (dget request "user_id" VNone) (VStr "anonymous")))%res.

(** [response[k] = v] *)
Definition set_item (response : value) (k : string) (v : value) : result value :=
  match response with
  | VDict d => Ok (VDict (dict_set k v d))
  | _ => Raise (TypeError ("'" ++ type_name response
                             ++ "' object does not support item assignment"))
  end.

(** [response["context"][k] = v] *)
Definition set_context_item (response : value) (k : string) (v : value)
  : result value :=
  match response with
  | VDict d =>
      match lookup "context" d with
      | Some c => (c' <~ set_item c k v ;; Ok (VDict (dict_set "context" c' d)))%res
      | None => Raise (KeyError "'context'")
      end
  | _ => Raise (TypeError ("'" ++ type_name response
                             ++ "' object is not subscriptable"))
  end.

Section SendMessage.
Variable w : world.

Definition step (name description : string) : value :=
  VDict [ ("step", VStr name); ("description", VStr description);
          ("status", VStr "completed") ].

(** Lines 674-713 *)
Definition add_details (include_details : value) (user_context : dict)
           (response : value) : result value :=
  if truthy include_details
     && truthy (dget user_context "authenticated" VNone)
  then
    (response <~ set_item response "auth_info"
         (VDict [ ("department", dget user_context "department" VNone);
                  ("permissions", dget user_context "permissions" VNone);
                  ("username", dget user_context "username" VNone) ]) ;;
     n <~ py_len (dget user_context "permissions" (VList [])) ;;
     let username := str_of w (dget user_context "username" VNone) in
     set_item response "processing_steps"
       (VList
          [ step "Authentication Verification"
                 ("Verified user: " ++ username);
            step "Memory Context Loading"
                 "Loading conversation history and user preferences from memory";
            step "Request Classification"
                 ("Classified as "
                    ++ str_of w (dget user_context "department" VNone)
                    ++ " department request");
            step "Permission Check"
                 ("User has " ++ string_of_Z n ++ " permissions");
            step "Response Generation"
                 ("Generated response for " ++ username ++ " with memory context");
            step "Memory Storage"
                 "Storing conversation context and user preferences for future interactions"
          ]))%res
  else Ok response.

(** Lines 730-740: a session id the platform object may expose; an
    exception while asking leaves the variable as it was. *)
Definition app_session (runtime_session_id : value) : value :=
  if negb (truthy runtime_session_id) then
    match app_get_runtime_session_id w with
    | Some (Ok v) => v
    | Some (Raise _) => runtime_session_id
    | None =>
        match app_runtime_session_id w with
        | Some v => v
        | None => runtime_session_id
        end
    end
  else runtime_session_id.

(** Lines 742-761 *)
Definition add_session_info (runtime_session_id response : value)
  : result value :=
  if truthy runtime_session_id then
    (response <~ set_item response "session_info"
         (VDict [ ("runtime_session_id", runtime_session_id);
                  ("note", VStr session_note_supplied) ]) ;;
     response <~ set_item response "session_id" runtime_session_id ;;
     response <~ (match response with
                  | VDict d => if has_key "context" d then Ok response
                               else set_item response "context" (VDict [])
                  | _ => Ok response
                  end) ;;
     response <~ set_context_item response "runtime_session_id"
                                  runtime_session_id ;;
     set_context_item response "session_id" runtime_session_id)%res
  else
    set_item response "session_info"
       (VDict [ ("runtime_session_id", VNone);
                ("note", VStr session_note_absent) ]).

(** Lines 666-668: the log line that prints the length of the history. *)
Definition log_history_length (runtime_session_id conversation_history : value)
  : result Z :=
  if truthy runtime_session_id && truthy conversation_history
  then py_len conversation_history
  else Ok 0%Z.

(** Lines 606-763: what follows the two validation gates. *)
Definition handle (request : dict) (question context include_details : value)
  : M value :=
  (runtime_session_id <- lift (resolve_session request context) ;;
   user_id_for_ltm <- lift (resolve_identity request context) ;;
   match context with
   | VDict ctx =>
       let user_context : dict :=
         [ ("user_id", user_id_for_ltm);
           ("username", dget ctx "username" VNone);
           ("customer_tier", dget ctx "customer_tier" (VStr "standard"));
           ("department", dget ctx "department" (VStr "general"));
           ("permissions", dget ctx "permissions" (VList []));
           ("authenticated", dget ctx "authenticated" (VBool false));
           ("runtime_session_id", runtime_session_id) ] in
       let enhanced_context : dict :=
         dict_set "session_id" runtime_session_id
           (dict_set "conversation_context"
              (dget ctx "conversation_history" (VList []))
              (dict_set "memory_enabled" (VBool true)
                 (dict_merge ctx user_context))) in
       _ <- lift (log_history_length runtime_session_id
                    (dget ctx "conversation_history" (VList []))) ;;
       rc <- process_request w question (VDict enhanced_context) ;;
       let response := fst rc in
       let enhanced_context' := snd rc in
       response <- lift (add_details include_details user_context response) ;;
       cc <- lift (m_get enhanced_context' "conversation_context" (VList [])) ;;
       n <- lift (py_len cc) ;;
       response <- lift (set_item response "memory_info"
            (VDict [ ("memory_enabled", VBool true);
                     ("conversation_length", VInt n);
                     ("user_context_stored",
                      dget user_context "authenticated" (VBool false)) ])) ;;
       lift (add_session_info (app_session runtime_session_id) response)
   | _ => lift (no_attribute context "get")
   end)%M.

(** Lines 575-584: an object is replaced by its attribute dict. *)
Definition as_mapping (request : value) : value :=
  match request with
  | VObj attrs => VDict attrs
  | _ => request
  end.

(** [send_message(request)] *)
Definition send_message (request : value) : M value :=
  try_except
    (match as_mapping request with
     | VDict req =>
         let question := extract_question req in
         let context := extract_context req in
         let include_details := dget req "include_details" (VBool false) in
         if negb (truthy question) then
           ret (VDict [ ("error", VStr no_question_error) ])
         else handle req question context include_details
     | _ => ret (VDict [ ("error", VStr invalid_request_error) ])
     end)
    (fun e =>
       ret (VDict [ ("error",
                     VStr ("Failed to process request: " ++ str_exn e));
                    ("status", VStr "error") ])).
End SendMessage.

(* ===================================================================== *)
(** ** Vocabulary of the statements

    The predicates and projections the theorems are stated with, and the
    stage-wise readings of the functions above that the proofs go
    through. *)
(* ===================================================================== *)

(** The field [k] of the response a run returned. *)
Definition response_field (k : string) (run : result value * list event)
  : option value :=
  match fst run with
  | Ok (VDict d) => lookup k d
  | _ => None
  end.

(** The field [k2] of the dict held by the field [k1] of the response. *)
Definition response_field2 (k1 k2 : string) (run : result value * list event)
  : option value :=
  match response_field k1 run with
  | Some (VDict d) => lookup k2 d
  | _ => None
  end.

(** The external calls a run made. *)
Definition calls_made (run : result value * list event) : list event :=
  snd run.

(** The text names the three accepted aliases of the question. *)
Definition names_aliases (s : string) : bool :=
  contains "input" s && contains "prompt" s && contains "question" s.

(** A field that is absent or holds a string. *)
Definition text_or_absent (k : string) (d : dict) : Prop :=
  forall v, lookup k d = Some v -> is_str v = true.

(** The first truthy value of [context.user_id], top-level [user_id],
    ["anonymous"]. *)
Definition identity_of (request context : dict) : value :=
  if truthy (dget context "user_id" VNone) then dget context "user_id" VNone
  else if truthy (dget request "user_id" VNone)
       then dget request "user_id" VNone
       else VStr "anonymous".


Section HistoryLines.
Variable w : world.



End HistoryLines.

(** The session the recent-turn replay is keyed by (lines 229, 239). *)
Definition replay_session (context : dict) (uid : value) : value :=
  py_or (py_or (dget context "runtime_session_id" VNone)
               (dget context "session_id" VNone)) uid.

(** The prompts a run handed to the decision step. *)
Definition prompts (log : list event) : list string :=
  flat_map (fun ev => match ev with EvInvoke p => [p] | _ => [] end) log.

(** The identity [process_request] reads from its context (line 217). *)
Definition ltm_user_id (context : dict) : value :=
  dget context "user_id" (VStr "anonymous").

Section PromptOf.
Variable w : world.

(** The prompt for a context and a memory block (lines 300-311). *)
Definition prompt_of (question : value) (context : dict)
           (history_text : string) : result string :=
  user_info w question context
            (dget context "username" (VStr "Anonymous"))
            (dget context "department" (VStr "general"))
            (dget context "permissions" (VList []))
            (dget context "authenticated" (VBool false))
            (ltm_user_id context) history_text.

End PromptOf.

(** A Memory Store call raised during long-term retrieval; the index is
    the notice the memory block degrades to. *)
Inductive memory_failure (w : world) (question : value) (context : dict)
  : string -> Prop :=
| client_fails (e : exn) :
    memory_client w = Raise e ->
    memory_failure w question context
                   (ltm_failed_notice w (ltm_user_id context))
| replay_fails (e : exn) :
    memory_client w = Ok tt ->
    get_last_k_turns w (ltm_user_id context)
                     (replay_session context (ltm_user_id context)) 5
      = Raise e ->
    memory_failure w question context
                   (ltm_failed_notice w (ltm_user_id context))
| semantic_fails (turns : value) (e : exn) :
    memory_client w = Ok tt ->
    get_last_k_turns w (ltm_user_id context)
                     (replay_session context (ltm_user_id context)) 5
      = Ok turns ->
    truthy turns = false ->
    retrieve_memories w
      ("support/user/" ++ str_of w (ltm_user_id context) ++ "/preferences")
      question 3 = Raise e ->
    memory_failure w question context
                   (no_ltm_notice w (ltm_user_id context)).

(** What one call record stands for, read off without the lists of the
    loop: a call to a known agent endpoint, a tool call, or neither. *)
Inductive routing : Type :=
| ToAgent (agent_name : string) (agent_url : value)
| ToTool (tool_name : string)
| Nowhere.

Section RoutingOf.
Variable w : world.

(** The tests of lines 370-403 that do not look at the lists. *)
Definition routing_of (tool_call : value) : result routing :=
  (na <~ call_name_args tool_call ;;
   match fst na with
   | VStr tool_name =>
       let lowered := lower tool_name in
       if is_a2a_name lowered then
         agent_url <~ target_url (parse_args w (snd na)) ;;
         if truthy agent_url then
           agent_name <~ url_to_name agent_url ;;
           match agent_name with
           | Some n => if negb (String.eqb n "")
                       then Ok (ToAgent n agent_url) else Ok Nowhere
           | None => Ok Nowhere
           end
         else Ok Nowhere
       else if is_mcp_name tool_name lowered then Ok (ToTool tool_name)
       else Ok Nowhere
   | v => no_attribute v "lower"
   end)%res.

(** The membership tests of lines 393 and 405 and the appends. *)
Definition apply_routing (st : trace_state) (r : routing) : trace_state :=
  match r with
  | ToAgent n agent_url =>
      if mem n (specialized_agents st) then st
      else add_agent st n (agent_entry n agent_url)
  | ToTool tool_name =>
      if mem tool_name (mcp_tools_used st) then st
      else add_tool st tool_name
  | Nowhere => st
  end.


End RoutingOf.

(** [trace_item.get("type") == kind] *)
Definition is_kind (kind : string) (trace_item : value) : bool :=
  match trace_item with
  | VDict t =>
      match dget t "type" VNone with
      | VStr k => String.eqb k kind
      | _ => false
      end
  | _ => false
  end.

(** [trace_item.get(field)] *)
Definition entry_field (field : string) (trace_item : value) : value :=
  match trace_item with
  | VDict t => dget t field VNone
  | _ => VNone
  end.

(** The [field] of the entries of one kind, in trace order. *)
Definition fields_of_kind (kind field : string) (trace : list value)
  : list value :=
  map (entry_field field) (filter (is_kind kind) trace).

(** The invariant of trace reconstruction. *)
Record consistent (st : trace_state) : Prop := {
  agents_are_agent_entries :
    map VStr (specialized_agents st)
      = fields_of_kind "agent" "name" (response_trace st);
  tools_are_tool_entries :
    map VStr (mcp_tools_used st)
      = fields_of_kind "tool" "tool" (response_trace st);
  agents_nodup : NoDup (specialized_agents st);
  tools_nodup : NoDup (mcp_tools_used st)
}.

(** An agent entry, routed or detected in the text. *)
Definition agent_kind_entry (n : string) (entry : value) : Prop :=
  is_kind "agent" entry = true /\ is_kind "tool" entry = false
  /\ entry_field "name" entry = VStr n.

(** The trace entries of kind [kind] whose [field] is the text [n]. *)
Definition entries_named (kind field n : string) (trace : list value)
  : list value :=
  filter (fun item =>
            is_kind kind item
            && match entry_field field item with
               | VStr m => String.eqb m n
               | _ => false
               end) trace.

(** The call records the loop of line 369 visits for a result object. *)
Definition discovered_calls (w : world) (response : value)
  : result (list value) :=
  (tool_calls <~ discover_calls w response ;; py_iter tool_calls)%res.

(** An error envelope: an [error] text and no [message]. *)
Definition error_shaped (resp : dict) : Prop :=
  (exists s, lookup "error" resp = Some (VStr s))
  /\ lookup "message" resp = None.

(** An answer: a [message], status ["processed"] and no [error]. *)
Definition answer_shaped (resp : dict) : Prop :=
  lookup "error" resp = None
  /\ (exists m, lookup "message" resp = Some m)
  /\ lookup "status" resp = Some (VStr "processed").

(** The keys [send_message] adds to a response leave its shape alone. *)
Definition added_key (k : string) : Prop :=
  String.eqb "error" k = false /\ String.eqb "message" k = false
  /\ String.eqb "status" k = false.

(** Never a mixture of the two. *)
Definition shaped (resp : dict) : Prop :=
  error_shaped resp \/ answer_shaped resp.

(** The first truthy value of top-level [session_id],
    [context.runtimeSessionId]; else [context.runtime_session_id]. *)
Definition session_of (request context : dict) : value :=
  if truthy (dget request "session_id" VNone)
  then dget request "session_id" VNone
  else if truthy (dget context "runtimeSessionId" VNone)
       then dget context "runtimeSessionId" VNone
       else dget context "runtime_session_id" VNone.

(** Lines 636-644 *)
Definition user_context_of (context : dict) (uid runtime_session_id : value)
  : dict :=
  [ ("user_id", uid);
    ("username", dget context "username" VNone);
    ("customer_tier", dget context "customer_tier" (VStr "standard"));
    ("department", dget context "department" (VStr "general"));
    ("permissions", dget context "permissions" (VList []));
    ("authenticated", dget context "authenticated" (VBool false));
    ("runtime_session_id", runtime_session_id) ].

(** Lines 655-662 *)
Definition enhanced_context_of (context : dict) (uid runtime_session_id : value)
  : dict :=
  dict_set "session_id" runtime_session_id
    (dict_set "conversation_context"
       (dget context "conversation_history" (VList []))
       (dict_set "memory_enabled" (VBool true)
          (dict_merge context
             (user_context_of context uid runtime_session_id)))).

Section FinishResponseOf.
Variable w : world.

(** Lines 673-761, which add to the response [process_request] returned. *)
Definition finish_response (include_details : value) (user_context : dict)
           (runtime_session_id response enhanced_context' : value)
  : result value :=
  (response <~ add_details w include_details user_context response ;;
   cc <~ m_get enhanced_context' "conversation_context" (VList []) ;;
   n <~ py_len cc ;;
   response <~ set_item response "memory_info"
        (VDict [ ("memory_enabled", VBool true);
                 ("conversation_length", VInt n);
                 ("user_context_stored",
                  dget user_context "authenticated" (VBool false)) ]) ;;
   add_session_info (app_session w runtime_session_id) response)%res.

End FinishResponseOf.

(** Lines 743-752: the [session_info] of a response. *)
Definition session_info_of (runtime_session_id : value) : value :=
  if truthy runtime_session_id
  then VDict [ ("runtime_session_id", runtime_session_id);
               ("note", VStr session_note_supplied) ]
  else VDict [ ("runtime_session_id", VNone);
               ("note", VStr session_note_absent) ].

(** The response keeps the fields that tell an answer from an error. *)
Definition same_outcome (r r' : dict) : Prop :=
  lookup "error" r' = lookup "error" r
  /\ lookup "message" r' = lookup "message" r
  /\ lookup "status" r' = lookup "status" r.

(** Line 767: the envelope of the outermost handler. *)
Definition catch_all (e : exn) : value :=
  VDict [ ("error", VStr ("Failed to process request: " ++ str_exn e));
          ("status", VStr "error") ].

(** A value [len] accepts. *)
Definition sized (v : value) : Prop := exists n, py_len v = Ok n.

(* ===================================================================== *)
(** ** Worked inputs

    The concrete collaborators, requests and call records the worked
    examples run on. *)
(* ===================================================================== *)

(** A result object whose message is a dict with textual content. *)
Definition plain_answer (text : string) : value :=
  VObj [ ("message", VDict [ ("content", VStr text) ]) ].

(** Memory Store without records, a decision step that answers "Hello" and
    exposes no call records, a platform object without session accessor. *)
Definition quiet_world : world :=
  {| now := "2025-01-01T00:00:00";
     model_id := "anthropic.claude-3-haiku-20240307-v1:0";
     repr := fun _ => "<object>";
     json_loads := fun _ => Raise (ExternalError "Expecting value");
     literal_eval := fun _ => Raise (ExternalError "malformed node or string");
     memory_client := Ok tt;
     get_last_k_turns := fun _ _ _ => Ok (VList []);
     retrieve_memories := fun _ _ _ => Ok (VList []);
     invoke_async := fun _ => Ok (plain_answer "Hello");
     agent_conversation := None;
     app_get_runtime_session_id := None;
     app_runtime_session_id := None |}.

(** A request whose [input] is the number 42: no field holds a text. *)
Definition numeric_input_request : dict := [ ("input", VInt 42) ].

(** Both [user_id] fields set: the one of the context wins. *)
Definition both_ids_request : dict :=
  [ ("input", VStr "hi"); ("user_id", VStr "top");
    ("context", VDict [ ("user_id", VStr "ctx") ]) ].

(** A numeric top-level [user_id]. *)
Definition numeric_id_request : dict :=
  [ ("input", VStr "hi"); ("user_id", VInt 42) ].
(** A [context] that is a text, behind a top-level [session_id]. *)
Definition text_context_request : dict :=
  [ ("input", VStr "hi"); ("session_id", VStr "s-1");
    ("context", VStr "vip") ].

(** A call record for the knowledge-search tool of the repository. *)
Definition search_tool_call : value :=
  VDict [ ("name", VStr "dev-customer-support-knowledge-search-target___search");
          ("arguments", VDict [ ("query", VStr "reset password") ]) ].

(** A compound name without ["target"] in it. *)
Definition kb_tool_call : value :=
  VDict [ ("name", VStr "kb___search");
          ("arguments", VDict [ ("query", VStr "reset password") ]) ].

(** One entry of a caller-supplied history. *)
Definition turn (role content : string) : value :=
  VDict [ ("role", VStr role); ("content", VStr content) ].


(** A Memory Store that has no turns for the user but one stored
    preference matching the question. *)
Definition preferences_world : world :=
  {| now := now quiet_world;
     model_id := model_id quiet_world;
     repr := repr quiet_world;
     json_loads := json_loads quiet_world;
     literal_eval := literal_eval quiet_world;
     memory_client := Ok tt;
     get_last_k_turns := fun _ _ _ => Ok (VList []);
     retrieve_memories := fun _ _ _ =>
       Ok (VList [ VDict [ ("content",
                            VDict [ ("text", VStr "Prefers email contact") ]) ] ]);
     invoke_async := invoke_async quiet_world;
     agent_conversation := None;
     app_get_runtime_session_id := None;
     app_runtime_session_id := None |}.

(** A first request of user [u1], without history in the session. *)
Definition preferences_request : value :=
  VDict [ ("input", VStr "How should you contact me?");
          ("context", VDict [ ("user_id", VStr "u1") ]) ].

(** A Memory Store whose replay call times out. *)
Definition timeout_world : world :=
  {| now := now quiet_world;
     model_id := model_id quiet_world;
     repr := repr quiet_world;
     json_loads := json_loads quiet_world;
     literal_eval := literal_eval quiet_world;
     memory_client := Ok tt;
     get_last_k_turns := fun _ _ _ => Raise (ExternalError "Read timed out");
     retrieve_memories := retrieve_memories quiet_world;
     invoke_async := invoke_async quiet_world;
     agent_conversation := None;
     app_get_runtime_session_id := None;
     app_runtime_session_id := None |}.

(** The double quote, and the JSON text of the arguments of a call to the
    ticket agent. *)
Definition dq : string := String (ascii_of_nat 34) EmptyString.
Definition ticket_args_text : string :=
  "{" ++ dq ++ "target_agent_url" ++ dq ++ ": "
      ++ dq ++ "http://127.0.0.1:9003" ++ dq ++ "}".

(** The four call records: as a dict, as a dict with a [function] part
    and JSON text arguments, and as an object. *)
Definition reported_calls : list value :=
  [ VDict [ ("name", VStr "a2a_send_message");
            ("arguments",
             VDict [ ("target_agent_url", VStr "http://127.0.0.1:9003");
                     ("message_text", VStr "Create a ticket for login issues") ]) ];
    VDict [ ("name", VStr "dev-cs-ticket-create-ticket-target___create_ticket");
            ("arguments", VDict [ ("title", VStr "Login issues") ]) ];
    VDict [ ("function",
             VDict [ ("name", VStr "A2A_Send_Message");
                     ("arguments", VStr ticket_args_text) ]) ];
    VObj [ ("name", VStr "a2a_send_message");
           ("arguments", VDict [ ("url", VStr "http://127.0.0.1:9002") ]) ] ].

(** A decision step that reports [reported_calls]; the JSON parser knows
    the one argument text that occurs. *)
Definition routing_world : world :=
  {| now := now quiet_world;
     model_id := model_id quiet_world;
     repr := repr quiet_world;
     json_loads := fun s =>
       if String.eqb s ticket_args_text
       then Ok (VDict [ ("target_agent_url", VStr "http://127.0.0.1:9003") ])
       else Raise (ExternalError "Expecting value");
     literal_eval := literal_eval quiet_world;
     memory_client := Ok tt;
     get_last_k_turns := get_last_k_turns quiet_world;
     retrieve_memories := retrieve_memories quiet_world;
     invoke_async := fun _ =>
       Ok (VObj [ ("tool_calls", VList reported_calls);
                  ("message", VDict [ ("content", VStr "Ticket created.") ]) ]);
     agent_conversation := None;
     app_get_runtime_session_id := None;
     app_runtime_session_id := None |}.

(** Scenario B of the specification. *)
Definition ticket_question : value := VStr "Create a ticket for login issues".
Definition ticket_context : value := VDict [ ("user_id", VStr "u2") ].

(** The run of [process_request] in [routing_world], evaluated. *)
Definition ticket_run : result (value * value) * list event :=
  Eval vm_compute in process_request routing_world ticket_question
                                     ticket_context [].

(** Its response and the context it left to the caller. *)
Definition ticket_response : dict :=
  match fst ticket_run with
  | Ok (VDict resp, _) => resp
  | _ => []
  end.

Definition ticket_context_after : value :=
  match fst ticket_run with
  | Ok (_, context') => context'
  | _ => VNone
  end.

(** A decision step that fails. *)
Definition failing_step_world : world :=
  {| now := now quiet_world;
     model_id := model_id quiet_world;
     repr := repr quiet_world;
     json_loads := json_loads quiet_world;
     literal_eval := literal_eval quiet_world;
     memory_client := Ok tt;
     get_last_k_turns := get_last_k_turns quiet_world;
     retrieve_memories := retrieve_memories quiet_world;
     invoke_async := fun _ => Raise (ExternalError "ThrottlingException");
     agent_conversation := None;
     app_get_runtime_session_id := None;
     app_runtime_session_id := None |}.

(** A request without question that carries a context. *)
Definition no_question_request : dict :=
  [ ("context", VDict [ ("request_id", VStr "r-1") ]) ].

(** An empty top-level [session_id] next to a session id in the context; a
    request that stops at the gate; a platform object that exposes the
    session id it generated. *)
Definition empty_session_request : dict :=
  [ ("input", VStr "hi"); ("session_id", VStr "");
    ("context", VDict [ ("runtimeSessionId", VStr "rt-42") ]) ].

(** A platform object with a [runtime_session_id] attribute. *)
Definition exposing_world : world :=
  {| now := now quiet_world;
     model_id := model_id quiet_world;
     repr := repr quiet_world;
     json_loads := json_loads quiet_world;
     literal_eval := literal_eval quiet_world;
     memory_client := Ok tt;
     get_last_k_turns := get_last_k_turns quiet_world;
     retrieve_memories := retrieve_memories quiet_world;
     invoke_async := invoke_async quiet_world;
     agent_conversation := None;
     app_get_runtime_session_id := None;
     app_runtime_session_id := Some (VStr "generated-7") |}.

(* ===================================================================== *)
(** ** Further vocabulary: the external calls of a request *)
(* ===================================================================== *)

(** The three Memory Store calls of long-term retrieval (lines 228, 236,
    247), in the order the code makes them. *)
Definition memory_calls (w : world) (question : value) (context : dict)
           (uid : value) : list event :=
  [ EvMemoryClient;
    EvGetLastKTurns uid (replay_session context uid) 5;
    EvRetrieveMemories ("support/user/" ++ str_of w uid ++ "/preferences")
                       question 3 ].

(** Lines 267-275: the block that replays the turns found. *)
Definition replayed_turns_block (w : world) (recent_turns : value)
  : result string :=
  (_ <~ py_len recent_turns ;;
   body <~ render_turns w ltm_turns_header recent_turns ;;
   Ok (body ++ ltm_end ++ ltm_turns_critical))%res.

(** The calls a run appended to the log it started from. *)
Definition appended {A} (log : list event) (run : A * list event)
           (new : list event) : Prop :=
  snd run = (log ++ new)%list.

(** Nothing, or one call of the decision step. *)
Definition at_most_one_decision (calls : list event) : Prop :=
  calls = [] \/ exists prompt, calls = [ EvInvoke prompt ].

(** The Memory Store calls [send_message] can cause for a request: the
    replay is keyed by the resolved identity as actor and by the resolved
    session, or the identity when the request names no session. *)
Definition request_memory_calls (w : world) (request context : dict)
  : list event :=
  let uid := identity_of request context in
  let rsid := session_of request context in
  [ EvMemoryClient;
    EvGetLastKTurns uid (if truthy rsid then rsid else uid) 5;
    EvRetrieveMemories ("support/user/" ++ str_of w uid ++ "/preferences")
                       (extract_question request) 3 ].

(** The agents whose keyword occurs in a lowered message, in the order
    of [agent_keywords]. *)
Definition keyword_hits (message_lower : string) : list string :=
  map snd (filter (fun kw => contains (fst kw) message_lower) agent_keywords).

(** [trace_item.get("action") == action] *)
Definition has_action (action : string) (trace_item : value) : bool :=
  match entry_field "action" trace_item with
  | VStr a => String.eqb a action
  | _ => false
  end.

(** No entry of the trace has the given action. *)
Definition without_action (action : string) (trace : list value) : Prop :=
  Forall (fun item => has_action action item = false) trace.

(** The three entries trace reconstruction appends (lines 395-400,
    407-411, 465-470). *)
Definition router_entry (trace_item : value) : Prop :=
  (exists n url, trace_item = agent_entry n url)
  \/ (exists n, trace_item = detected_entry n)
  \/ (exists t, trace_item = tool_entry t).

(** An agent-routing record whose arguments are a text that is not JSON,
    and a decision step that reports it next to its answer. *)
Definition garbled_call : value :=
  VDict [ ("name", VStr "a2a_send_message");
          ("arguments", VStr "target_agent_url=http://127.0.0.1:9003") ].

Definition garbled_answer : value :=
  VObj [ ("tool_calls", VList [ garbled_call ]);
         ("message", VDict [ ("content", VStr "Ticket created.") ]) ].

Definition garbled_world : world :=
  {| now := now quiet_world;
     model_id := model_id quiet_world;
     repr := repr quiet_world;
     json_loads := json_loads quiet_world;
     literal_eval := literal_eval quiet_world;
     memory_client := Ok tt;
     get_last_k_turns := get_last_k_turns quiet_world;
     retrieve_memories := retrieve_memories quiet_world;
     invoke_async := fun _ => Ok garbled_answer;
     agent_conversation := None;
     app_get_runtime_session_id := None;
     app_runtime_session_id := None |}.

(** The result object of [routing_world]. *)
Definition routing_answer : value :=
  VObj [ ("tool_calls", VList reported_calls);
         ("message", VDict [ ("content", VStr "Ticket created.") ]) ].

(** The keys [send_message] writes into the response [process_request]
    returned (lines 674-761). *)
Definition send_message_keys : list string :=
  [ "auth_info"; "processing_steps"; "memory_info"; "session_info";
    "session_id"; "context" ].

(** Lines 674-678: the condition of the details and the [auth_info]
    they carry. *)
Definition details_wanted (include_details : value) (context : dict) : bool :=
  truthy include_details
  && truthy (dget context "authenticated" (VBool false)).

Definition auth_info_of (context : dict) : value :=
  VDict [ ("department", dget context "department" (VStr "general"));
          ("permissions", dget context "permissions" (VList []));
          ("username", dget context "username" VNone) ].

(** Lines 716-720 *)
Definition memory_info_of (n : Z) (context : dict) : value :=
  VDict [ ("memory_enabled", VBool true);
          ("conversation_length", VInt n);
          ("user_context_stored",
           dget context "authenticated" (VBool false)) ].

(** Lines 756-761: the context of the response when the session is
    known. *)
Definition echo_session (runtime_session_id : value) (c : dict) : dict :=
  if truthy runtime_session_id
  then dict_set "session_id" runtime_session_id
         (dict_set "runtime_session_id" runtime_session_id c)
  else c.

(** A request for a ticket, as it reaches the entry point. *)
Definition ticket_request : dict :=
  [ ("input", VStr "Create a ticket for login issues");
    ("context", VDict [ ("user_id", VStr "u2") ]) ].

(** The keys of the context that [send_message] or [process_request]
    write (lines 636-662, 512, 759-760). *)
Definition router_context_keys : list string :=
  [ "user_id"; "username"; "customer_tier"; "department"; "permissions";
    "authenticated"; "runtime_session_id"; "memory_enabled";
    "conversation_context"; "session_id" ].

(** A request for details by an authenticated user. *)
Definition details_request : dict :=
  [ ("input", VStr "hi"); ("include_details", VBool true);
    ("context", VDict [ ("user_id", VStr "u1");
                        ("authenticated", VBool true);
                        ("tenant", VStr "acme") ]) ].

(** An answer in two content blocks, and a platform whose printer and
    literal parser agree on it. *)
Definition two_blocks : value :=
  VList [ VDict [ ("text", VStr "Hello") ];
          VDict [ ("text", VStr "world") ] ].

Definition blocks_world : world :=
  {| now := now quiet_world;
     model_id := model_id quiet_world;
     repr := fun _ => "[{'text': 'Hello'}, {'text': 'world'}]";
     json_loads := json_loads quiet_world;
     literal_eval := fun s =>
       if String.eqb s "[{'text': 'Hello'}, {'text': 'world'}]"
       then Ok two_blocks
       else Raise (ExternalError "malformed node or string");
     memory_client := Ok tt;
     get_last_k_turns := get_last_k_turns quiet_world;
     retrieve_memories := retrieve_memories quiet_world;
     invoke_async := invoke_async quiet_world;
     agent_conversation := None;
     app_get_runtime_session_id := None;
     app_runtime_session_id := None |}.

(* ===================================================================== *)
(** ** The UI client: the request [invoke_agent] builds
       (src/ui/ui.py, lines 260-305) *)
(* ===================================================================== *)

(** The fields of [st.session_state] that [invoke_agent] reads;
    [persistent_user_id] is [None] when the key is absent. *)
Record session_state : Type := {
  ss_authenticated : value;
  ss_user_info : value;
  ss_persistent_user_id : value;
  ss_conversation_history : value
}.

(** Lines 264-271: the identity used when the caller passes none. *)
Definition effective_user_id (ss : session_state) (user_id : value)
  : result value :=
  if negb (truthy user_id) then
    (a <~ m_get (ss_user_info ss) "user_id" VNone ;;
     if truthy a then Ok a
     else
       b <~ m_get (ss_user_info ss) "username" VNone ;;
       if truthy b then Ok b
       else Ok (py_or (ss_persistent_user_id ss) (VStr "ui-user")))%res
  else Ok user_id.

(** Lines 280-294: the user part of the context. *)
Definition ui_user_context (ss : session_state) (user_id : value)
  : result dict :=
  if truthy (ss_authenticated ss) && truthy (ss_user_info ss) then
    (a <~ m_get (ss_user_info ss) "user_id" VNone ;;
     username <~ m_get (ss_user_info ss) "username" VNone ;;
     department <~ m_get (ss_user_info ss) "custom:department"
                         (VStr "general") ;;
     email <~ m_get (ss_user_info ss) "email" VNone ;;
     Ok [ ("user_id", py_or a user_id);
          ("username", username);
          ("department", department);
          ("authenticated", VBool true);
          ("email", email) ])%res
  else Ok (dict_set "user_id" user_id []).

(** Lines 299-301: the history of the UI session and its session id. *)
Definition ui_history_context (ss : session_state) (session_id : value)
           (context : dict) : dict :=
  if truthy (ss_conversation_history ss)
  then dict_set "runtimeSessionId" session_id
         (dict_set "conversation_history" (ss_conversation_history ss)
                   context)
  else context.

(** Lines 264-305: the payload sent to the entry point. *)
Definition build_payload (ss : session_state)
           (message session_id user_id : value) : result dict :=
  (user_id <~ effective_user_id ss user_id ;;
   let payload := [ ("input", message); ("user_id", user_id);
                    ("session_id", session_id) ] in
   context <~ ui_user_context ss user_id ;;
   let context := ui_history_context ss session_id context in
   Ok (if truthy (VDict context)
       then dict_set "context" (VDict context) payload
       else payload))%res.

(** The context of a payload. *)
Definition payload_context (payload : dict) : dict :=
  match dget payload "context" (VDict []) with
  | VDict context => context
  | _ => []
  end.

(** A UI session of a signed-in user with one exchange behind it. *)
Definition signed_in_session : session_state :=
  {| ss_authenticated := VBool true;
     ss_user_info := VDict [ ("user_id", VStr "sub-1");
                             ("username", VStr "ana");
                             ("email", VStr "ana@example.com") ];
     ss_persistent_user_id := VStr "ui-user-1a2b3c4d";
     ss_conversation_history :=
       VList [ turn "user" "My name is Ana";
               turn "assistant" "Nice to meet you, Ana" ] |}.

(* ===================================================================== *)
(** ** The UI client: agents and tools read back from the response
       (src/ui/ui.py, lines 908-974) *)
(* ===================================================================== *)

(** [a == b] on the values a parsed JSON text holds: numbers and booleans
    compare by value, lists element by element, dicts key by key whatever
    the order.  Objects compare by identity, which the value model does
    not have; none occurs in a parsed response. *)
Fixpoint py_eq (a b : value) {struct a} : bool :=
  match a, b with
  | VNone, VNone => true
  | VBool x, VBool y => Bool.eqb x y
  | VBool x, VInt z => Z.eqb (if x then 1 else 0) z
  | VInt z, VBool x => Z.eqb z (if x then 1 else 0)
  | VInt x, VInt y => Z.eqb x y
  | VStr x, VStr y => String.eqb x y
  | VList l, VList m =>
      (fix all2 (l m : list value) {struct l} : bool :=
         match l, m with
         | [], [] => true
         | x :: l', y :: m' => py_eq x y && all2 l' m'
         | _, _ => false
         end) l m
  | VDict d, VDict e =>
      Nat.eqb (length d) (length e)
      && (fix all_in (d : list (string * value)) {struct d} : bool :=
            match d with
            | [] => true
            | (k, v) :: d' =>
                match lookup k e with
                | Some v' => py_eq v v'
                | None => false
                end && all_in d'
            end) d
  | _, _ => false
  end.

(** [x in l] *)
Definition py_in (x : value) (l : list value) : bool :=
  existsb (py_eq x) l.

(** Lines 955-960, in the order of the dict literal. *)
Definition agent_mapping : list (string * string) :=
  [ ("knowledge", "KnowledgeAgent");
    ("sentiment", "SentimentAgent");
    ("ticket", "TicketAgent");
    ("escalation", "EscalationAgent") ].

(** The text before the first occurrence of [sep] and the text after
    it, when there is one. *)
Fixpoint cut (sep s : string) : option (string * string) :=
  if String.prefix sep s
  then Some (EmptyString,
             String.substring (String.length sep)
                              (String.length s - String.length sep) s)
  else
    match s with
    | EmptyString => None
    | String c s' =>
        match cut sep s' with
        | Some (before, after) => Some (String c before, after)
        | None => None
        end
    end.

(** [s.split(sep)[0]] and [s.split(sep)[1]] for a text that holds
    [sep]. *)
Definition split_parts (sep s : string) : option (string * string) :=
  match cut sep s with
  | Some (part0, rest) =>
      Some (part0, match cut sep rest with
                   | Some (part1, _) => part1
                   | None => rest
                   end)
  | None => None
  end.

(** The three lists of lines 911-913. *)
Record ui_lists : Type := {
  ui_specialized_agents : list value;
  ui_mcp_tools_used : list string;
  ui_response_trace : list value
}.

Definition empty_ui_lists : ui_lists :=
  {| ui_specialized_agents := []; ui_mcp_tools_used := [];
     ui_response_trace := [] |}.

(** Lines 962-974: the first key of [agent_mapping] found in the
    lowered target name. *)
Fixpoint mapped_agent (target_lower : string)
         (mapping : list (string * string)) : option string :=
  match mapping with
  | [] => None
  | (key, agent_name) :: mapping' =>
      if contains key target_lower then Some agent_name
      else mapped_agent target_lower mapping'
  end.

Section UiReconstruction.
Variable w : world.

(** Lines 922-974: one call of one entry. *)
Definition ui_tool_call (timestamp : value) (st : ui_lists)
           (tool_call : value) : result ui_lists :=
  (tool_name <~ m_get tool_call "name" (VStr "") ;;
   match tool_name with
   | VStr name =>
       let lowered := lower name in
       if contains "a2a" lowered || contains "send_message" lowered then
         args <~ m_get tool_call "arguments" (VDict []) ;;
         let agent_name :=
           match parse_args w args with
           | VDict a => dget a "agent_name" VNone
           | _ => VNone
           end in
         if truthy agent_name
            && negb (py_in agent_name (ui_specialized_agents st))
         then
           Ok {| ui_specialized_agents :=
                   (ui_specialized_agents st ++ [agent_name])%list;
                 ui_mcp_tools_used := ui_mcp_tools_used st;
                 ui_response_trace :=
                   (ui_response_trace st
                      ++ [ VDict [ ("type", VStr "agent");
                                   ("name", agent_name);
                                   ("action", VStr "routed_to");
                                   ("timestamp", timestamp) ] ])%list |}
         else Ok st
       else if contains "___" name then
         match split_parts "___" name with
         | Some (target_name, tool_function) =>
             let tools :=
               if mem name (ui_mcp_tools_used st)
               then ui_mcp_tools_used st
               else (ui_mcp_tools_used st ++ [name])%list in
             match mapped_agent (lower target_name) agent_mapping with
             | Some agent_name =>
                 Ok {| ui_specialized_agents :=
                         if py_in (VStr agent_name) (ui_specialized_agents st)
                         then ui_specialized_agents st
                         else (ui_specialized_agents st
                                 ++ [VStr agent_name])%list;
                       ui_mcp_tools_used := tools;
                       ui_response_trace :=
                         (ui_response_trace st
                            ++ [ VDict [ ("type", VStr "tool");
                                         ("agent", VStr agent_name);
                                         ("tool", VStr name);
                                         ("function", VStr tool_function);
                                         ("action", VStr "called_mcp_tool");
                                         ("timestamp", timestamp) ] ])%list |}
             | None =>
                 Ok {| ui_specialized_agents := ui_specialized_agents st;
                       ui_mcp_tools_used := tools;
                       ui_response_trace := ui_response_trace st |}
             end
         | None => Ok st
         end
       else Ok st
   | v => no_attribute v "lower"
   end)%res.

(** Lines 917-974: one entry of [conversation_context]. *)
Definition ui_entry_step (st : ui_lists) (entry : value) : result ui_lists :=
  match entry with
  | VDict e =>
      (tool_calls <~ py_iter (dget e "tool_calls" (VList [])) ;;
       rfold (ui_tool_call (dget e "timestamp" (VStr "N/A"))) st tool_calls)%res
  | _ => Ok st
  end.

(** Lines 908-974: the lists the UI shows for a response without
    [error]. *)
Definition ui_reconstruct (response : dict) : result ui_lists :=
  (cc <~ m_get (dget response "context" (VDict []))
               "conversation_context" (VList []) ;;
   entries <~ py_iter cc ;;
   rfold ui_entry_step empty_ui_lists entries)%res.

End UiReconstruction.

(** What the UI reads back agrees with the lists of the Router: the
    same tools, and every agent of the Router among its agents. *)
Definition read_back (w : world) (st : trace_state) (u : ui_lists) : Prop :=
  rfold (ui_entry_step w) empty_ui_lists
        (conversation_context w (response_trace st)) = Ok u
  /\ ui_mcp_tools_used u = mcp_tools_used st
  /\ forall n, In n (specialized_agents st) ->
               In (VStr n) (ui_specialized_agents u).

(* ===================================================================== *)
(** ** The UI client: the JSON text in the output of the command line
       (src/ui/ui.py, lines 378-454) *)
(* ===================================================================== *)

Definition backslash : ascii := ascii_of_nat 92.
Definition quote : ascii := ascii_of_nat 34.
Definition newline : ascii := ascii_of_nat 10.
Definition carriage_return : ascii := ascii_of_nat 13.
Definition tab : ascii := ascii_of_nat 9.

(** Lines 381-406: the loop that looks for the brace closing the first
    object; [i] is the index of the next character, the result is
    [json_end], [-1] when the loop ends without [break]. *)
Fixpoint scan_braces (s : string) (i brace_count : Z)
         (in_string escape_next : bool) : Z :=
  match s with
  | EmptyString => (-1)%Z
  | String char s' =>
      if escape_next then
        scan_braces s' (i + 1)%Z brace_count in_string false
      else if Ascii.eqb char backslash then
        scan_braces s' (i + 1)%Z brace_count in_string true
      else if Ascii.eqb char quote then
        scan_braces s' (i + 1)%Z brace_count (negb in_string) false
      else if negb in_string then
        if Ascii.eqb char "{" then
          scan_braces s' (i + 1)%Z (brace_count + 1)%Z in_string false
        else if Ascii.eqb char "}" then
          if Z.eqb (brace_count - 1) 0 then (i + 1)%Z
          else scan_braces s' (i + 1)%Z (brace_count - 1)%Z in_string false
        else scan_braces s' (i + 1)%Z brace_count in_string false
      else scan_braces s' (i + 1)%Z brace_count in_string false
  end.

(** Lines 378-409: [json_candidate[:json_end]] when [json_end > 0]. *)
Definition json_text (json_candidate : string) : option string :=
  let json_end := scan_braces json_candidate 0 0 false false in
  if Z.ltb 0 json_end
  then Some (String.substring 0 (Z.to_nat json_end) json_candidate)
  else None.

Definition hex_digit (n : nat) : ascii :=
  if Nat.ltb n 10 then ascii_of_nat (48 + n) else ascii_of_nat (87 + n).

(** [f'\\u{ord(char):04x}'] for a character below 256. *)
Definition unicode_escape (char : ascii) : string :=
  String backslash
    (String "u"
       (String "0"
          (String "0"
             (String (hex_digit (nat_of_ascii char / 16))
                (String (hex_digit (nat_of_ascii char mod 16))
                   EmptyString))))).

(** Lines 414-452: control characters inside string literals are
    replaced by their escapes. *)
Fixpoint fix_control (s : string) (in_string escape_next : bool) : string :=
  match s with
  | EmptyString => EmptyString
  | String char s' =>
      if escape_next then String char (fix_control s' in_string false)
      else if Ascii.eqb char backslash then
        String char (fix_control s' in_string true)
      else if Ascii.eqb char quote then
        String char (fix_control s' (negb in_string) false)
      else if in_string && Ascii.eqb char newline then
        String backslash (String "n" (fix_control s' in_string false))
      else if in_string && Ascii.eqb char carriage_return then
        String backslash (String "r" (fix_control s' in_string false))
      else if in_string && Nat.ltb (nat_of_ascii char) 32
              && negb (Ascii.eqb char tab) then
        unicode_escape char ++ fix_control s' in_string false
      else String char (fix_control s' in_string false)
  end.

(** Lines 411-454 *)
Definition fixed_json (json_str : string) : string :=
  fix_control json_str false false.

(** No control character other than the tab. *)
Fixpoint printable (s : string) : bool :=
  match s with
  | EmptyString => true
  | String char s' =>
      (negb (Nat.ltb (nat_of_ascii char) 32) || Ascii.eqb char tab)
      && printable s'
  end.

(** The output of the command line for an answer with a line break in
    its message, followed by a line of the tool. *)
Definition cli_candidate : string :=
  "{" ++ dq ++ "message" ++ dq ++ ": " ++ dq ++ "Hi {you}" ++ nl ++ "there"
      ++ dq ++ ", " ++ dq ++ "context" ++ dq ++ ": {}}" ++ nl ++ "Done {1}".

(** A character the repair loop copies without changing its state. *)
Definition plain (char : ascii) : Prop :=
  Ascii.eqb char backslash = false /\ Ascii.eqb char quote = false
  /\ Ascii.eqb char newline = false
  /\ Ascii.eqb char carriage_return = false
  /\ Nat.ltb (nat_of_ascii char) 32 = false.

(** A decision step whose result object reports one call, on an agent
    whose interaction log holds another one and a message that is not
    a mapping. *)
Definition logging_world : world :=
  {| now := now quiet_world;
     model_id := model_id quiet_world;
     repr := repr quiet_world;
     json_loads := json_loads quiet_world;
     literal_eval := literal_eval quiet_world;
     memory_client := Ok tt;
     get_last_k_turns := get_last_k_turns quiet_world;
     retrieve_memories := retrieve_memories quiet_world;
     invoke_async := invoke_async quiet_world;
     agent_conversation :=
       Some (VList [ VStr "hello";
                     VDict [ ("role", VStr "assistant");
                             ("tool_calls", VList [ search_tool_call ]) ] ]);
     app_get_runtime_session_id := None;
     app_runtime_session_id := None |}.

Definition reporting_answer : value :=
  VObj [ ("tool_calls", VList [ kb_tool_call ]);
         ("message", VDict [ ("content", VStr "Done.") ]) ].

(** A message of a replayed turn: a mapping with a text role and a
    content mapping. *)
Definition replayed_message (message : value) : Prop :=
  exists d r c,
    message = VDict d
    /\ dget d "role" (VStr "unknown") = VStr r
    /\ dget d "content" (VDict []) = VDict c.

Section ReplayLines.
Variable w : world.

(** The line of one replayed message, [ROLE: text]; nothing for a
    message without text. *)
Definition replay_line (message : value) : string :=
  match message with
  | VDict d =>
      match dget d "role" (VStr "unknown"), dget d "content" (VDict []) with
      | VStr r, VDict c =>
          if truthy (dget c "text" (VStr ""))
          then upper r ++ ": " ++ str_of w (dget c "text" (VStr "")) ++ nl
          else ""
      | _, _ => ""
      end
  | _ => ""
  end.

(** The lines of the messages of the turns, turn after turn. *)
Definition replay_lines (turns : list (list value)) : string :=
  fold_right (fun message rest => replay_line message ++ rest) ""
             (concat turns).

End ReplayLines.

(** A Memory Store that replays one turn of two messages, the second
    one without text. *)
Definition replay_world : world :=
  {| now := now quiet_world;
     model_id := model_id quiet_world;
     repr := repr quiet_world;
     json_loads := json_loads quiet_world;
     literal_eval := literal_eval quiet_world;
     memory_client := Ok tt;
     get_last_k_turns := fun _ _ _ =>
       Ok (VList (map VList
                    [ [ VDict [ ("role", VStr "user");
                                ("content",
                                 VDict [ ("text", VStr "My name is Ana") ]) ];
                        VDict [ ("role", VStr "assistant");
                                ("content", VDict []) ] ] ]));
     retrieve_memories := retrieve_memories quiet_world;
     invoke_async := invoke_async quiet_world;
     agent_conversation := None;
     app_get_runtime_session_id := None;
     app_runtime_session_id := None |}.

(** src/ui/ui.py, lines 245-257: the user information read from the
    claims of an ID token; [decoded] is the result of [decode_token],
    [None] when the token cannot be read. *)
Definition get_user_info_from_token (decoded : value) : result dict :=
  if negb (truthy decoded) then Ok []
  else
    (cognito_username <~ m_get decoded "cognito:username" VNone ;;
     username <~ (if truthy cognito_username then Ok cognito_username
                  else m_get decoded "sub" VNone) ;;
     email <~ m_get decoded "email" VNone ;;
     email_verified <~ m_get decoded "email_verified" (VBool false) ;;
     user_id <~ m_get decoded "sub" VNone ;;
     groups <~ m_get decoded "cognito:groups" (VList []) ;;
     department <~ m_get decoded "custom:department" (VStr "general") ;;
     Ok [ ("username", username);
          ("email", email);
          ("email_verified", email_verified);
          ("user_id", user_id);
          ("groups", groups);
          ("custom:department", department) ])%res.

(** The claims of a token, and the UI session after signing in with
    it. *)
Definition ana_claims : dict :=
  [ ("sub", VStr "sub-1"); ("cognito:username", VStr "ana");
    ("email", VStr "ana@example.com");
    ("custom:department", VStr "billing") ].

Definition ana_session : session_state :=
  {| ss_authenticated := VBool true;
     ss_user_info :=
       match get_user_info_from_token (VDict ana_claims) with
       | Ok info => VDict info
       | Raise _ => VDict []
       end;
     ss_persistent_user_id := VStr "ui-user-1a2b3c4d";
     ss_conversation_history := VList [] |}.

(* ===================================================================== *)
(** ** The missing-question gate *)
(* ===================================================================== *)

(** C4, as amended.  When none of [input], [prompt], [question] holds a
    truthy value, [send_message] returns the envelope
    [{"error": no_question_error}], whose text names the three aliases, and
    the call log is returned unchanged: no Memory Store call and no
    decision-step call was made. *)
Theorem C4_missing_question_gate (w : world) (request : dict)
        (log : list event) :
  truthy (dget request "input" VNone) = false ->
  truthy (dget request "prompt" VNone) = false ->
  truthy (dget request "question" VNone) = false ->
  send_message w (VDict request) log
    = (Ok (VDict [ ("error", VStr no_question_error) ]), log)
  /\ names_aliases no_question_error = true.
Proof.
  intros Hi Hp Hq. split; [|reflexivity].
  unfold send_message, try_except. cbn [as_mapping].
  unfold extract_question, py_or. rewrite Hi, Hp, Hq. reflexivity.
Qed.

Lemma C4_missing_question_gate_witness :
  send_message quiet_world (VDict []) []
    = (Ok (VDict [ ("error", VStr no_question_error) ]), [])
  /\ names_aliases no_question_error = true.
Proof.
  apply (C4_missing_question_gate quiet_world [] []); reflexivity.
Defined.

(** C4 as stated fails: no alias of [numeric_input_request] holds a
    non-empty text, yet the request passes the gate, the decision step is
    called and the response is a processed one without [error]. *)
Lemma C4_counterexample_numeric_input :
  (forall k s, lookup k numeric_input_request = Some (VStr s) -> s = "")
  /\ response_field "error"
       (send_message quiet_world (VDict numeric_input_request) []) = None
  /\ response_field "status"
       (send_message quiet_world (VDict numeric_input_request) [])
     = Some (VStr "processed")
  /\ existsb is_decision_event
       (calls_made (send_message quiet_world (VDict numeric_input_request) []))
     = true.
Proof.
  split.
  - intros k s. unfold numeric_input_request. cbn [lookup].
    destruct (String.eqb k "input"); discriminate.
  - vm_compute. repeat split.
Qed.

(* ===================================================================== *)
(** ** Identity resolution *)
(* ===================================================================== *)

Lemma truthy_str_nonempty (s : string) :
  truthy (VStr s) = true -> s <> "".
Proof.
  cbn. intros H ->. discriminate.
Qed.

Lemma dget_text (k : string) (d : dict) :
  text_or_absent k d ->
  truthy (dget d k VNone) = true ->
  exists s, dget d k VNone = VStr s /\ s <> "".
Proof.
  unfold text_or_absent, dget. intros Ht Htr.
  destruct (lookup k d) as [v|] eqn:E; [|discriminate].
  specialize (Ht v eq_refl). destruct v; try discriminate.
  exists s. split; [reflexivity|]. now apply truthy_str_nonempty.
Qed.

(** C1, as amended.  When the request's [context] is absent, falsy or a
    mapping, identity resolution succeeds; the identity is
    [context.user_id] when that is truthy, else the top-level [user_id]
    when that is truthy, else ["anonymous"]; it is never a falsy value;
    and it is a non-empty string whenever the two [user_id] fields hold
    strings or are absent. *)
Theorem C1_identity_precedence (request context : dict) :
  extract_context request = VDict context ->
  resolve_identity request (extract_context request)
    = Ok (identity_of request context)
  /\ truthy (identity_of request context) = true
  /\ (truthy (dget context "user_id" VNone) = true ->
      identity_of request context = dget context "user_id" VNone)
  /\ (text_or_absent "user_id" context ->
      text_or_absent "user_id" request ->
      exists s, identity_of request context = VStr s /\ s <> "").
Proof.
  intros ->. unfold resolve_identity, identity_of, py_or. cbn [m_get rbind].
  destruct (truthy (dget context "user_id" VNone)) eqn:Ec;
    [|destruct (truthy (dget request "user_id" VNone)) eqn:Er].
  - repeat split; auto. intros Hc _. now apply dget_text.
  - repeat split; auto; try discriminate. intros _ Hr. now apply dget_text.
  - repeat split; auto; try discriminate.
    intros _ _. exists "anonymous". split; [reflexivity|discriminate].
Qed.

Lemma C1_identity_precedence_witness :
  resolve_identity both_ids_request (extract_context both_ids_request)
    = Ok (VStr "ctx").
Proof.
  exact (proj1 (@C1_identity_precedence both_ids_request
                  [ ("user_id", VStr "ctx") ] eq_refl)).
Defined.

(** C1 as stated fails: the identity resolved for [numeric_id_request] is
    the number 42, not a string, and it is echoed as such; resolution
    raises for [text_context_request], whose [context] is not a mapping. *)
Lemma C1_counterexample_identity_not_text :
  resolve_identity numeric_id_request (extract_context numeric_id_request)
    = Ok (VInt 42)
  /\ response_field2 "context" "user_id"
       (send_message quiet_world (VDict numeric_id_request) [])
     = Some (VInt 42)
  /\ resolve_identity text_context_request
       (extract_context text_context_request)
     = Raise (AttributeError "'str' object has no attribute 'get'").
Proof.
  vm_compute. repeat split.
Qed.

(* ===================================================================== *)
(** ** Classification of tool calls *)
(* ===================================================================== *)

(** C9, as amended.  A call record whose name does not match the
    agent-routing signature, contains ["target"] (case-insensitively) and
    contains the separator ["___"] adds one trace entry of kind [tool] and
    its identifier to [mcp_tools_used], unless that exact identifier is
    recorded already, in which case nothing changes. *)
Theorem C9_tool_call_classified (w : world) (st : trace_state)
        (tool_call : value) (tool_name : string) (tool_args : value) :
  call_name_args tool_call = Ok (VStr tool_name, tool_args) ->
  is_a2a_name (lower tool_name) = false ->
  contains "target" (lower tool_name) = true ->
  contains "___" tool_name = true ->
  exists st',
    classify_call w st tool_call = Ok st'
    /\ specialized_agents st' = specialized_agents st
    /\ (mem tool_name (mcp_tools_used st) = false ->
        mcp_tools_used st' = (mcp_tools_used st ++ [tool_name])%list
        /\ response_trace st'
           = (response_trace st
                ++ [ VDict [ ("type", VStr "tool"); ("tool", VStr tool_name);
                             ("action", VStr "called_mcp_tool") ] ])%list)
    /\ (mem tool_name (mcp_tools_used st) = true -> st' = st).
Proof.
  intros Hna Ha Ht Hs.
  unfold classify_call. rewrite Hna. cbn [rbind fst snd].
  rewrite Ha. unfold is_mcp_name. rewrite Ht, Hs. cbn [andb].
  destruct (mem tool_name (mcp_tools_used st)) eqn:Em; cbn [negb].
  - exists st. split; [reflexivity|]. split; [reflexivity|].
    split; [discriminate|reflexivity].
  - exists (add_tool st tool_name). split; [reflexivity|].
    split; [reflexivity|]. split; [|discriminate].
    intros _. split; reflexivity.
Qed.

Lemma C9_tool_call_classified_witness :
  exists st',
    classify_call quiet_world empty_trace search_tool_call = Ok st'
    /\ mcp_tools_used st'
       = [ "dev-customer-support-knowledge-search-target___search" ].
Proof.
  destruct (@C9_tool_call_classified quiet_world empty_trace search_tool_call
              "dev-customer-support-knowledge-search-target___search"
              (VDict [ ("query", VStr "reset password") ])
              eq_refl eq_refl eq_refl eq_refl)
    as (st' & Hc & _ & Hnew & _).
  exists st'. split; [exact Hc|]. exact (proj1 (Hnew eq_refl)).
Defined.

(** C9 as stated fails: the name of [kb_tool_call] has the compound form
    and does not match the agent-routing signature, yet no trace entry is
    added and nothing is recorded in [mcp_tools_used]. *)
Lemma C9_counterexample_no_target_in_name :
  call_name_args kb_tool_call
    = Ok (VStr "kb___search", VDict [ ("query", VStr "reset password") ])
  /\ is_a2a_name (lower "kb___search") = false
  /\ contains "___" "kb___search" = true
  /\ classify_call quiet_world empty_trace kb_tool_call = Ok empty_trace.
Proof.
  vm_compute. repeat split.
Qed.

(* ===================================================================== *)
(** ** The window of the caller's history *)
(* ===================================================================== *)

Lemma append_assoc (a b c : string) : (a ++ b) ++ c = a ++ (b ++ c).
Proof.
  induction a as [|ch a IH]; cbn; [reflexivity|]. now rewrite IH.
Qed.



Section HistoryWindow.
Variable w : world.


End HistoryWindow.



(* ===================================================================== *)
(** ** Long-term retrieval *)
(* ===================================================================== *)

Section LongTermRetrieval.
Variable w : world.

(** The [try] around semantic retrieval absorbs every exception. *)
Lemma semantic_stage_total (question uid : value) (log : list event) :
  exists history_text,
    semantic_stage w question uid log
      = (Ok history_text,
         (log ++ [ EvRetrieveMemories
                     ("support/user/" ++ str_of w uid ++ "/preferences")
                     question 3 ])%list).
Proof.
  unfold semantic_stage.
  destruct (retrieve_memories w _ question 3) as [memories|e];
    [|eexists; reflexivity].
  destruct (truthy memories); [|eexists; reflexivity].
  destruct (py_len memories); [|eexists; reflexivity].
  destruct (py_iter memories) as [ms|]; [|eexists; reflexivity].
  destruct (render_memories w ltm_prefs_header ms) as [txt [e|]];
    eexists; reflexivity.
Qed.

(** When the replay of recent turns gives nothing, the block is the
    no-history notice, whatever semantic retrieval returned or raised. *)
Lemma ltm_block_without_turns (question : value) (context : dict)
      (uid turns : value) (log : list event) :
  memory_client w = Ok tt ->
  get_last_k_turns w uid (replay_session context uid) 5 = Ok turns ->
  truthy turns = false ->
  ltm_block w question context uid log
    = (Ok (no_ltm_notice w uid),
       (log ++ [ EvMemoryClient ]
            ++ [ EvGetLastKTurns uid (replay_session context uid) 5 ]
            ++ [ EvRetrieveMemories
                   ("support/user/" ++ str_of w uid ++ "/preferences")
                   question 3 ])%list).
Proof.
  intros Hc Hturns Hfalsy.
  unfold ltm_block, try_except, bind, call. rewrite Hc.
  fold (replay_session context uid). rewrite Hturns, Hfalsy. cbn [negb].
  destruct (semantic_stage_total question uid
              ((log ++ [EvMemoryClient])
                 ++ [EvGetLastKTurns uid (replay_session context uid) 5])%list)
    as (h & ->).
  unfold ret. now rewrite <- !app_assoc.
Qed.

(** When the Memory Store client cannot be built or the replay call
    raises, the block is the notice of the handler. *)
Lemma ltm_block_client_fails (question : value) (context : dict)
      (uid : value) (log : list event) (e : exn) :
  memory_client w = Raise e ->
  ltm_block w question context uid log
    = (Ok (ltm_failed_notice w uid), (log ++ [ EvMemoryClient ])%list).
Proof.
  intros Hc. unfold ltm_block, try_except, bind, call. now rewrite Hc.
Qed.

Lemma ltm_block_replay_fails (question : value) (context : dict)
      (uid : value) (log : list event) (e : exn) :
  memory_client w = Ok tt ->
  get_last_k_turns w uid (replay_session context uid) 5 = Raise e ->
  ltm_block w question context uid log
    = (Ok (ltm_failed_notice w uid),
       (log ++ [ EvMemoryClient ]
            ++ [ EvGetLastKTurns uid (replay_session context uid) 5 ])%list).
Proof.
  intros Hc Hturns. unfold ltm_block, try_except, bind, call. rewrite Hc.
  fold (replay_session context uid). rewrite Hturns.
  unfold ret. now rewrite <- !app_assoc.
Qed.

End LongTermRetrieval.

(** C2 does not hold of the code.  With no recent turns and one semantic
    match, lines 253-261 build the USER PREFERENCES/FACTS block, but the
    [else] of line 276 then assigns the no-history notice: the block handed
    to the prompt is the notice, and the prompt sent to the decision step
    carries neither the label nor the matched text. *)
Theorem C2_semantic_match_overwritten :
  fst (semantic_stage preferences_world (VStr "How should you contact me?")
                      (VStr "u1") [])
    = Ok (ltm_prefs_header ++ "Prefers email contact" ++ nl
            ++ ltm_end ++ ltm_prefs_critical)
  /\ fst (history_block preferences_world (VStr "How should you contact me?")
                        [ ("user_id", VStr "u1") ] (VStr "u1") [])
     = Ok (no_ltm_notice preferences_world (VStr "u1"))
  /\ response_field "status" (send_message preferences_world preferences_request [])
     = Some (VStr "processed")
  /\ forallb (fun p => negb (contains "USER PREFERENCES/FACTS" p)
                       && negb (contains "Prefers email contact" p)
                       && contains "NO CONVERSATION HISTORY IN THIS SESSION" p)
             (prompts (calls_made
                         (send_message preferences_world preferences_request [])))
     = true
  /\ length (prompts (calls_made
                        (send_message preferences_world preferences_request [])))
     = 1.
Proof.
  vm_compute. repeat split.
Qed.

(* ===================================================================== *)
(** ** Reading [process_request] on a supplied context *)
(* ===================================================================== *)

Lemma prefix_append (a b : string) : String.prefix a (a ++ b) = true.
Proof.
  induction a as [|c a IH]; cbn.
  - now destruct b.
  - destruct (ascii_dec c c); [exact IH|contradiction].
Qed.

Section ProcessRequestFacts.
Variable w : world.

Lemma truthy_dict (d : dict) : d <> [] -> truthy (VDict d) = true.
Proof. destruct d; [contradiction|reflexivity]. Qed.

(** The body of [process_request], stage by stage, on a non-empty
    context mapping. *)
Lemma process_request_body_stages (question : value) (context : dict)
      (log : list event) :
  context <> [] ->
  process_request_body w question (VDict context) log
  = match history_block w question context (ltm_user_id context) log with
    | (Raise e, log1) => (Raise e, log1)
    | (Ok history_text, log1) =>
        match prompt_of w question context history_text with
        | Raise e => (Raise e, log1)
        | Ok prompt =>
            let log2 := (log1 ++ [ EvInvoke prompt ])%list in
            match invoke_async w prompt with
            | Raise e => (Raise e, log2)
            | Ok response =>
                match reconstruct_trace w response with
                | Raise e => (Raise e, log2)
                | Ok ms =>
                    (Ok (response_dict w (VDict context) (fst ms)
                           (dget context "authenticated" (VBool false))
                           (snd ms)), log2)
                end
            end
        end
    end.
Proof.
  intros Hne. unfold process_request_body, user_field.
  rewrite (truthy_dict Hne). cbn [m_get].
  unfold bind at 1 2 3 4 5. unfold lift at 1 2 3 4 5.
  unfold bind at 1. unfold build_prompt. rewrite (truthy_dict Hne).
  unfold bind at 1. fold (ltm_user_id context).
  destruct (history_block w question context (ltm_user_id context) log)
    as [[history_text|e] log1]; [|reflexivity].
  unfold lift at 1. fold (prompt_of w question context history_text).
  destruct (prompt_of w question context history_text) as [prompt|e];
    [|reflexivity].
  unfold bind at 1. unfold call.
  destruct (invoke_async w prompt) as [response|e]; [|reflexivity].
  unfold bind, lift, ret.
  destruct (reconstruct_trace w response) as [ms|e]; reflexivity.
Qed.

End ProcessRequestFacts.

(* ===================================================================== *)
(** ** Memory Store failures *)
(* ===================================================================== *)

Lemma response_dict_processed (w : world) (context message authenticated : value)
      (st : trace_state) :
  exists resp context',
    response_dict w context message authenticated st = (VDict resp, context')
    /\ lookup "status" resp = Some (VStr "processed")
    /\ lookup "message" resp = Some message
    /\ lookup "error" resp = None.
Proof.
  unfold response_dict. eexists. eexists. split; [reflexivity|].
  cbn. repeat split.
Qed.

(** C7.  For a request without in-session history and with a known
    identity, when a Memory Store call raises during long-term retrieval,
    the exception does not leave memory assembly: the memory block is a
    notice that opens with the NO CONVERSATION HISTORY banner; and whenever
    the prompt built around that notice can be printed, the decision step
    answers it and the answer can be read, [process_request] returns a
    response with status ["processed"], a [message] and no [error]. *)
Theorem C7_memory_failure_absorbed (w : world) (question : value)
        (context : dict) (log : list event) (notice : string) :
  context <> [] ->
  truthy (dget context "conversation_history" (VList [])) = false ->
  known_identity (ltm_user_id context) = true ->
  memory_failure w question context notice ->
  (exists log1,
      history_block w question context (ltm_user_id context) log
        = (Ok notice, log1)
      /\ startswith no_history_banner notice = true)
  /\ forall prompt response ms,
      prompt_of w question context notice = Ok prompt ->
      invoke_async w prompt = Ok response ->
      reconstruct_trace w response = Ok ms ->
      exists resp context' log2,
        process_request w question (VDict context) log
          = (Ok (VDict resp, context'), log2)
        /\ lookup "status" resp = Some (VStr "processed")
        /\ lookup "message" resp = Some (fst ms)
        /\ lookup "error" resp = None
        /\ In (EvInvoke prompt) log2.
Proof.
  intros Hne Hhist Hknown Hfail.
  assert (Hblock : exists log1,
             history_block w question context (ltm_user_id context) log
               = (Ok notice, log1)).
  { unfold history_block. rewrite Hhist, Hknown. cbn [negb andb].
    destruct Hfail as [e Hc|e Hc Hr|turns e Hc Hr Hf _].
    - eexists. eapply ltm_block_client_fails; eassumption.
    - eexists. eapply ltm_block_replay_fails; eassumption.
    - eexists. eapply ltm_block_without_turns; eassumption. }
  destruct Hblock as (log1 & Hblock). split.
  - exists log1. split; [exact Hblock|].
    unfold startswith.
    destruct Hfail; unfold ltm_failed_notice, no_ltm_notice;
      apply prefix_append.
  - intros prompt response ms Hp Hi Hr.
    destruct (response_dict_processed w (VDict context) (fst ms)
                (dget context "authenticated" (VBool false)) (snd ms))
      as (resp & context' & Hrd & Hs & Hm & He).
    exists resp, context', (log1 ++ [ EvInvoke prompt ])%list.
    split; [|repeat split; auto].
    + unfold process_request, try_except.
      rewrite (process_request_body_stages w question log Hne).
      rewrite Hblock, Hp. cbn zeta. rewrite Hi, Hr, Hrd. reflexivity.
    + apply in_or_app. right. now left.
Qed.

Lemma C7_memory_failure_absorbed_witness :
  exists resp context' log2,
    process_request timeout_world (VStr "What is my name?")
                    (VDict [ ("user_id", VStr "u1") ]) []
      = (Ok (VDict resp, context'), log2)
    /\ lookup "status" resp = Some (VStr "processed")
    /\ lookup "message" resp = Some (VStr "Hello").
Proof.
  destruct (@C7_memory_failure_absorbed timeout_world
              (VStr "What is my name?") [ ("user_id", VStr "u1") ] []
              (ltm_failed_notice timeout_world (VStr "u1")))
    as [_ Hrest].
  - discriminate.
  - reflexivity.
  - reflexivity.
  - exact (@replay_fails timeout_world (VStr "What is my name?")
             [ ("user_id", VStr "u1") ] (ExternalError "Read timed out")
             eq_refl eq_refl).
  - destruct (Hrest _ (plain_answer "Hello")
                    (VStr "Hello", empty_trace) eq_refl eq_refl eq_refl)
      as (resp & context' & log2 & Hp & Hs & Hm & _).
    exists resp, context', log2. repeat split; assumption.
Defined.

(* ===================================================================== *)
(** ** Where a call record routes to *)
(* ===================================================================== *)

Section Routing.
Variable w : world.

Lemma classify_call_routing (st : trace_state) (tool_call : value) :
  classify_call w st tool_call
    = (r <~ routing_of w tool_call ;; Ok (apply_routing st r))%res.
Proof.
  unfold classify_call, routing_of.
  destruct (call_name_args tool_call) as [[tool_name tool_args]|e];
    [|reflexivity].
  cbn [rbind fst snd].
  destruct tool_name; try reflexivity.
  destruct (is_a2a_name (lower s)).
  - destruct (target_url (parse_args w tool_args)) as [agent_url|e];
      [|reflexivity].
    cbn [rbind]. destruct (truthy agent_url); [|reflexivity].
    destruct (url_to_name agent_url) as [[n|]|e]; try reflexivity.
    cbn [rbind]. destruct (String.eqb n ""); cbn [negb andb rbind];
      [reflexivity|].
    unfold apply_routing. now destruct (mem n (specialized_agents st)).
  - destruct (is_mcp_name s (lower s)); [|reflexivity].
    cbn [rbind]. unfold apply_routing.
    now destruct (mem s (mcp_tools_used st)).
Qed.

End Routing.

(* ===================================================================== *)
(** ** The lists and the trace agree *)
(* ===================================================================== *)

Lemma mem_false_not_in (x : string) (l : list string) :
  mem x l = false -> ~ In x l.
Proof.
  unfold mem. intros H Hin.
  assert (existsb (String.eqb x) l = true); [|congruence].
  apply existsb_exists. exists x. split; [exact Hin|apply String.eqb_refl].
Qed.


Lemma nodup_snoc (x : string) (l : list string) :
  NoDup l -> ~ In x l -> NoDup (l ++ [x]).
Proof.
  intros Hl Hx. apply NoDup_app; [exact Hl|repeat constructor; intros []|].
  intros y Hy [<-|[]]. contradiction.
Qed.

Lemma fields_of_kind_snoc (kind field : string) (trace : list value)
      (item : value) :
  fields_of_kind kind field (trace ++ [item])
    = (fields_of_kind kind field trace
         ++ (if is_kind kind item then [entry_field field item] else []))%list.
Proof.
  unfold fields_of_kind. rewrite filter_app, map_app. cbn [filter].
  now destruct (is_kind kind item).
Qed.

Lemma consistent_empty : consistent empty_trace.
Proof.
  split; cbn; try reflexivity; constructor.
Qed.

Lemma consistent_add_agent (st : trace_state) (n : string) (entry : value) :
  consistent st -> mem n (specialized_agents st) = false ->
  agent_kind_entry n entry ->
  consistent (add_agent st n entry).
Proof.
  intros [Ha Ht Hna Hnt] Hm (Hk & Hk' & Hf).
  split; cbn [add_agent specialized_agents mcp_tools_used response_trace].
  - rewrite fields_of_kind_snoc, Hk, Hf, map_app, Ha. reflexivity.
  - rewrite fields_of_kind_snoc, Hk', app_nil_r. exact Ht.
  - apply nodup_snoc; [exact Hna|now apply mem_false_not_in].
  - exact Hnt.
Qed.

Lemma consistent_add_tool (st : trace_state) (name : string) :
  consistent st -> mem name (mcp_tools_used st) = false ->
  consistent (add_tool st name).
Proof.
  intros [Ha Ht Hna Hnt] Hm.
  split; cbn [add_tool specialized_agents mcp_tools_used response_trace].
  - rewrite fields_of_kind_snoc. cbn. rewrite app_nil_r. exact Ha.
  - rewrite fields_of_kind_snoc. cbn. rewrite map_app, Ht. reflexivity.
  - exact Hna.
  - apply nodup_snoc; [exact Hnt|now apply mem_false_not_in].
Qed.

Lemma consistent_apply_routing (st : trace_state) (r : routing) :
  consistent st -> consistent (apply_routing st r).
Proof.
  intros Hc. destruct r as [n url|name|]; cbn [apply_routing]; [| |exact Hc].
  - destruct (mem n (specialized_agents st)) eqn:Hm; [exact Hc|].
    apply consistent_add_agent; [exact Hc|exact Hm|]. repeat split.
  - destruct (mem name (mcp_tools_used st)) eqn:Hm; [exact Hc|].
    now apply consistent_add_tool.
Qed.

Lemma consistent_classify_calls (w : world) (calls : list value) :
  forall st st',
    consistent st ->
    rfold (classify_call w) st calls = Ok st' ->
    consistent st'.
Proof.
  induction calls as [|c calls IH]; intros st st' Hc; cbn [rfold].
  - now intros [= <-].
  - rewrite classify_call_routing.
    destruct (routing_of w c) as [r|e]; cbn [rbind]; [|discriminate].
    apply IH. now apply consistent_apply_routing.
Qed.

Lemma consistent_scan_keywords (message_lower : string)
      (keywords : list (string * string)) :
  forall st,
    consistent st ->
    consistent (fold_left (scan_keyword message_lower) keywords st).
Proof.
  induction keywords as [|[keyword agent_name] keywords IH]; intros st Hc;
    cbn [fold_left]; [exact Hc|].
  apply IH. unfold scan_keyword.
  destruct (contains keyword message_lower); cbn [andb]; [|exact Hc].
  destruct (mem agent_name (specialized_agents st)) eqn:Hm; cbn [negb];
    [exact Hc|].
  apply consistent_add_agent; [exact Hc|exact Hm|]. repeat split.
Qed.

Lemma consistent_reconstruct_trace (w : world) (response : value)
      (ms : value * trace_state) :
  reconstruct_trace w response = Ok ms -> consistent (snd ms).
Proof.
  unfold reconstruct_trace.
  destruct (discover_calls w response) as [tool_calls|]; [|discriminate].
  cbn [rbind]. unfold classify_calls.
  destruct (py_iter tool_calls) as [calls|]; [|discriminate]. cbn [rbind].
  destruct (rfold (classify_call w) empty_trace calls) as [st|] eqn:Hst;
    [|discriminate].
  cbn [rbind].
  destruct (extract_message w response) as [message|]; [|discriminate].
  cbn [rbind].
  assert (Hc : consistent st)
    by (eapply consistent_classify_calls; [apply consistent_empty|exact Hst]).
  unfold fallback_scan. destruct (specialized_agents st) eqn:Hs.
  - destruct (m_lower message) as [message_lower|]; [|discriminate].
    unfold rbind. intros Hms.
    assert (Hsnd : snd ms = fold_left (scan_keyword message_lower)
                                      agent_keywords st)
      by (now inversion Hms).
    rewrite Hsnd. now apply consistent_scan_keywords.
  - unfold rbind. intros Hms.
    assert (Hsnd : snd ms = st) by (now inversion Hms).
    rewrite Hsnd. exact Hc.
Qed.

(* ===================================================================== *)
(** ** Reading a processed response back *)
(* ===================================================================== *)

Lemma bind_ok_inv {A B} (m : M A) (k : A -> M B) (log log' : list event)
      (b : B) :
  bind m k log = (Ok b, log') ->
  exists a log1, m log = (Ok a, log1) /\ k a log1 = (Ok b, log').
Proof.
  unfold bind. destruct (m log) as [[a|e] log1]; [|discriminate].
  intros H. now exists a, log1.
Qed.

Lemma lift_ok_inv {A} (r : result A) (log log' : list event) (a : A) :
  lift r log = (Ok a, log') -> r = Ok a /\ log' = log.
Proof.
  unfold lift. now intros [= -> ->].
Qed.

Lemma process_request_processed_inv (w : world) (question context : value)
      (log log' : list event) (resp : dict) (context' : value) :
  process_request w question context log = (Ok (VDict resp, context'), log') ->
  lookup "status" resp = Some (VStr "processed") ->
  exists response ms authenticated,
    reconstruct_trace w response = Ok ms
    /\ response_dict w context (fst ms) authenticated (snd ms)
       = (VDict resp, context').
Proof.
  unfold process_request, try_except.
  destruct (process_request_body w question context log)
    as [[rc|e] log1] eqn:Hbody.
  - intros [= -> ->] _.
    unfold process_request_body in Hbody.
    apply bind_ok_inv in Hbody as (uid & l1 & _ & Hbody).
    apply bind_ok_inv in Hbody as (username & l2 & _ & Hbody).
    apply bind_ok_inv in Hbody as (department & l3 & _ & Hbody).
    apply bind_ok_inv in Hbody as (permissions & l4 & _ & Hbody).
    apply bind_ok_inv in Hbody as (authenticated & l5 & _ & Hbody).
    apply bind_ok_inv in Hbody as (prompt & l6 & _ & Hbody).
    apply bind_ok_inv in Hbody as (response & l7 & _ & Hbody).
    apply bind_ok_inv in Hbody as (ms & l8 & Hms & Hret).
    apply lift_ok_inv in Hms as [Hms _].
    exists response, ms, authenticated. split; [exact Hms|].
    unfold ret in Hret. congruence.
  - unfold ret, error_response. intros [= <- _ _]. cbn. discriminate.
Qed.

Lemma count_occ_map_VStr (names : list string) (n : string) :
  length (filter (fun v => match v with
                           | VStr m => String.eqb m n
                           | _ => false
                           end) (map VStr names))
    = count_occ string_dec names n.
Proof.
  induction names as [|m names IH]; cbn [map filter count_occ length];
    [reflexivity|].
  destruct (String.eqb_spec m n) as [->|Hne]; destruct (string_dec _ _);
    cbn [length]; congruence.
Qed.

Lemma entries_named_fields (kind field n : string) (trace : list value) :
  length (entries_named kind field n trace)
    = length (filter (fun v => match v with
                               | VStr m => String.eqb m n
                               | _ => false
                               end) (fields_of_kind kind field trace)).
Proof.
  unfold entries_named, fields_of_kind.
  induction trace as [|item trace IH]; cbn [filter map length];
    [reflexivity|].
  destruct (is_kind kind item); cbn [andb map filter]; [|exact IH].
  destruct (entry_field field item) as [| | |m| | |]; try exact IH.
  destruct (String.eqb m n); cbn [length]; congruence.
Qed.

(** With the invariant, a recorded name has exactly one trace entry. *)
Lemma consistent_one_entry (st : trace_state) :
  consistent st ->
  (forall n, In n (specialized_agents st) ->
             length (entries_named "agent" "name" n (response_trace st)) = 1)
  /\ (forall t, In t (mcp_tools_used st) ->
                length (entries_named "tool" "tool" t (response_trace st)) = 1).
Proof.
  intros [Ha Ht Hna Hnt]. split; intros n Hin.
  - rewrite entries_named_fields, <- Ha, count_occ_map_VStr.
    now apply NoDup_count_occ'.
  - rewrite entries_named_fields, <- Ht, count_occ_map_VStr.
    now apply NoDup_count_occ'.
Qed.

(** C10.  In every response with status ["processed"],
    [specialized_agents] lists, in order, the [name] fields of the trace
    entries of type [agent], and [mcp_tools_used] the [tool] fields of the
    entries of type [tool]; neither list repeats a name, and every listed
    agent or tool has exactly one trace entry of its kind. *)
Theorem C10_lists_match_trace (w : world) (question context : value)
        (log log' : list event) (resp : dict) (context' : value) :
  process_request w question context log = (Ok (VDict resp, context'), log') ->
  lookup "status" resp = Some (VStr "processed") ->
  exists agents tools trace,
    lookup "specialized_agents" resp = Some (VList (map VStr agents))
    /\ lookup "mcp_tools_used" resp = Some (VList (map VStr tools))
    /\ lookup "response_trace" resp = Some (VList trace)
    /\ map VStr agents = fields_of_kind "agent" "name" trace
    /\ map VStr tools = fields_of_kind "tool" "tool" trace
    /\ NoDup agents /\ NoDup tools
    /\ (forall n, In n agents ->
                  length (entries_named "agent" "name" n trace) = 1)
    /\ (forall t, In t tools ->
                  length (entries_named "tool" "tool" t trace) = 1).
Proof.
  intros Hrun Hstatus.
  destruct (process_request_processed_inv _ _ _ _ Hrun Hstatus)
    as (response & ms & authenticated & Hms & Hrd).
  pose proof (consistent_reconstruct_trace _ _ Hms) as Hc.
  destruct (consistent_one_entry Hc) as [Hone_a Hone_t].
  destruct Hc as [Ha Ht Hna Hnt].
  unfold response_dict in Hrd. injection Hrd as Hresp _. subst resp.
  exists (specialized_agents (snd ms)), (mcp_tools_used (snd ms)),
         (response_trace (snd ms)).
  cbn [lookup String.eqb Ascii.eqb Bool.eqb]. unfold strs.
  repeat split; auto.
Qed.

Lemma C10_lists_match_trace_witness :
  exists agents tools trace,
    lookup "specialized_agents" ticket_response = Some (VList (map VStr agents))
    /\ lookup "mcp_tools_used" ticket_response = Some (VList (map VStr tools))
    /\ lookup "response_trace" ticket_response = Some (VList trace)
    /\ map VStr agents = fields_of_kind "agent" "name" trace
    /\ map VStr tools = fields_of_kind "tool" "tool" trace
    /\ NoDup agents /\ NoDup tools
    /\ (forall n, In n agents ->
                  length (entries_named "agent" "name" n trace) = 1)
    /\ (forall t, In t tools ->
                  length (entries_named "tool" "tool" t trace) = 1).
Proof.
  apply (@C10_lists_match_trace routing_world ticket_question ticket_context
           [] (snd ticket_run) ticket_response ticket_context_after);
    vm_compute; reflexivity.
Defined.

(* ===================================================================== *)
(** ** First occurrence wins *)
(* ===================================================================== *)


Lemma rfold_app {A B} (f : A -> B -> result A) (l1 l2 : list B) :
  forall acc,
    rfold f acc (l1 ++ l2)
      = match rfold f acc l1 with
        | Ok acc1 => rfold f acc1 l2
        | Raise e => Raise e
        end.
Proof.
  induction l1 as [|x l1 IH]; intros acc; cbn [rfold app]; [reflexivity|].
  destruct (f acc x); [apply IH|reflexivity].
Qed.


Section FirstOccurrence.
Variable w : world.





End FirstOccurrence.



(* ===================================================================== *)
(** ** Dict updates *)
(* ===================================================================== *)

Lemma lookup_dict_set_eq (k : string) (v : value) (d : dict) :
  lookup k (dict_set k v d) = Some v.
Proof.
  induction d as [|[k' v'] d IH]; cbn [dict_set lookup].
  - now rewrite String.eqb_refl.
  - destruct (String.eqb k k') eqn:E; cbn [lookup].
    + now rewrite String.eqb_refl.
    + now rewrite E.
Qed.

Lemma lookup_dict_set_neq (k k' : string) (v : value) (d : dict) :
  String.eqb k k' = false ->
  lookup k (dict_set k' v d) = lookup k d.
Proof.
  intros Hne. induction d as [|[k'' v''] d IH]; cbn [dict_set lookup].
  - now rewrite Hne.
  - destruct (String.eqb k' k'') eqn:E; cbn [lookup].
    + apply String.eqb_eq in E. subst k''. now rewrite Hne.
    + now rewrite IH.
Qed.

Lemma dict_set_nonempty (k : string) (v : value) (d : dict) :
  dict_set k v d <> [].
Proof.
  destruct d as [|[k' v'] d]; cbn [dict_set]; [discriminate|].
  destruct (String.eqb k k'); discriminate.
Qed.

(* ===================================================================== *)
(** ** The two shapes of a response *)
(* ===================================================================== *)

Section ResponseShape.
Variable w : world.

(** [process_request] always returns a response mapping that carries a
    [context] mapping; the caller's context comes back either untouched or
    with [conversation_context] replaced by the projection of the trace. *)
Lemma process_request_shape (question : value) (context : dict)
      (log : list event) :
  context <> [] ->
  exists resp context' log',
    process_request w question (VDict context) log
      = (Ok (VDict resp, VDict context'), log')
    /\ shaped resp
    /\ lookup "context" resp = Some (VDict context')
    /\ (context' = context
        \/ exists cc,
            context' = dict_set "conversation_context" (VList cc) context).
Proof.
  intros Hne. unfold process_request, try_except.
  rewrite (process_request_body_stages w question log Hne).
  assert (Herr : forall e l,
             exists resp context' log',
               ret (error_response w e (VDict context), VDict context) l
                 = (Ok (VDict resp, VDict context'), log')
               /\ shaped resp
               /\ lookup "context" resp = Some (VDict context')
               /\ (context' = context
                   \/ exists cc,
                       context'
                       = dict_set "conversation_context" (VList cc) context)).
  { intros e l. unfold ret, error_response. rewrite (truthy_dict Hne).
    eexists. exists context, l. split; [reflexivity|].
    split; [left; split; [eexists|]; reflexivity|].
    split; [reflexivity|now left]. }
  destruct (history_block w question context (ltm_user_id context) log)
    as [[history_text|e] log1]; [|apply Herr].
  destruct (prompt_of w question context history_text) as [prompt|e];
    [|apply Herr].
  cbn zeta. destruct (invoke_async w prompt) as [response|e]; [|apply Herr].
  destruct (reconstruct_trace w response) as [ms|e]; [|apply Herr].
  unfold response_dict. rewrite (truthy_dict Hne).
  eexists. eexists. eexists. split; [reflexivity|].
  split; [right; split; [|split; [eexists|]]; reflexivity|].
  split; [reflexivity|]. right. eexists. reflexivity.
Qed.

End ResponseShape.

(* ===================================================================== *)
(** ** Reading [send_message] stage by stage *)
(* ===================================================================== *)

Lemma resolve_session_dict (request context : dict) :
  resolve_session request (VDict context) = Ok (session_of request context).
Proof.
  unfold resolve_session, session_of. cbn [m_get rbind].
  destruct (truthy (dget request "session_id" VNone)); [reflexivity|].
  now destruct (truthy (dget context "runtimeSessionId" VNone)).
Qed.

Lemma resolve_identity_dict (request context : dict) :
  resolve_identity request (VDict context) = Ok (identity_of request context).
Proof.
  unfold resolve_identity, identity_of, py_or. cbn [m_get rbind].
  destruct (truthy (dget context "user_id" VNone)); [reflexivity|].
  now destruct (truthy (dget request "user_id" VNone)).
Qed.

Section SendMessageFacts.
Variable w : world.

Lemma handle_stages (request : dict) (question include_details : value)
      (context : dict) (log : list event) :
  handle w request question (VDict context) include_details log
  = let rsid := session_of request context in
    let uid := identity_of request context in
    match log_history_length rsid
            (dget context "conversation_history" (VList [])) with
    | Raise e => (Raise e, log)
    | Ok _ =>
        match process_request w question
                (VDict (enhanced_context_of context uid rsid)) log with
        | (Ok rc, log1) =>
            (finish_response w include_details
                             (user_context_of context uid rsid)
                             rsid (fst rc) (snd rc), log1)
        | (Raise e, log1) => (Raise e, log1)
        end
    end.
Proof.
  unfold handle. rewrite resolve_session_dict, resolve_identity_dict.
  unfold bind at 1 2. unfold lift at 1 2. cbn zeta.
  fold (user_context_of context (identity_of request context)
                        (session_of request context)).
  fold (enhanced_context_of context (identity_of request context)
                            (session_of request context)).
  unfold bind at 1. unfold lift at 1.
  destruct (log_history_length _ _) as [n0|e0]; [|reflexivity].
  unfold bind at 1.
  destruct (process_request w question _ log) as [[rc|e] log1];
    [|reflexivity].
  unfold finish_response, bind, lift.
  destruct (add_details w include_details _ (fst rc)) as [r1|e];
    [|reflexivity].
  cbn [rbind].
  destruct (m_get (snd rc) "conversation_context" (VList [])) as [cc|e];
    [|reflexivity].
  cbn [rbind]. destruct (py_len cc) as [n|e]; [|reflexivity].
  cbn [rbind].
  destruct (set_item r1 "memory_info" _) as [r2|e]; reflexivity.
Qed.

(** A context that is not a mapping stops [handle] with an exception. *)
Lemma handle_not_mapping (request : dict)
      (question context include_details : value) (log : list event) :
  is_dict context = false ->
  exists e, handle w request question context include_details log
            = (Raise e, log).
Proof.
  intros Hnd. unfold handle, bind, lift.
  destruct (resolve_session request context) as [rsid|e];
    [|eexists; reflexivity].
  destruct (resolve_identity request context) as [uid|e];
    [|eexists; reflexivity].
  destruct context; try discriminate; eexists; reflexivity.
Qed.

End SendMessageFacts.

Lemma same_outcome_shaped (r r' : dict) :
  same_outcome r r' -> shaped r -> shaped r'.
Proof.
  unfold shaped, error_shaped, answer_shaped.
  intros (He & Hm & Hs). rewrite He, Hm, Hs. tauto.
Qed.

Lemma same_outcome_trans (r1 r2 r3 : dict) :
  same_outcome r1 r2 -> same_outcome r2 r3 -> same_outcome r1 r3.
Proof.
  unfold same_outcome. intros (? & ? & ?) (? & ? & ?).
  repeat split; congruence.
Qed.

Lemma same_outcome_dict_set (k : string) (v : value) (r : dict) :
  added_key k -> same_outcome r (dict_set k v r).
Proof.
  intros (He & Hm & Hs). unfold same_outcome.
  now rewrite !lookup_dict_set_neq by assumption.
Qed.

Section FinishResponse.
Variable w : world.

Lemma add_details_cases (include_details : value) (user_context r : dict) :
  (exists e,
      add_details w include_details user_context (VDict r) = Raise e
      /\ py_len (dget user_context "permissions" (VList [])) = Raise e)
  \/ (exists r',
         add_details w include_details user_context (VDict r) = Ok (VDict r')
         /\ same_outcome r r'
         /\ lookup "context" r' = lookup "context" r).
Proof.
  unfold add_details.
  destruct (truthy include_details
            && truthy (dget user_context "authenticated" VNone)).
  - cbn [set_item rbind].
    destruct (py_len (dget user_context "permissions" (VList []))) as [n|e].
    + right. cbn [rbind set_item]. eexists. split; [reflexivity|]. split.
      * eapply same_outcome_trans; apply same_outcome_dict_set;
          repeat split.
      * now rewrite !lookup_dict_set_neq.
    + left. exists e. now split.
  - right. exists r. repeat split.
Qed.

Lemma set_context_item_spec (r c : dict) (k : string) (v : value) :
  lookup "context" r = Some (VDict c) ->
  set_context_item (VDict r) k v
    = Ok (VDict (dict_set "context" (VDict (dict_set k v c)) r)).
Proof.
  intros Hc. unfold set_context_item. now rewrite Hc.
Qed.

Lemma add_session_info_spec (runtime_session_id : value) (r c : dict) :
  lookup "context" r = Some (VDict c) ->
  exists r',
    add_session_info runtime_session_id (VDict r) = Ok (VDict r')
    /\ same_outcome r r'
    /\ lookup "session_info" r'
       = Some (session_info_of runtime_session_id)
    /\ exists c', lookup "context" r' = Some (VDict c').
Proof.
  intros Hc. unfold add_session_info, session_info_of.
  destruct (truthy runtime_session_id).
  - cbn [set_item rbind]. unfold has_key.
    rewrite !lookup_dict_set_neq by reflexivity. rewrite Hc. cbn [rbind].
    rewrite (@set_context_item_spec _ c)
      by (now rewrite !lookup_dict_set_neq by reflexivity).
    cbn [rbind].
    rewrite (@set_context_item_spec _ _ "session_id" runtime_session_id
               (lookup_dict_set_eq _ _ _)).
    eexists. split; [reflexivity|]. split.
    + eapply same_outcome_trans; [|apply same_outcome_dict_set; repeat split].
      eapply same_outcome_trans; [|apply same_outcome_dict_set; repeat split].
      eapply same_outcome_trans; apply same_outcome_dict_set; repeat split.
    + split.
      * rewrite !lookup_dict_set_neq by reflexivity.
        apply lookup_dict_set_eq.
      * eexists. apply lookup_dict_set_eq.
  - cbn [set_item]. eexists. split; [reflexivity|]. split.
    + apply same_outcome_dict_set. repeat split.
    + split; [apply lookup_dict_set_eq|].
      exists c. now rewrite lookup_dict_set_neq by reflexivity.
Qed.

(** Lines 673-761 raise only through the two [len] calls. *)
Lemma finish_response_cases (include_details : value) (user_context : dict)
      (runtime_session_id : value) (r c context' : dict) :
  lookup "context" r = Some (VDict c) ->
  (exists e,
      finish_response w include_details user_context runtime_session_id
                      (VDict r) (VDict context') = Raise e
      /\ (py_len (dget user_context "permissions" (VList [])) = Raise e
          \/ py_len (dget context' "conversation_context" (VList []))
             = Raise e))
  \/ (exists r',
         finish_response w include_details user_context runtime_session_id
                         (VDict r) (VDict context') = Ok (VDict r')
         /\ same_outcome r r'
         /\ lookup "session_info" r'
            = Some (session_info_of (app_session w runtime_session_id))
         /\ exists c', lookup "context" r' = Some (VDict c')).
Proof.
  intros Hc. unfold finish_response.
  destruct (add_details_cases include_details user_context r)
    as [(e & -> & He)|(r1 & -> & Ho1 & Hc1)].
  - left. exists e. split; [reflexivity|now left].
  - cbn [rbind m_get].
    destruct (py_len (dget context' "conversation_context" (VList [])))
      as [n|e] eqn:Hlen.
    + right. cbn [rbind set_item].
      destruct (@add_session_info_spec (app_session w runtime_session_id)
                  (dict_set "memory_info"
                     (VDict [ ("memory_enabled", VBool true);
                              ("conversation_length", VInt n);
                              ("user_context_stored",
                               dget user_context "authenticated"
                                    (VBool false)) ]) r1)
                  c)
        as (r' & Hr' & Ho' & Hs').
      { rewrite lookup_dict_set_neq by reflexivity. now rewrite Hc1. }
      exists r'. split; [exact Hr'|]. split; [|exact Hs'].
      eapply same_outcome_trans; [exact Ho1|].
      eapply same_outcome_trans; [|exact Ho'].
      apply same_outcome_dict_set. repeat split.
    + left. exists e. split; [reflexivity|now right].
Qed.

End FinishResponse.

(* ===================================================================== *)
(** ** Error envelopes *)
(* ===================================================================== *)

Section Envelopes.
Variable w : world.

(** [send_message] past the two gates, on a context mapping. *)
Lemma send_message_handled (request context : dict) (log : list event) :
  truthy (extract_question request) = true ->
  extract_context request = VDict context ->
  send_message w (VDict request) log
  = let rsid := session_of request context in
    let uid := identity_of request context in
    match log_history_length rsid
            (dget context "conversation_history" (VList [])) with
    | Raise e => (Ok (catch_all e), log)
    | Ok _ =>
        match process_request w (extract_question request)
                (VDict (enhanced_context_of context uid rsid)) log with
        | (Ok rc, log1) =>
            match finish_response w
                    (dget request "include_details" (VBool false))
                    (user_context_of context uid rsid) rsid
                    (fst rc) (snd rc) with
            | Ok response => (Ok response, log1)
            | Raise e => (Ok (catch_all e), log1)
            end
        | (Raise e, log1) => (Ok (catch_all e), log1)
        end
    end.
Proof.
  intros Hq Hc. unfold send_message, try_except. cbn [as_mapping].
  rewrite Hq, Hc. cbn [negb]. rewrite handle_stages. cbn zeta.
  destruct (log_history_length _ _) as [n0|e0]; [|reflexivity].
  destruct (process_request w _ _ log) as [[rc|e] log1]; [|reflexivity].
  now destruct (finish_response w _ _ _ (fst rc) (snd rc)).
Qed.

Lemma catch_all_shaped (e : exn) :
  exists resp, catch_all e = VDict resp /\ error_shaped resp
               /\ lookup "status" resp = Some (VStr "error")
               /\ lookup "context" resp = None.
Proof.
  eexists. split; [reflexivity|]. split; [|split; reflexivity].
  split; [eexists|]; reflexivity.
Qed.

(** Every request is answered by a mapping that is either an error
    envelope or an answer. *)
Lemma send_message_shaped (request : value) (log : list event) :
  exists resp log',
    send_message w request log = (Ok (VDict resp), log') /\ shaped resp.
Proof.
  assert (Hgate : forall text,
             shaped [ ("error", VStr text) ])
    by (intros text; left; split; [eexists|]; reflexivity).
  assert (Hcatch : forall (e : exn) (l : list event),
             exists resp log',
               (Ok (catch_all e), l) = (Ok (VDict resp), log')
               /\ shaped resp).
  { intros e l. destruct (catch_all_shaped e) as (resp & -> & Hs & _).
    exists resp, l. split; [reflexivity|now left]. }
  destruct (as_mapping request) as [| | | | |req|] eqn:Hreq;
    try (unfold send_message, try_except; rewrite Hreq;
         eexists; eexists; split; [reflexivity|apply Hgate]).
  assert (Hsend : send_message w request log = send_message w (VDict req) log)
    by (unfold send_message; now rewrite Hreq).
  rewrite Hsend. clear Hsend Hreq request.
  destruct (truthy (extract_question req)) eqn:Hq.
  2:{ unfold send_message, try_except. cbn [as_mapping]. rewrite Hq.
      eexists; eexists; split; [reflexivity|apply Hgate]. }
  destruct (extract_context req) as [| | | | |context|] eqn:Hc;
    try (unfold send_message, try_except; cbn [as_mapping]; rewrite Hq, Hc;
         cbn [negb];
         match goal with
         | |- context [handle w req ?q ?c ?i log] =>
             destruct (@handle_not_mapping w req q c i log eq_refl) as (e & ->)
         end; apply Hcatch).
  rewrite (send_message_handled req log Hq Hc). cbn zeta.
  destruct (log_history_length _ _) as [n0|e0]; [|apply Hcatch].
  destruct (@process_request_shape w (extract_question req)
              (enhanced_context_of context (identity_of req context)
                                   (session_of req context)) log
              (dict_set_nonempty _ _ _))
    as (r & c' & log1 & -> & Hshaped & Hctx & _).
  cbn [fst snd].
  destruct (@finish_response_cases w (dget req "include_details" (VBool false))
              (user_context_of context (identity_of req context)
                               (session_of req context))
              (session_of req context) r c' c' Hctx)
    as [(e & -> & _)|(r' & -> & Ho & _)].
  - apply Hcatch.
  - exists r', log1. split; [reflexivity|].
    now apply (same_outcome_shaped Ho).
Qed.

End Envelopes.

(** C6, as amended.  (1) A request that is not a mapping and (2) a request
    without question are answered by an envelope that holds the [error]
    text alone.  (3) When the body of [process_request] raises (a failing
    decision step among others), its envelope has status ["error"], the
    [error] text, the context it was called with and no [message].
    (4) Seen from the caller of [send_message], that failure gives an
    envelope with status ["error"], an [error] text and no [message], and
    with a [context] mapping unless the outermost handler produced it.
    (5) Whatever the request, a response that has an [error] field holds a
    text there and has no [message] field. *)
Theorem C6_error_envelopes (w : world) :
  (forall request log,
      is_dict (as_mapping request) = false ->
      send_message w request log
        = (Ok (VDict [ ("error", VStr invalid_request_error) ]), log))
  /\ (forall request log,
         truthy (extract_question request) = false ->
         send_message w (VDict request) log
           = (Ok (VDict [ ("error", VStr no_question_error) ]), log))
  /\ (forall question context log e log1,
         process_request_body w question context log = (Raise e, log1) ->
         exists env,
           process_request w question context log
             = (Ok (VDict env, context), log1)
           /\ lookup "status" env = Some (VStr "error")
           /\ lookup "error" env
              = Some (VStr ("Failed to process request: " ++ str_exn e))
           /\ lookup "context" env
              = Some (if truthy context then context else VDict [])
           /\ lookup "message" env = None)
  /\ (forall request context log e log1,
         truthy (extract_question request) = true ->
         extract_context request = VDict context ->
         process_request_body w (extract_question request)
           (VDict (enhanced_context_of context (identity_of request context)
                                       (session_of request context))) log
           = (Raise e, log1) ->
         exists resp log',
           send_message w (VDict request) log = (Ok (VDict resp), log')
           /\ lookup "status" resp = Some (VStr "error")
           /\ error_shaped resp
           /\ ((exists c, lookup "context" resp = Some (VDict c))
               \/ exists e', VDict resp = catch_all e'))
  /\ (forall request log,
         exists resp log',
           send_message w request log = (Ok (VDict resp), log')
           /\ (lookup "error" resp <> None -> error_shaped resp)).
Proof.
  split; [|split; [|split; [|split]]].
  - intros request log Hnd. unfold send_message, try_except.
    destruct (as_mapping request); try reflexivity. discriminate.
  - intros request log Hq. unfold send_message, try_except.
    cbn [as_mapping]. now rewrite Hq.
  - intros question context log e log1 Hbody.
    unfold process_request, try_except. rewrite Hbody.
    unfold ret, error_response. eexists. split; [reflexivity|].
    cbn. repeat split.
  - intros request context log e log1 Hq Hc Hbody.
    rewrite (send_message_handled w request log Hq Hc). cbn zeta.
    destruct (log_history_length _ _) as [n0|e0].
    2:{ destruct (catch_all_shaped e0) as (resp & Hresp & Hshape & Hst & _).
        exists resp, log. rewrite Hresp. repeat split; try tauto;
          try apply Hshape. right. now exists e0. }
    unfold process_request, try_except. rewrite Hbody. unfold ret.
    cbn [fst snd].
    set (enhanced := enhanced_context_of context (identity_of request context)
                                         (session_of request context)) in *.
    assert (Htruthy : truthy (VDict enhanced) = true)
      by (apply truthy_dict, dict_set_nonempty).
    unfold error_response. rewrite Htruthy.
    match goal with
    | |- context [finish_response w ?i ?uc ?s (VDict ?r) _] =>
        destruct (@finish_response_cases w i uc s r enhanced enhanced
                    eq_refl)
          as [(e' & -> & _)|(r' & -> & (He & Hm & Hs) & _ & Hctx)]
    end.
    + destruct (catch_all_shaped e') as (resp & Hresp & Hshape & Hst & _).
      exists resp, log1. rewrite Hresp.
      repeat split; try tauto; try apply Hshape.
      right. now exists e'.
    + exists r', log1. split; [reflexivity|]. split; [now rewrite Hs|].
      split; [|now left].
      split; [rewrite He; eexists; reflexivity|now rewrite Hm].
  - intros request log.
    destruct (send_message_shaped w request log)
      as (resp & log' & Hrun & [Herr|(Hnone & _)]).
    + exists resp, log'. split; [exact Hrun|now intros _].
    + exists resp, log'. split; [exact Hrun|]. intros H. contradiction.
Qed.

Lemma C6_error_envelopes_witness :
  send_message failing_step_world (VStr "hello") []
    = (Ok (VDict [ ("error", VStr invalid_request_error) ]), [])
  /\ send_message failing_step_world (VDict [ ("user_id", VStr "u1") ]) []
     = (Ok (VDict [ ("error", VStr no_question_error) ]), [])
  /\ exists resp,
      fst (send_message failing_step_world
             (VDict [ ("input", VStr "hi") ]) [])
        = Ok (VDict resp)
      /\ lookup "status" resp = Some (VStr "error")
      /\ error_shaped resp.
Proof.
  destruct (C6_error_envelopes failing_step_world)
    as (Hshape & Hmissing & _ & Hstep & _).
  split; [exact (Hshape (VStr "hello") [] eq_refl)|].
  split; [exact (Hmissing [ ("user_id", VStr "u1") ] [] eq_refl)|].
  destruct (Hstep [ ("input", VStr "hi") ] [] []
                  (ExternalError "ThrottlingException")
                  (snd (send_message failing_step_world
                          (VDict [ ("input", VStr "hi") ]) []))
                  eq_refl eq_refl)
    as (resp & log' & Hrun & Hstatus & Herr & _).
  - vm_compute. reflexivity.
  - exists resp. rewrite Hrun. repeat split; try assumption; apply Herr.
Defined.

(** C6 as stated fails: the envelopes of the two validation gates hold the
    [error] text and nothing else, neither a status nor the context the
    request carried. *)
Lemma C6_counterexample_gate_envelopes :
  send_message quiet_world (VStr "hello") []
    = (Ok (VDict [ ("error", VStr invalid_request_error) ]), [])
  /\ send_message quiet_world (VDict no_question_request) []
     = (Ok (VDict [ ("error", VStr no_question_error) ]), [])
  /\ response_field "status"
       (send_message quiet_world (VDict no_question_request) []) = None
  /\ response_field "context"
       (send_message quiet_world (VDict no_question_request) []) = None.
Proof.
  vm_compute. repeat split.
Qed.

(* ===================================================================== *)
(** ** Session information *)
(* ===================================================================== *)

Lemma app_session_none (w : world) (runtime_session_id : value) :
  app_get_runtime_session_id w = None ->
  app_runtime_session_id w = None ->
  app_session w runtime_session_id = runtime_session_id.
Proof.
  intros Hg Ha. unfold app_session. rewrite Hg, Ha.
  now destruct (truthy runtime_session_id).
Qed.

(** What [send_message] hands to [process_request]: the resolved identity
    under [user_id], and the caller's history as it came. *)
Lemma enhanced_user_id (context : dict) (uid runtime_session_id : value) :
  ltm_user_id (enhanced_context_of context uid runtime_session_id) = uid.
Proof.
  unfold ltm_user_id, dget, enhanced_context_of, dict_merge, user_context_of.
  cbn [fold_left fst snd].
  rewrite !lookup_dict_set_neq by reflexivity.
  now rewrite lookup_dict_set_eq.
Qed.

Lemma enhanced_conversation_history (context : dict)
      (uid runtime_session_id dflt : value) :
  dget (enhanced_context_of context uid runtime_session_id)
       "conversation_history" dflt
    = dget context "conversation_history" dflt.
Proof.
  unfold dget, enhanced_context_of, dict_merge, user_context_of.
  cbn [fold_left fst snd].
  now rewrite !lookup_dict_set_neq by reflexivity.
Qed.

Lemma enhanced_conversation_context (context : dict)
      (uid runtime_session_id : value) :
  dget (enhanced_context_of context uid runtime_session_id)
       "conversation_context" (VList [])
    = dget context "conversation_history" (VList []).
Proof.
  unfold enhanced_context_of, dget at 1.
  rewrite lookup_dict_set_neq by reflexivity.
  now rewrite lookup_dict_set_eq.
Qed.

(** C5, as amended.  For a request that passes the validation gates, whose
    context is absent, falsy or a mapping and whose [permissions] and
    [conversation_history] are absent or sized values, on a platform object
    that exposes no session accessor: the response carries a
    [session_info] whose [runtime_session_id] is the first truthy value
    among top-level [session_id], [context.runtimeSessionId] and
    [context.runtime_session_id], with the follow-up note; when none of
    them is truthy it is null, with the note that names the platform
    limitation.  No other value is ever put there. *)
Theorem C5_session_info (w : world) (request context : dict)
        (log : list event) :
  truthy (extract_question request) = true ->
  extract_context request = VDict context ->
  sized (dget context "permissions" (VList [])) ->
  sized (dget context "conversation_history" (VList [])) ->
  app_get_runtime_session_id w = None ->
  app_runtime_session_id w = None ->
  exists resp log',
    send_message w (VDict request) log = (Ok (VDict resp), log')
    /\ lookup "session_info" resp
       = Some (session_info_of (session_of request context))
    /\ (truthy (session_of request context) = false ->
        lookup "session_info" resp
          = Some (VDict [ ("runtime_session_id", VNone);
                          ("note", VStr session_note_absent) ]))
    /\ contains "not accessible in the entrypoint" session_note_absent = true.
Proof.
  intros Hq Hc (np & Hperm) (nh & Hhist) Hg Ha.
  rewrite (send_message_handled w request log Hq Hc). cbn zeta.
  set (uid := identity_of request context).
  set (rsid := session_of request context).
  assert (Hlog : exists n, log_history_length rsid
                             (dget context "conversation_history" (VList []))
                           = Ok n).
  { unfold log_history_length. rewrite Hhist.
    destruct (truthy rsid && truthy _); eexists; reflexivity. }
  destruct Hlog as (n0 & ->).
  destruct (@process_request_shape w (extract_question request)
              (enhanced_context_of context uid rsid) log
              (dict_set_nonempty _ _ _))
    as (r & c' & log1 & -> & _ & Hctx & Hc').
  cbn [fst snd].
  destruct (@finish_response_cases w
              (dget request "include_details" (VBool false))
              (user_context_of context uid rsid) rsid r c' c' Hctx)
    as [(e & _ & [He|He])|(r' & -> & _ & Hs & _)].
  - cbn in He. congruence.
  - destruct Hc' as [->|(cc & ->)].
    + rewrite enhanced_conversation_context in He. congruence.
    + unfold dget in He. rewrite lookup_dict_set_eq in He. discriminate.
  - exists r', log1. rewrite (app_session_none w rsid Hg Ha) in Hs.
    split; [reflexivity|]. split; [exact Hs|]. split; [|reflexivity].
    intros Hf. rewrite Hs. unfold session_info_of. now rewrite Hf.
Qed.

Lemma C5_session_info_witness :
  exists resp log',
    send_message quiet_world (VDict [ ("input", VStr "hi") ]) []
      = (Ok (VDict resp), log')
    /\ lookup "session_info" resp
       = Some (VDict [ ("runtime_session_id", VNone);
                       ("note", VStr session_note_absent) ]).
Proof.
  destruct (@C5_session_info quiet_world [ ("input", VStr "hi") ] [] []
              eq_refl eq_refl
              (ex_intro _ 0%Z eq_refl) (ex_intro _ 0%Z eq_refl)
              eq_refl eq_refl)
    as (resp & log' & Hrun & _ & Habsent & _).
  exists resp, log'. split; [exact Hrun|]. exact (Habsent eq_refl).
Defined.

(** C5 as stated fails.  The first alias present in
    [empty_session_request] is the top-level [session_id], but the response
    reports the session of the context; the empty request, which names no
    session, is answered without any [session_info]; and where the
    platform object exposes a session id, lines 730-740 put that generated
    value into the response of a request that names none. *)
Lemma C5_counterexample_session :
  lookup "session_id" empty_session_request = Some (VStr "")
  /\ response_field2 "session_info" "runtime_session_id"
       (send_message quiet_world (VDict empty_session_request) [])
     = Some (VStr "rt-42")
  /\ response_field "session_info" (send_message quiet_world (VDict []) [])
     = None
  /\ response_field2 "session_info" "runtime_session_id"
       (send_message exposing_world (VDict [ ("input", VStr "hi") ]) [])
     = Some (VStr "generated-7").
Proof.
  vm_compute. repeat split.
Qed.

(* ===================================================================== *)
(** ** The external calls of a request *)
(* ===================================================================== *)

Section ExternalCalls.
Variable w : world.

(** Long-term retrieval always ends with a block; it makes the client,
    then the replay call, and the semantic call only when the replay gave
    nothing. *)
Lemma ltm_block_outcome (question : value) (context : dict) (uid : value)
      (log : list event) :
  exists text n,
    ltm_block w question context uid log
      = (Ok text, (log ++ firstn n (memory_calls w question context uid))%list)
    /\ ((n = 1%nat /\ text = ltm_failed_notice w uid
         /\ exists e, memory_client w = Raise e)
        \/ (n = 2%nat /\ text = ltm_failed_notice w uid
            /\ exists e, get_last_k_turns w uid (replay_session context uid) 5
                         = Raise e)
        \/ (n = 2%nat
            /\ exists turns,
                get_last_k_turns w uid (replay_session context uid) 5
                  = Ok turns
                /\ truthy turns = true
                /\ match replayed_turns_block w turns with
                   | Ok block => text = block
                   | Raise _ => text = ltm_failed_notice w uid
                   end)
        \/ (n = 3%nat /\ text = no_ltm_notice w uid
            /\ exists turns,
                get_last_k_turns w uid (replay_session context uid) 5
                  = Ok turns
                /\ truthy turns = false)).
Proof.
  unfold ltm_block, try_except, bind, call.
  destruct (memory_client w) as [[]|e] eqn:Hc.
  2:{ exists (ltm_failed_notice w uid), 1%nat. split; [reflexivity|].
      left. repeat split. now exists e. }
  fold (replay_session context uid).
  destruct (get_last_k_turns w uid (replay_session context uid) 5)
    as [turns|e] eqn:Hturns.
  2:{ exists (ltm_failed_notice w uid), 2%nat. split.
      - unfold ret. cbn [firstn memory_calls]. now rewrite <- app_assoc.
      - right. left. repeat split. now exists e. }
  destruct (truthy turns) eqn:Ht; cbn [negb].
  - unfold ret at 1. unfold lift.
    assert (Hlog : ((log ++ [EvMemoryClient])
                      ++ [EvGetLastKTurns uid (replay_session context uid) 5])%list
                   = (log ++ firstn 2 (memory_calls w question context uid))%list)
      by (cbn [firstn memory_calls]; now rewrite <- app_assoc).
    destruct (py_len turns) as [n|e] eqn:Hlen.
    + destruct (render_turns w ltm_turns_header turns) as [body|e] eqn:Hbody.
      * eexists. exists 2%nat. unfold ret. rewrite Hlog.
        split; [reflexivity|]. right. right. left. split; [reflexivity|].
        exists turns. repeat split; auto.
        unfold replayed_turns_block. now rewrite Hlen, Hbody.
      * eexists. exists 2%nat. unfold ret. rewrite Hlog.
        split; [reflexivity|]. right. right. left. split; [reflexivity|].
        exists turns. repeat split; auto.
        unfold replayed_turns_block. now rewrite Hlen, Hbody.
    + eexists. exists 2%nat. unfold ret. rewrite Hlog.
      split; [reflexivity|]. right. right. left. split; [reflexivity|].
      exists turns. repeat split; auto.
      unfold replayed_turns_block. now rewrite Hlen.
  - destruct (semantic_stage_total w question uid
                ((log ++ [EvMemoryClient])
                   ++ [EvGetLastKTurns uid (replay_session context uid) 5])%list)
      as (h & ->).
    exists (no_ltm_notice w uid), 3%nat. unfold ret. split.
    + cbn [firstn memory_calls]. now rewrite <- !app_assoc.
    + right. right. right. repeat split. now exists turns.
Qed.
End ExternalCalls.

Section RequestCalls.
Variable w : world.

(** Memory assembly calls the Memory Store only for a known identity
    without in-session history. *)
Lemma history_block_calls (question : value) (context : dict) (uid : value)
      (log : list event) :
  exists r n,
    history_block w question context uid log
      = (r, (log ++ firstn n (memory_calls w question context uid))%list)
    /\ (n <= 3)%nat
    /\ (n <> 0%nat ->
        truthy (dget context "conversation_history" (VList [])) = false
        /\ known_identity uid = true).
Proof.
  unfold history_block.
  destruct (truthy (dget context "conversation_history" (VList []))) eqn:Hh;
    cbn [negb andb].
  - exists (previous_block w (dget context "conversation_history" (VList []))),
           0%nat.
    unfold lift. cbn [firstn]. rewrite app_nil_r.
    split; [reflexivity|]. split; [lia|]. intros H. now elim H.
  - destruct (known_identity uid) eqn:Hk.
    + destruct (ltm_block_outcome w question context uid log)
        as (text & n & -> & Hn).
      exists (Ok text), n. split; [reflexivity|].
      split; [|now intros _].
      destruct Hn as [(-> & _)|[(-> & _)|[(-> & _)|(-> & _)]]]; lia.
    + exists (Ok first_message_notice), 0%nat. unfold ret.
      cbn [firstn]. rewrite app_nil_r.
      split; [reflexivity|]. split; [lia|]. intros H. now elim H.
Qed.

(** [process_request] on a context mapping: the Memory Store calls, then
    at most one call of the decision step, without which no answer is
    returned. *)
Lemma process_request_calls (question : value) (context : dict)
      (log : list event) :
  context <> [] ->
  exists resp context' n decision,
    process_request w question (VDict context) log
      = (Ok (VDict resp, context'),
         (log ++ firstn n (memory_calls w question context
                                        (ltm_user_id context))
              ++ decision)%list)
    /\ (n <= 3)%nat
    /\ at_most_one_decision decision
    /\ (n <> 0%nat ->
        truthy (dget context "conversation_history" (VList [])) = false
        /\ known_identity (ltm_user_id context) = true)
    /\ (answer_shaped resp -> decision <> []).
Proof.
  intros Hne. unfold process_request, try_except.
  rewrite (process_request_body_stages w question log Hne).
  destruct (history_block_calls question context (ltm_user_id context) log)
    as (r & n & -> & Hn & Hwhen).
  set (calls := firstn n (memory_calls w question context
                                       (ltm_user_id context))).
  assert (Hnone : forall (e : exn),
             exists resp context' n0 decision,
               ret (error_response w e (VDict context), VDict context)
                   (log ++ calls)%list
               = (Ok (VDict resp, context'),
                  (log ++ firstn n0 (memory_calls w question context
                                                  (ltm_user_id context))
                       ++ decision)%list)
               /\ (n0 <= 3)%nat /\ at_most_one_decision decision
               /\ (n0 <> 0%nat ->
                   truthy (dget context "conversation_history" (VList []))
                   = false
                   /\ known_identity (ltm_user_id context) = true)
               /\ (answer_shaped resp -> decision <> [])).
  { intros e. unfold ret, error_response. eexists. exists (VDict context), n, [].
    rewrite app_nil_r. split; [reflexivity|]. split; [exact Hn|].
    split; [now left|]. split; [exact Hwhen|].
    intros (Herr & _). cbn in Herr. discriminate. }
  assert (Hone : forall (x : value) (prompt : string),
             (exists resp, x = VDict resp) ->
             exists resp context' n0 decision,
               (Ok (x, VDict context),
                ((log ++ calls) ++ [EvInvoke prompt])%list)
               = (Ok (VDict resp, context'),
                  (log ++ firstn n0 (memory_calls w question context
                                                  (ltm_user_id context))
                       ++ decision)%list)
               /\ (n0 <= 3)%nat /\ at_most_one_decision decision
               /\ (n0 <> 0%nat ->
                   truthy (dget context "conversation_history" (VList []))
                   = false
                   /\ known_identity (ltm_user_id context) = true)
               /\ (answer_shaped resp -> decision <> [])).
  { intros x prompt (resp & ->).
    exists resp, (VDict context), n, [EvInvoke prompt].
    rewrite <- app_assoc. split; [reflexivity|]. split; [exact Hn|].
    split; [right; now exists prompt|]. split; [exact Hwhen|].
    intros _. discriminate. }
  destruct r as [history_text|e]; [|apply Hnone].
  destruct (prompt_of w question context history_text) as [prompt|e];
    [|apply Hnone].
  cbn zeta. destruct (invoke_async w prompt) as [response|e].
  2:{ unfold error_response. apply (Hone _ prompt). eexists. reflexivity. }
  destruct (reconstruct_trace w response) as [ms|e].
  2:{ unfold error_response. apply (Hone _ prompt). eexists. reflexivity. }
  unfold response_dict. rewrite (truthy_dict Hne).
  eexists. eexists. exists n, [EvInvoke prompt].
  rewrite <- app_assoc. split; [reflexivity|]. split; [exact Hn|].
  split; [right; now exists prompt|]. split; [exact Hwhen|].
  intros _. discriminate.
Qed.

(** What [send_message] hands over decides the key of the replay. *)
Lemma enhanced_memory_calls (request context : dict) :
  memory_calls w (extract_question request)
               (enhanced_context_of context (identity_of request context)
                                    (session_of request context))
               (identity_of request context)
    = request_memory_calls w request context.
Proof.
  unfold memory_calls, request_memory_calls, replay_session. cbn zeta.
  assert (Hr : dget (enhanced_context_of context (identity_of request context)
                                         (session_of request context))
                    "runtime_session_id" VNone
               = session_of request context).
  { unfold dget, enhanced_context_of, dict_merge, user_context_of.
    cbn [fold_left fst snd].
    rewrite !lookup_dict_set_neq by reflexivity.
    now rewrite lookup_dict_set_eq. }
  assert (Hs : dget (enhanced_context_of context (identity_of request context)
                                         (session_of request context))
                    "session_id" VNone
               = session_of request context).
  { unfold dget, enhanced_context_of. now rewrite lookup_dict_set_eq. }
  rewrite Hr, Hs. unfold py_or.
  destruct (truthy (session_of request context)) eqn:Ht.
  - now rewrite Ht.
  - now rewrite Ht.
Qed.
End RequestCalls.

Lemma same_outcome_answer (r r' : dict) :
  same_outcome r r' -> answer_shaped r' -> answer_shaped r.
Proof.
  unfold answer_shaped. intros (He & Hm & Hs). now rewrite He, Hm, Hs.
Qed.

Section SendMessageCalls.
Variable w : world.

(** The calls of a request that passed the gates. *)
Lemma send_message_handled_calls (request context : dict)
      (log : list event) :
  truthy (extract_question request) = true ->
  extract_context request = VDict context ->
  exists resp n decision,
    send_message w (VDict request) log
      = (Ok (VDict resp),
         (log ++ firstn n (request_memory_calls w request context)
              ++ decision)%list)
    /\ (n <= 3)%nat
    /\ at_most_one_decision decision
    /\ (n <> 0%nat ->
        truthy (dget context "conversation_history" (VList [])) = false
        /\ known_identity (identity_of request context) = true)
    /\ (answer_shaped resp -> decision <> []).
Proof.
  intros Hq Hc. rewrite (send_message_handled w request log Hq Hc). cbn zeta.
  set (uid := identity_of request context).
  set (rsid := session_of request context).
  assert (Hcatch : forall (e : exn) (n : nat) (decision : list event),
             (n <= 3)%nat -> at_most_one_decision decision ->
             (n <> 0%nat ->
              truthy (dget context "conversation_history" (VList [])) = false
              /\ known_identity uid = true) ->
             exists resp n0 decision0,
               (Ok (catch_all e),
                (log ++ firstn n (request_memory_calls w request context)
                     ++ decision)%list)
               = (Ok (VDict resp),
                  (log ++ firstn n0 (request_memory_calls w request context)
                       ++ decision0)%list)
               /\ (n0 <= 3)%nat /\ at_most_one_decision decision0
               /\ (n0 <> 0%nat ->
                   truthy (dget context "conversation_history" (VList []))
                   = false
                   /\ known_identity uid = true)
               /\ (answer_shaped resp -> decision0 <> [])).
  { intros e n decision Hn Hd Hwhen.
    destruct (catch_all_shaped e) as (resp & -> & ((s & Hs) & _) & _ & _).
    eexists. exists n, decision. split; [reflexivity|].
    repeat split; try assumption; try (now apply Hwhen).
    intros (Herr & _). congruence. }
  destruct (log_history_length rsid
              (dget context "conversation_history" (VList []))) as [n0|e0].
  2:{ replace (Ok (catch_all e0), log)
        with (Ok (catch_all e0),
              (log ++ firstn 0 (request_memory_calls w request context)
                   ++ [])%list)
        by (cbn [firstn app]; now rewrite app_nil_r).
      apply Hcatch; [lia|now left|]. intros H. now elim H. }
  destruct (@process_request_calls w (extract_question request)
              (enhanced_context_of context uid rsid) log
              (dict_set_nonempty _ _ _))
    as (r & c' & n & decision & Hrun & Hn & Hd & Hwhen & Hans).
  destruct (@process_request_shape w (extract_question request)
              (enhanced_context_of context uid rsid) log
              (dict_set_nonempty _ _ _))
    as (r2 & c2 & log2 & Hrun2 & _ & Hctx & _).
  rewrite Hrun in Hrun2. injection Hrun2 as <- -> <-.
  rewrite Hrun. cbn [fst snd].
  unfold uid, rsid in Hrun, Hwhen |- *.
  rewrite enhanced_user_id, enhanced_memory_calls,
    enhanced_conversation_history in *.
  fold uid rsid in Hwhen |- *.
  destruct (@finish_response_cases w
              (dget request "include_details" (VBool false))
              (user_context_of context uid rsid) rsid r c2 c2 Hctx)
    as [(e & -> & _)|(r' & -> & Ho & _)].
  - now apply Hcatch.
  - exists r', n, decision. split; [reflexivity|].
    repeat split; try assumption; try (now apply Hwhen).
    intros Ha. apply Hans. now apply (same_outcome_answer Ho).
Qed.
End SendMessageCalls.

(** X1.  The external calls of a request that passes the two validation
    gates with a context mapping ([send_message], lines 606-763, with the
    calls of [process_request], lines 225-316).  The calls appended to the
    log are an initial part of the three Memory Store calls -- client,
    replay of the last 5 turns keyed by the resolved identity and the
    resolved session (the identity when there is none), semantic retrieval
    of 3 records from [support/user/<identity>/preferences] -- followed
    by at most one call of the decision step.  The Memory Store is
    consulted only for a known identity without in-session history, and
    an answer is returned only after the decision step was called. *)
Theorem X1_send_message_call_pattern (w : world) (request context : dict)
        (log : list event) :
  truthy (extract_question request) = true ->
  extract_context request = VDict context ->
  exists resp n decision,
    send_message w (VDict request) log
      = (Ok (VDict resp),
         (log ++ firstn n (request_memory_calls w request context)
              ++ decision)%list)
    /\ (n <= 3)%nat
    /\ at_most_one_decision decision
    /\ (n <> 0%nat ->
        truthy (dget context "conversation_history" (VList [])) = false
        /\ known_identity (identity_of request context) = true)
    /\ (answer_shaped resp -> decision <> []).
Proof.
  intros Hq Hc. now apply send_message_handled_calls.
Qed.

Lemma X1_send_message_call_pattern_witness :
  exists resp n decision,
    send_message quiet_world (VDict both_ids_request) []
      = (Ok (VDict resp),
         ([] ++ firstn n (request_memory_calls quiet_world both_ids_request
                            [ ("user_id", VStr "ctx") ])
             ++ decision)%list)
    /\ (n <= 3)%nat
    /\ at_most_one_decision decision
    /\ (n <> 0%nat ->
        truthy (dget [ ("user_id", VStr "ctx") ] "conversation_history"
                     (VList [])) = false
        /\ known_identity (identity_of both_ids_request
                                       [ ("user_id", VStr "ctx") ]) = true)
    /\ (answer_shaped resp -> decision <> []).
Proof.
  apply (@X1_send_message_call_pattern quiet_world both_ids_request
           [ ("user_id", VStr "ctx") ] []); reflexivity.
Defined.

(** X2.  Long-term retrieval (lines 225-283) never raises and has four
    outcomes.  The client cannot be created: one call, the failure
    notice.  The replay raises: two calls, the failure notice.  The replay
    returns turns: two calls, no semantic retrieval, and the text is the
    block that replays the turns, or the failure notice when rendering
    them raises.  The replay returns nothing: the semantic retrieval is
    the third call and the text is the no-history notice. *)
Theorem X2_long_term_retrieval_outcomes (w : world) (question : value)
        (context : dict) (uid : value) (log : list event) :
  exists text n,
    ltm_block w question context uid log
      = (Ok text, (log ++ firstn n (memory_calls w question context uid))%list)
    /\ ((n = 1%nat /\ text = ltm_failed_notice w uid
         /\ exists e, memory_client w = Raise e)
        \/ (n = 2%nat /\ text = ltm_failed_notice w uid
            /\ exists e, get_last_k_turns w uid (replay_session context uid) 5
                         = Raise e)
        \/ (n = 2%nat
            /\ exists turns,
                get_last_k_turns w uid (replay_session context uid) 5
                  = Ok turns
                /\ truthy turns = true
                /\ match replayed_turns_block w turns with
                   | Ok block => text = block
                   | Raise _ => text = ltm_failed_notice w uid
                   end)
        \/ (n = 3%nat /\ text = no_ltm_notice w uid
            /\ exists turns,
                get_last_k_turns w uid (replay_session context uid) 5
                  = Ok turns
                /\ truthy turns = false)).
Proof.
  apply ltm_block_outcome.
Qed.

(* ===================================================================== *)
(** ** The lexical fallback (lines 452-470) *)
(* ===================================================================== *)

(** X3.  The lexical fallback on a text message.  When classification
    named an agent, the message is not scanned and the trace stays as it
    is.  Otherwise the agents added are those whose keyword occurs in the
    lowered message, in the order of the keyword table and not of their
    occurrence in the text, each with one [detected_in_response] entry
    after the entries already there; the tool list is not touched. *)
Theorem X3_lexical_fallback (st : trace_state) (message : string) :
  fallback_scan st (VStr message)
  = Ok match specialized_agents st with
       | [] =>
           {| specialized_agents := keyword_hits (lower message);
              mcp_tools_used := mcp_tools_used st;
              response_trace :=
                (response_trace st
                   ++ map detected_entry (keyword_hits (lower message)))%list |}
       | _ => st
       end.
Proof.
  unfold fallback_scan. destruct st as [agents tools trace].
  cbn [specialized_agents mcp_tools_used response_trace].
  destruct agents as [|a agents]; [|reflexivity].
  cbn [m_lower rbind]. f_equal.
  unfold keyword_hits, agent_keywords.
  cbn [fold_left filter fst snd]. unfold scan_keyword.
  cbn [specialized_agents].
  destruct (contains "knowledgeagent" (lower message));
    destruct (contains "sentimentagent" (lower message));
    destruct (contains "ticketagent" (lower message));
    destruct (contains "resolutionagent" (lower message));
    destruct (contains "escalationagent" (lower message));
    cbn; unfold add_agent; cbn; rewrite <- ?app_assoc, ?app_nil_r;
    reflexivity.
Qed.

(* ===================================================================== *)
(** ** Invariants of trace reconstruction *)
(* ===================================================================== *)

Section TraceInvariants.
Variable w : world.

(** A property that every routing keeps holds after the loop. *)
Lemma classify_calls_preserve (P : trace_state -> Prop) :
  (forall st r, P st -> P (apply_routing st r)) ->
  forall calls st st',
    P st -> rfold (classify_call w) st calls = Ok st' -> P st'.
Proof.
  intros Hstep. induction calls as [|c calls IH]; intros st st' HP;
    cbn [rfold].
  - now intros [= <-].
  - rewrite classify_call_routing.
    destruct (routing_of w c) as [r|e]; cbn [rbind]; [|discriminate].
    apply IH. now apply Hstep.
Qed.

(** A property that every detected agent keeps holds after the scan. *)
Lemma scan_keywords_preserve (P : trace_state -> Prop)
      (message_lower : string) :
  (forall st n, P st -> P (add_agent st n (detected_entry n))) ->
  forall keywords st,
    P st -> P (fold_left (scan_keyword message_lower) keywords st).
Proof.
  intros Hstep.
  induction keywords as [|[keyword agent_name] keywords IH]; intros st HP;
    cbn [fold_left]; [exact HP|].
  apply IH. unfold scan_keyword.
  destruct (contains keyword message_lower
            && negb (mem agent_name (specialized_agents st)));
    [now apply Hstep|exact HP].
Qed.

(** The stages of a reconstruction that succeeds. *)
Lemma reconstruct_trace_inv (response : value) (ms : value * trace_state) :
  reconstruct_trace w response = Ok ms ->
  exists calls st,
    discovered_calls w response = Ok calls
    /\ rfold (classify_call w) empty_trace calls = Ok st
    /\ extract_message w response = Ok (fst ms)
    /\ fallback_scan st (fst ms) = Ok (snd ms).
Proof.
  unfold reconstruct_trace, discovered_calls, classify_calls.
  destruct (discover_calls w response) as [tool_calls|]; [|discriminate].
  cbn [rbind].
  destruct (py_iter tool_calls) as [calls|]; [|discriminate]. cbn [rbind].
  destruct (rfold (classify_call w) empty_trace calls) as [st|] eqn:Hst;
    [|discriminate].
  cbn [rbind].
  destruct (extract_message w response) as [message|]; [|discriminate].
  cbn [rbind].
  destruct (fallback_scan st message) as [st'|] eqn:Hscan; [|discriminate].
  cbn [rbind]. intros [= <-]. exists calls, st. now repeat split.
Qed.

(** What the fallback does to a classified trace. *)
Lemma fallback_scan_inv (st st' : trace_state) (message : value) :
  fallback_scan st message = Ok st' ->
  (specialized_agents st <> [] /\ st' = st)
  \/ (specialized_agents st = []
      /\ exists message_lower,
          st' = fold_left (scan_keyword message_lower) agent_keywords st).
Proof.
  unfold fallback_scan.
  destruct (specialized_agents st) as [|a agents] eqn:Ha.
  - destruct (m_lower message) as [message_lower|]; [|discriminate].
    cbn [rbind]. intros [= <-]. right. split; [reflexivity|].
    now exists message_lower.
  - intros [= <-]. left. now split.
Qed.

Lemma without_action_snoc (action : string) (trace : list value)
      (item : value) :
  without_action action trace -> has_action action item = false ->
  without_action action (trace ++ [item]).
Proof.
  intros Ht Hi. apply Forall_app. split; [exact Ht|].
  constructor; [exact Hi|constructor].
Qed.

(** Classification appends no detected agent; while it has named no
    agent, it has appended no routed one either. *)
Lemma classified_actions (calls : list value) (st : trace_state) :
  rfold (classify_call w) empty_trace calls = Ok st ->
  without_action "detected_in_response" (response_trace st)
  /\ (specialized_agents st = [] ->
      without_action "routed_to" (response_trace st)).
Proof.
  apply (@classify_calls_preserve
           (fun st => without_action "detected_in_response" (response_trace st)
                      /\ (specialized_agents st = [] ->
                          without_action "routed_to" (response_trace st)))).
  - intros st0 r (Hd & Hr).
    destruct r as [n url|name|]; cbn [apply_routing]; [| |now split].
    + destruct (mem n (specialized_agents st0)); [now split|].
      cbn [add_agent specialized_agents response_trace]. split.
      * now apply without_action_snoc.
      * intros Hnil. now apply app_eq_nil in Hnil as (_ & [=]).
    + destruct (mem name (mcp_tools_used st0)); [now split|].
      cbn [add_tool specialized_agents response_trace]. split.
      * now apply without_action_snoc.
      * intros Hnil. apply without_action_snoc; [now apply Hr|reflexivity].
  - split; [constructor|]. intros _. constructor.
Qed.

(** Every entry of a reconstructed trace is one of the three the code
    builds. *)
Lemma reconstructed_entries (response : value) (ms : value * trace_state) :
  reconstruct_trace w response = Ok ms ->
  Forall router_entry (response_trace (snd ms)).
Proof.
  intros Hms.
  apply reconstruct_trace_inv in Hms as (calls & st & _ & Hst & _ & Hscan).
  assert (Hcl : Forall router_entry (response_trace st)).
  { revert Hst.
    apply (@classify_calls_preserve
             (fun st => Forall router_entry (response_trace st)));
      [|constructor].
    intros st0 r H0.
    destruct r as [n url|name|]; cbn [apply_routing]; [| |exact H0].
    - destruct (mem n (specialized_agents st0)); [exact H0|].
      cbn [add_agent response_trace]. apply Forall_app. split; [exact H0|].
      constructor; [|constructor]. left. now exists n, url.
    - destruct (mem name (mcp_tools_used st0)); [exact H0|].
      cbn [add_tool response_trace]. apply Forall_app. split; [exact H0|].
      constructor; [|constructor]. right. right. now exists name. }
  apply fallback_scan_inv in Hscan as [(_ & ->)|(_ & m & ->)]; [exact Hcl|].
  apply (@scan_keywords_preserve
           (fun st => Forall router_entry (response_trace st)));
    [|exact Hcl].
  intros st0 n H0. cbn [add_agent response_trace].
  apply Forall_app. split; [exact H0|].
  constructor; [|constructor]. right. left. now exists n.
Qed.

End TraceInvariants.

(** X4.  A reconstructed trace never mixes the two ways of naming an
    agent (lines 369-411 and 452-470): either no entry was detected in
    the message text, or no entry was routed to by a call record. *)
Theorem X4_routed_or_detected (w : world) (response : value)
        (ms : value * trace_state) :
  reconstruct_trace w response = Ok ms ->
  without_action "detected_in_response" (response_trace (snd ms))
  \/ without_action "routed_to" (response_trace (snd ms)).
Proof.
  intros Hms.
  apply reconstruct_trace_inv in Hms as (calls & st & _ & Hst & _ & Hscan).
  apply classified_actions in Hst as (Hd & Hr).
  apply fallback_scan_inv in Hscan as [(_ & ->)|(Hnil & m & ->)];
    [now left|].
  right.
  apply (@scan_keywords_preserve
           (fun st => without_action "routed_to" (response_trace st)));
    [|now apply Hr].
  intros st0 n H0. cbn [add_agent response_trace].
  now apply without_action_snoc.
Qed.

Lemma X4_routed_or_detected_witness :
  exists ms,
    reconstruct_trace routing_world routing_answer = Ok ms
    /\ (without_action "detected_in_response" (response_trace (snd ms))
        \/ without_action "routed_to" (response_trace (snd ms))).
Proof.
  eexists. split; [vm_compute; reflexivity|].
  apply (@X4_routed_or_detected routing_world routing_answer).
  vm_compute. reflexivity.
Defined.

(* ===================================================================== *)
(** ** Arguments that do not parse (lines 383-390) *)
(* ===================================================================== *)

Section UnparsedArguments.
Variable w : world.

(** An agent-routing record whose arguments are a text the JSON parser
    rejects: the text itself is asked for the address. *)
Lemma classify_call_unparsed (st : trace_state) (d : dict)
      (name args : string) (e : exn) :
  dget d "name" (VStr "") = VStr name ->
  is_a2a_name (lower name) = true ->
  dget d "arguments" (VDict []) = VStr args ->
  args <> "" ->
  json_loads w args = Raise e ->
  classify_call w st (VDict d)
    = Raise (AttributeError "'str' object has no attribute 'get'").
Proof.
  intros Hname Ha2a Hargs Hne Hjson.
  assert (Htn : truthy (VStr name) = true).
  { destruct name; [discriminate Ha2a|reflexivity]. }
  assert (Hta : truthy (VStr args) = true).
  { destruct args; [now elim Hne|reflexivity]. }
  unfold classify_call, call_name_args, or_function_field.
  rewrite Hname, Hargs, Htn, Hta. cbn [rbind fst snd]. rewrite Ha2a.
  unfold parse_args. now rewrite Hjson.
Qed.

Lemma rfold_raises_at {A B} (f : A -> B -> result A) (bad : B) :
  (forall acc, exists e, f acc bad = Raise e) ->
  forall pre post acc, exists e, rfold f acc (pre ++ bad :: post) = Raise e.
Proof.
  intros Hbad. induction pre as [|x pre IH]; intros post acc;
    cbn [app rfold].
  - destruct (Hbad acc) as (e & ->). now exists e.
  - destruct (f acc x) as [acc'|e]; [apply IH|now exists e].
Qed.

(** The envelope of lines 515-525. *)
Lemma error_response_shaped (e : exn) (context : value) :
  exists resp, error_response w e context = VDict resp /\ error_shaped resp.
Proof.
  eexists. split; [reflexivity|]. split; [|reflexivity].
  eexists. reflexivity.
Qed.

End UnparsedArguments.

(** X5.  One agent-routing record whose arguments are a text that the
    JSON parser rejects fails the whole request (lines 383-390 and
    515-525): the parse error is swallowed, the text is then asked for
    the address, and although the decision step answered, the caller
    gets an error envelope instead of the answer. *)
Theorem X5_unparsed_arguments_fail_request (w : world) (question : value)
        (context : dict) (log : list event) (response : value)
        (pre post : list value) (d : dict) (name args : string) (e : exn) :
  context <> [] ->
  (forall prompt, invoke_async w prompt = Ok response) ->
  discovered_calls w response = Ok (pre ++ VDict d :: post)%list ->
  dget d "name" (VStr "") = VStr name ->
  is_a2a_name (lower name) = true ->
  dget d "arguments" (VDict []) = VStr args ->
  args <> "" ->
  json_loads w args = Raise e ->
  exists resp context' log',
    process_request w question (VDict context) log
      = (Ok (VDict resp, context'), log')
    /\ error_shaped resp.
Proof.
  intros Hne Hinvoke Hcalls Hname Ha2a Hargs Hargs_ne Hjson.
  assert (Hrec : exists e', reconstruct_trace w response = Raise e').
  { unfold discovered_calls in Hcalls.
    unfold reconstruct_trace, classify_calls.
    destruct (discover_calls w response) as [tool_calls|]; [|discriminate].
    cbn [rbind] in Hcalls |- *. rewrite Hcalls. cbn [rbind].
    destruct (@rfold_raises_at _ _ (classify_call w) (VDict d)) with
      (pre := pre) (post := post) (acc := empty_trace) as (e' & ->).
    - intros acc. eexists.
      now apply (@classify_call_unparsed w acc d name args e).
    - now exists e'. }
  destruct Hrec as (e' & Hrec).
  unfold process_request, try_except.
  rewrite (process_request_body_stages w question log Hne).
  assert (Herr : forall e0 l,
             exists resp context' log',
               ret (error_response w e0 (VDict context), VDict context) l
                 = (Ok (VDict resp, context'), log')
               /\ error_shaped resp).
  { intros e0 l. destruct (error_response_shaped w e0 (VDict context))
      as (resp & -> & Hs).
    now exists resp, (VDict context), l. }
  destruct (history_block w question context (ltm_user_id context) log)
    as [[history_text|e0] log1]; [|apply Herr].
  destruct (prompt_of w question context history_text) as [prompt|e0];
    [|apply Herr].
  cbn zeta. rewrite Hinvoke, Hrec. apply Herr.
Qed.

Lemma X5_unparsed_arguments_fail_request_witness :
  exists resp context' log',
    process_request garbled_world (VStr "Create a ticket")
                    (VDict [ ("user_id", VStr "u2") ]) []
      = (Ok (VDict resp, context'), log')
    /\ error_shaped resp.
Proof.
  apply (@X5_unparsed_arguments_fail_request garbled_world
           (VStr "Create a ticket") [ ("user_id", VStr "u2") ] []
           garbled_answer [] []
           [ ("name", VStr "a2a_send_message");
             ("arguments", VStr "target_agent_url=http://127.0.0.1:9003") ]
           "a2a_send_message" "target_agent_url=http://127.0.0.1:9003"
           (ExternalError "Expecting value"));
    try reflexivity; discriminate.
Defined.

(* ===================================================================== *)
(** ** What [send_message] adds to the response (lines 673-761) *)
(* ===================================================================== *)

Section ResponseFields.
Variable w : world.

Lemma add_details_fields (include_details : value) (user_context r : dict)
      (v : value) :
  add_details w include_details user_context (VDict r) = Ok v ->
  exists r1,
    v = VDict r1
    /\ (forall k, String.eqb k "auth_info" = false ->
                  String.eqb k "processing_steps" = false ->
                  lookup k r1 = lookup k r)
    /\ (truthy include_details
        && truthy (dget user_context "authenticated" VNone) = false ->
        r1 = r)
    /\ (truthy include_details
        && truthy (dget user_context "authenticated" VNone) = true ->
        lookup "auth_info" r1
        = Some (VDict [ ("department", dget user_context "department" VNone);
                        ("permissions",
                         dget user_context "permissions" VNone);
                        ("username", dget user_context "username" VNone) ])
        /\ exists steps, lookup "processing_steps" r1 = Some (VList steps)
                         /\ length steps = 6%nat).
Proof.
  unfold add_details.
  destruct (truthy include_details
            && truthy (dget user_context "authenticated" VNone)).
  - cbn [set_item rbind].
    destruct (py_len (dget user_context "permissions" (VList [])))
      as [n|e]; [|discriminate].
    cbn [rbind]. intros [= <-]. eexists. split; [reflexivity|].
    split; [|split; [discriminate|]].
    + intros k H1 H2. now rewrite !lookup_dict_set_neq.
    + intros _. split.
      * rewrite lookup_dict_set_neq by reflexivity.
        apply lookup_dict_set_eq.
      * eexists. split; [apply lookup_dict_set_eq|reflexivity].
  - intros [= <-]. exists r. split; [reflexivity|].
    split; [reflexivity|]. split; [reflexivity|discriminate].
Qed.

Lemma add_session_info_fields (runtime_session_id : value) (r c : dict) :
  lookup "context" r = Some (VDict c) ->
  exists r',
    add_session_info runtime_session_id (VDict r) = Ok (VDict r')
    /\ (forall k, String.eqb k "session_info" = false ->
                  String.eqb k "session_id" = false ->
                  String.eqb k "context" = false ->
                  lookup k r' = lookup k r)
    /\ lookup "session_id" r'
       = (if truthy runtime_session_id then Some runtime_session_id
          else lookup "session_id" r)
    /\ lookup "context" r' = Some (VDict (echo_session runtime_session_id c)).
Proof.
  intros Hc. unfold add_session_info, echo_session.
  destruct (truthy runtime_session_id).
  - cbn [set_item rbind]. unfold has_key.
    rewrite !lookup_dict_set_neq by reflexivity. rewrite Hc. cbn [rbind].
    rewrite (@set_context_item_spec _ c)
      by (now rewrite !lookup_dict_set_neq by reflexivity).
    cbn [rbind].
    rewrite (@set_context_item_spec _ _ "session_id" runtime_session_id
               (lookup_dict_set_eq _ _ _)).
    eexists. split; [reflexivity|]. split; [|split].
    + intros k H1 H2 H3. now rewrite !lookup_dict_set_neq.
    + rewrite !lookup_dict_set_neq by reflexivity.
      apply lookup_dict_set_eq.
    + apply lookup_dict_set_eq.
  - cbn [set_item]. eexists. split; [reflexivity|]. split; [|split].
    + intros k H1 H2 H3. now rewrite lookup_dict_set_neq.
    + now rewrite lookup_dict_set_neq by reflexivity.
    + now rewrite lookup_dict_set_neq by reflexivity.
Qed.

(** The two results of [process_request] on a context mapping: the
    response of line 475 for a reconstructed trace, with the context the
    trace was written into, or the envelope of line 515. *)
Lemma process_request_forms (question : value) (context : dict)
      (log : list event) :
  context <> [] ->
  exists rc log',
    process_request w question (VDict context) log = (Ok rc, log')
    /\ ((exists response ms,
            reconstruct_trace w response = Ok ms
            /\ rc = response_dict w (VDict context) (fst ms)
                      (dget context "authenticated" (VBool false)) (snd ms))
        \/ (exists e, rc = (error_response w e (VDict context),
                            VDict context))).
Proof.
  intros Hne. unfold process_request, try_except.
  rewrite (process_request_body_stages w question log Hne).
  assert (Herr : forall (e : exn) (l : list event),
             exists rc log',
               ret (error_response w e (VDict context), VDict context) l
                 = (Ok rc, log')
               /\ ((exists response ms,
                       reconstruct_trace w response = Ok ms
                       /\ rc = response_dict w (VDict context) (fst ms)
                                 (dget context "authenticated" (VBool false))
                                 (snd ms))
                   \/ (exists e0, rc = (error_response w e0 (VDict context),
                                        VDict context)))).
  { intros e l. eexists. exists l. split; [reflexivity|].
    right. now exists e. }
  destruct (history_block w question context (ltm_user_id context) log)
    as [[history_text|e0] log1]; [|apply Herr].
  destruct (prompt_of w question context history_text) as [prompt|e0];
    [|apply Herr].
  cbn zeta. destruct (invoke_async w prompt) as [response|e0]; [|apply Herr].
  destruct (reconstruct_trace w response) as [ms|e0] eqn:Hms; [|apply Herr].
  eexists. eexists. split; [reflexivity|]. left. now exists response, ms.
Qed.

End ResponseFields.

Section HandledResponse.
Variable w : world.

(** A handled request ends in the envelope of line 767, or in the
    response of [process_request] with the additions of lines 674-761. *)
Lemma send_message_handled_forms (request context : dict)
      (log : list event) :
  truthy (extract_question request) = true ->
  extract_context request = VDict context ->
  exists resp log',
    send_message w (VDict request) log = (Ok (VDict resp), log')
    /\ ((exists e, VDict resp = catch_all e)
        \/ exists r c r1 n,
            process_request w (extract_question request)
              (VDict (enhanced_context_of context
                        (identity_of request context)
                        (session_of request context))) log
              = (Ok (VDict r, VDict c), log')
            /\ lookup "context" r = Some (VDict c)
            /\ add_details w (dget request "include_details" (VBool false))
                 (user_context_of context (identity_of request context)
                                  (session_of request context))
                 (VDict r) = Ok (VDict r1)
            /\ py_len (dget c "conversation_context" (VList [])) = Ok n
            /\ add_session_info
                 (app_session w (session_of request context))
                 (VDict (dict_set "memory_info" (memory_info_of n context)
                                  r1))
               = Ok (VDict resp)).
Proof.
  intros Hq Hc. rewrite (send_message_handled w request log Hq Hc). cbn zeta.
  set (uid := identity_of request context).
  set (rsid := session_of request context).
  enough (Hgen : forall Q : dict -> list event -> Prop,
             (forall r c r1 n resp log',
                 process_request w (extract_question request)
                   (VDict (enhanced_context_of context uid rsid)) log
                   = (Ok (VDict r, VDict c), log') ->
                 lookup "context" r = Some (VDict c) ->
                 add_details w (dget request "include_details" (VBool false))
                   (user_context_of context uid rsid) (VDict r)
                   = Ok (VDict r1) ->
                 py_len (dget c "conversation_context" (VList [])) = Ok n ->
                 add_session_info (app_session w rsid)
                   (VDict (dict_set "memory_info" (memory_info_of n context)
                                    r1))
                   = Ok (VDict resp) ->
                 Q resp log') ->
             exists resp log',
               match log_history_length rsid
                       (dget context "conversation_history" (VList [])) with
               | Raise e => (Ok (catch_all e), log)
               | Ok _ =>
                   match process_request w (extract_question request)
                           (VDict (enhanced_context_of context uid rsid))
                           log with
                   | (Ok rc, log1) =>
                       match finish_response w
                               (dget request "include_details" (VBool false))
                               (user_context_of context uid rsid) rsid
                               (fst rc) (snd rc) with
                       | Ok response => (Ok response, log1)
                       | Raise e => (Ok (catch_all e), log1)
                       end
                   | (Raise e, log1) => (Ok (catch_all e), log1)
                   end
               end = (Ok (VDict resp), log')
               /\ ((exists e, VDict resp = catch_all e) \/ Q resp log')).
  { apply (Hgen (fun resp log' =>
                   exists r c r1 n,
                     process_request w (extract_question request)
                       (VDict (enhanced_context_of context uid rsid)) log
                       = (Ok (VDict r, VDict c), log')
                     /\ lookup "context" r = Some (VDict c)
                     /\ add_details w
                          (dget request "include_details" (VBool false))
                          (user_context_of context uid rsid) (VDict r)
                        = Ok (VDict r1)
                     /\ py_len (dget c "conversation_context" (VList []))
                        = Ok n
                     /\ add_session_info (app_session w rsid)
                          (VDict (dict_set "memory_info"
                                    (memory_info_of n context) r1))
                        = Ok (VDict resp))).
    intros r c r1 n resp log' H1 H2 H3 H4 H5. now exists r, c, r1, n. }
  intros Q HQ.
  assert (Hcatch : forall (e : exn) (l : list event),
             exists resp log',
               (Ok (catch_all e), l) = (Ok (VDict resp), log')
               /\ ((exists e0, VDict resp = catch_all e0) \/ Q resp log')).
  { intros e l. eexists. exists l. split; [reflexivity|].
    left. now exists e. }
  destruct (log_history_length rsid
              (dget context "conversation_history" (VList [])));
    [|apply Hcatch].
  destruct (@process_request_shape w (extract_question request)
              (enhanced_context_of context uid rsid) log
              (dict_set_nonempty _ _ _))
    as (r & c & log1 & Hrun & _ & Hctx & _).
  rewrite Hrun. cbn [fst snd]. unfold finish_response.
  destruct (add_details w (dget request "include_details" (VBool false))
              (user_context_of context uid rsid) (VDict r))
    as [v|e] eqn:Hdet; [|cbn [rbind]; apply Hcatch].
  pose proof Hdet as Hdet'.
  apply add_details_fields in Hdet' as (r1 & -> & Hkeep & _).
  cbn [rbind m_get].
  destruct (py_len (dget c "conversation_context" (VList []))) as [n|e]
    eqn:Hlen; [|cbn [rbind]; apply Hcatch].
  cbn [rbind set_item].
  destruct (@add_session_info_fields (app_session w rsid)
              (dict_set "memory_info" (memory_info_of n context) r1) c)
    as (resp & Hfin & _).
  { rewrite lookup_dict_set_neq by reflexivity.
    rewrite Hkeep by reflexivity. exact Hctx. }
  change (VDict [ ("memory_enabled", VBool true);
                  ("conversation_length", VInt n);
                  ("user_context_stored",
                   dget (user_context_of context uid rsid) "authenticated"
                        (VBool false)) ])
    with (memory_info_of n context).
  rewrite Hfin. exists resp, log1. split; [reflexivity|].
  right. now apply (HQ r c r1 n).
Qed.

Lemma not_send_message_key (k : string) :
  mem k send_message_keys = false ->
  String.eqb k "auth_info" = false
  /\ String.eqb k "processing_steps" = false
  /\ String.eqb k "memory_info" = false
  /\ String.eqb k "session_info" = false
  /\ String.eqb k "session_id" = false
  /\ String.eqb k "context" = false.
Proof.
  unfold mem, send_message_keys. cbn [existsb].
  rewrite !Bool.orb_false_iff. tauto.
Qed.

End HandledResponse.

(** X6.  What [send_message] leaves alone (lines 673-761).  Unless the
    request ends in the envelope of line 767, every field of the response
    of [process_request] other than the six keys [send_message] writes
    -- among them [message], [status], [timestamp], [agent], [model],
    [authenticated], [specialized_agents], [mcp_tools_used],
    [response_trace] and [error] -- reaches the caller unchanged, and the
    call log is the one [process_request] left. *)
Theorem X6_router_fields_kept (w : world) (request context : dict)
        (log : list event) :
  truthy (extract_question request) = true ->
  extract_context request = VDict context ->
  exists resp log',
    send_message w (VDict request) log = (Ok (VDict resp), log')
    /\ ((exists e, VDict resp = catch_all e)
        \/ exists r c,
            process_request w (extract_question request)
              (VDict (enhanced_context_of context
                        (identity_of request context)
                        (session_of request context))) log
              = (Ok (VDict r, c), log')
            /\ forall k, mem k send_message_keys = false ->
                         lookup k resp = lookup k r).
Proof.
  intros Hq Hc.
  destruct (send_message_handled_forms w request log Hq Hc)
    as (resp & log' & Hrun & [Hcatch|(r & c & r1 & n & Hpr & Hctx & Hdet
                                      & _ & Hfin)]).
  - exists resp, log'. split; [exact Hrun|now left].
  - exists resp, log'. split; [exact Hrun|]. right.
    exists r, (VDict c). split; [exact Hpr|].
    intros k Hk.
    apply not_send_message_key in Hk as (H1 & H2 & H3 & H4 & H5 & H6).
    pose proof Hdet as Hdet'.
    apply add_details_fields in Hdet' as (r1' & [= <-] & Hkeep & _).
    destruct (@add_session_info_fields
                (app_session w (session_of request context))
                (dict_set "memory_info" (memory_info_of n context) r1) c)
      as (resp' & Hfin' & Hkeep' & _).
    { rewrite lookup_dict_set_neq by reflexivity.
      rewrite Hkeep by reflexivity. exact Hctx. }
    rewrite Hfin in Hfin'. injection Hfin' as <-.
    rewrite Hkeep' by assumption.
    rewrite lookup_dict_set_neq by assumption.
    now apply Hkeep.
Qed.

Lemma X6_router_fields_kept_witness :
  exists resp log',
    send_message quiet_world (VDict both_ids_request) []
      = (Ok (VDict resp), log')
    /\ ((exists e, VDict resp = catch_all e)
        \/ exists r c,
            process_request quiet_world (extract_question both_ids_request)
              (VDict (enhanced_context_of [ ("user_id", VStr "ctx") ]
                        (identity_of both_ids_request
                                     [ ("user_id", VStr "ctx") ])
                        (session_of both_ids_request
                                    [ ("user_id", VStr "ctx") ]))) []
              = (Ok (VDict r, c), log')
            /\ forall k, mem k send_message_keys = false ->
                         lookup k resp = lookup k r).
Proof.
  apply (@X6_router_fields_kept quiet_world both_ids_request
           [ ("user_id", VStr "ctx") ] []); reflexivity.
Defined.

Section ProcessedResponse.
Variable w : world.

(** Every entry the code builds has one projection for the UI. *)
Lemma conversation_context_length (trace : list value) :
  Forall router_entry trace ->
  length (conversation_context w trace) = length trace.
Proof.
  unfold conversation_context.
  induction 1 as [|item trace Hitem _ IH]; [reflexivity|].
  cbn [flat_map]. rewrite length_app, IH. cbn [length]. f_equal.
  destruct Hitem as [(n & url & ->)|[(n & ->)|(t & ->)]]; reflexivity.
Qed.

(** The response of [process_request] has none of the keys that
    [send_message] adds, apart from [context]. *)
Lemma process_request_fresh_keys (question : value) (context : dict)
      (log log' : list event) (r : dict) (c : value) :
  context <> [] ->
  process_request w question (VDict context) log
    = (Ok (VDict r, c), log') ->
  lookup "auth_info" r = None /\ lookup "processing_steps" r = None
  /\ lookup "memory_info" r = None /\ lookup "session_info" r = None
  /\ lookup "session_id" r = None.
Proof.
  intros Hne Hrun.
  destruct (process_request_forms w question log Hne)
    as (rc & log1 & Hrun' & [(response & ms & _ & ->)|(e & ->)]);
    rewrite Hrun in Hrun'.
  - unfold response_dict in Hrun'. injection Hrun' as -> _ _.
    now repeat split.
  - unfold error_response in Hrun'. injection Hrun' as -> _ _.
    now repeat split.
Qed.

(** An answer of [process_request] carries the reconstructed trace, and
    the context it leaves holds the projection of that trace. *)
Lemma process_request_answer (question : value) (context : dict)
      (log log' : list event) (r : dict) (c : value) :
  context <> [] ->
  process_request w question (VDict context) log
    = (Ok (VDict r, c), log') ->
  lookup "status" r = Some (VStr "processed") ->
  exists trace,
    Forall router_entry trace
    /\ lookup "response_trace" r = Some (VList trace)
    /\ c = VDict (dict_set "conversation_context"
                    (VList (conversation_context w trace)) context).
Proof.
  intros Hne Hrun Hstatus.
  destruct (process_request_forms w question log Hne)
    as (rc & log1 & Hrun' & [(response & ms & Hms & ->)|(e & ->)]);
    rewrite Hrun in Hrun'.
  - unfold response_dict in Hrun'. rewrite (truthy_dict Hne) in Hrun'.
    injection Hrun' as -> -> _.
    exists (response_trace (snd ms)). split; [|now split].
    now apply (@reconstructed_entries w response).
  - unfold error_response in Hrun'. injection Hrun' as -> _ _.
    discriminate Hstatus.
Qed.

End ProcessedResponse.

(** X7.  [memory_info.conversation_length] of an answer (lines 512 and
    716-720).  [process_request] writes the projection of the trace into
    the context object it was given, which is the object [send_message]
    measures afterwards: the length reported is the number of entries of
    [response_trace], whatever the length of the history the caller
    sent. *)
Theorem X7_conversation_length_counts_trace (w : world)
        (request context : dict) (log log' : list event) (resp : dict) :
  truthy (extract_question request) = true ->
  extract_context request = VDict context ->
  send_message w (VDict request) log = (Ok (VDict resp), log') ->
  answer_shaped resp ->
  exists trace,
    lookup "response_trace" resp = Some (VList trace)
    /\ lookup "memory_info" resp
       = Some (memory_info_of (Z.of_nat (length trace)) context).
Proof.
  intros Hq Hc Hrun (Herr & _ & Hstatus).
  destruct (send_message_handled_forms w request log Hq Hc)
    as (resp' & log1 & Hrun' & Hcases).
  rewrite Hrun in Hrun'. injection Hrun' as <- <-.
  destruct Hcases as [(e & He)|(r & c & r1 & n & Hpr & Hctx & Hdet
                                & Hlen & Hfin)].
  { unfold catch_all in He. injection He as ->. discriminate Herr. }
  pose proof Hdet as Hdet'.
  apply add_details_fields in Hdet' as (r1' & [= <-] & Hkeep & _).
  destruct (@add_session_info_fields
              (app_session w (session_of request context))
              (dict_set "memory_info" (memory_info_of n context) r1) c)
    as (resp' & Hfin' & Hkeep' & _).
  { rewrite lookup_dict_set_neq by reflexivity.
    rewrite Hkeep by reflexivity. exact Hctx. }
  rewrite Hfin in Hfin'. injection Hfin' as <-.
  assert (Hst : lookup "status" r = Some (VStr "processed")).
  { rewrite <- Hstatus. rewrite Hkeep' by reflexivity.
    rewrite lookup_dict_set_neq by reflexivity.
    symmetry. now apply Hkeep. }
  destruct (@process_request_answer w _ _ _ _ _ _ (dict_set_nonempty _ _ _)
              Hpr Hst)
    as (trace & Hentries & Htrace & Hc').
  injection Hc' as ->.
  exists trace. split.
  - rewrite Hkeep' by reflexivity.
    rewrite lookup_dict_set_neq by reflexivity.
    now rewrite Hkeep by reflexivity.
  - rewrite Hkeep' by reflexivity. rewrite lookup_dict_set_eq.
    unfold dget in Hlen. rewrite lookup_dict_set_eq in Hlen.
    cbn [py_len] in Hlen. injection Hlen as <-.
    now rewrite (@conversation_context_length w trace Hentries).
Qed.

Lemma X7_conversation_length_counts_trace_witness :
  exists resp log' trace,
    send_message routing_world (VDict ticket_request) []
      = (Ok (VDict resp), log')
    /\ lookup "response_trace" resp = Some (VList trace)
    /\ lookup "memory_info" resp
       = Some (memory_info_of (Z.of_nat (length trace))
                              [ ("user_id", VStr "u2") ]).
Proof.
  assert (Hrun : exists resp log',
             send_message routing_world (VDict ticket_request) []
               = (Ok (VDict resp), log')
             /\ answer_shaped resp).
  { eexists. eexists. split; [vm_compute; reflexivity|].
    split; [reflexivity|]. split; [|reflexivity].
    eexists. reflexivity. }
  destruct Hrun as (resp & log' & Hrun & Hans).
  destruct (@X7_conversation_length_counts_trace routing_world
              ticket_request [ ("user_id", VStr "u2") ] [] log' resp
              eq_refl eq_refl Hrun Hans) as (trace & Ht & Hm).
  now exists resp, log', trace.
Defined.

Section EnhancedContext.
Variable w : world.

Lemma enhanced_session_id (context : dict) (uid runtime_session_id : value) :
  lookup "session_id" (enhanced_context_of context uid runtime_session_id)
  = Some runtime_session_id.
Proof.
  unfold enhanced_context_of. apply lookup_dict_set_eq.
Qed.

Lemma enhanced_runtime_session_id (context : dict)
      (uid runtime_session_id : value) :
  lookup "runtime_session_id"
         (enhanced_context_of context uid runtime_session_id)
  = Some runtime_session_id.
Proof.
  unfold enhanced_context_of, dict_merge, user_context_of.
  cbn [fold_left fst snd].
  rewrite !lookup_dict_set_neq by reflexivity.
  apply lookup_dict_set_eq.
Qed.

Lemma mem_cons_false (k x : string) (l : list string) :
  mem k (x :: l) = false -> String.eqb k x = false /\ mem k l = false.
Proof.
  unfold mem. cbn [existsb]. now rewrite Bool.orb_false_iff.
Qed.

(** The keys the Router does not write are those of the caller. *)
Lemma enhanced_other_keys (context : dict) (uid runtime_session_id : value)
      (k : string) :
  mem k router_context_keys = false ->
  lookup k (enhanced_context_of context uid runtime_session_id)
  = lookup k context.
Proof.
  unfold router_context_keys. intros Hk.
  repeat (apply mem_cons_false in Hk as (? & Hk)).
  unfold enhanced_context_of, dict_merge, user_context_of.
  cbn [fold_left fst snd].
  now rewrite !lookup_dict_set_neq by assumption.
Qed.

(** The context [process_request] leaves is the one it was given, but
    for [conversation_context]. *)
Lemma process_request_context (question : value) (context : dict)
      (log log' : list event) (r c : dict) (k : string) :
  context <> [] ->
  process_request w question (VDict context) log
    = (Ok (VDict r, VDict c), log') ->
  String.eqb k "conversation_context" = false ->
  lookup k c = lookup k context.
Proof.
  intros Hne Hrun Hk.
  destruct (process_request_shape w question log Hne)
    as (r' & c' & log1 & Hrun' & _ & _ & Hc).
  rewrite Hrun in Hrun'. injection Hrun' as _ -> _.
  destruct Hc as [->|(cc & ->)]; [reflexivity|].
  now apply lookup_dict_set_neq.
Qed.

Lemma lookup_echo_session (runtime_session_id : value) (c : dict)
      (k : string) :
  String.eqb k "session_id" = false ->
  String.eqb k "runtime_session_id" = false ->
  lookup k (echo_session runtime_session_id c) = lookup k c.
Proof.
  intros H1 H2. unfold echo_session.
  destruct (truthy runtime_session_id); [|reflexivity].
  now rewrite !lookup_dict_set_neq.
Qed.

End EnhancedContext.

(** X8.  The details of lines 674-713.  Unless the request ends in the
    envelope of line 767, the response carries [auth_info] -- department,
    permissions and username of the context, with the defaults of lines
    639-641 -- and six [processing_steps] exactly when [include_details]
    and the [authenticated] of the context are both truthy; otherwise it
    carries neither key. *)
Theorem X8_details_only_when_wanted (w : world) (request context : dict)
        (log : list event) :
  truthy (extract_question request) = true ->
  extract_context request = VDict context ->
  exists resp log',
    send_message w (VDict request) log = (Ok (VDict resp), log')
    /\ ((exists e, VDict resp = catch_all e)
        \/ if details_wanted (dget request "include_details" (VBool false))
                             context
           then lookup "auth_info" resp = Some (auth_info_of context)
                /\ exists steps,
                    lookup "processing_steps" resp = Some (VList steps)
                    /\ length steps = 6%nat
           else lookup "auth_info" resp = None
                /\ lookup "processing_steps" resp = None).
Proof.
  intros Hq Hc.
  destruct (send_message_handled_forms w request log Hq Hc)
    as (resp & log' & Hrun & [Hcatch|(r & c & r1 & n & Hpr & Hctx & Hdet
                                      & _ & Hfin)]);
    exists resp, log'; (split; [exact Hrun|]); [now left|right].
  destruct (@process_request_fresh_keys w _ _ _ _ _ _
              (dict_set_nonempty _ _ _) Hpr) as (Hauth & Hsteps & _).
  apply add_details_fields in Hdet as (r1' & [= <-] & Hkeep & Hoff & Hon).
  destruct (@add_session_info_fields
              (app_session w (session_of request context))
              (dict_set "memory_info" (memory_info_of n context) r1) c)
    as (resp' & Hfin' & Hkeep' & _).
  { rewrite lookup_dict_set_neq by reflexivity.
    rewrite Hkeep by reflexivity. exact Hctx. }
  rewrite Hfin in Hfin'. injection Hfin' as <-.
  rewrite !Hkeep' by reflexivity.
  rewrite !lookup_dict_set_neq by reflexivity.
  unfold details_wanted.
  change (dget context "authenticated" (VBool false))
    with (dget (user_context_of context (identity_of request context)
                                (session_of request context))
               "authenticated" VNone).
  destruct (truthy (dget request "include_details" (VBool false))
            && truthy (dget (user_context_of context
                               (identity_of request context)
                               (session_of request context))
                            "authenticated" VNone)).
  - destruct (Hon eq_refl) as (Ha & steps & Hs & Hsix).
    split; [exact Ha|]. now exists steps.
  - rewrite (Hoff eq_refl). now split.
Qed.

Lemma X8_details_only_when_wanted_witness :
  exists resp log',
    send_message quiet_world (VDict details_request) []
      = (Ok (VDict resp), log')
    /\ ((exists e, VDict resp = catch_all e)
        \/ if details_wanted
                (dget details_request "include_details" (VBool false))
                [ ("user_id", VStr "u1"); ("authenticated", VBool true);
                  ("tenant", VStr "acme") ]
           then lookup "auth_info" resp
                = Some (auth_info_of [ ("user_id", VStr "u1");
                                       ("authenticated", VBool true);
                                       ("tenant", VStr "acme") ])
                /\ exists steps,
                    lookup "processing_steps" resp = Some (VList steps)
                    /\ length steps = 6%nat
           else lookup "auth_info" resp = None
                /\ lookup "processing_steps" resp = None).
Proof.
  apply (@X8_details_only_when_wanted quiet_world details_request
           [ ("user_id", VStr "u1"); ("authenticated", VBool true);
             ("tenant", VStr "acme") ] []); reflexivity.
Defined.

(** X9.  The session echo of lines 655-662 and 754-761.  Unless the
    request ends in the envelope of line 767, the context of the response
    always carries [session_id] and [runtime_session_id], both equal to
    the session the response reports when there is one and to the
    resolved value otherwise; the top-level [session_id] is present
    exactly when that session is truthy. *)
Theorem X9_session_echo (w : world) (request context : dict)
        (log : list event) :
  truthy (extract_question request) = true ->
  extract_context request = VDict context ->
  exists resp log',
    send_message w (VDict request) log = (Ok (VDict resp), log')
    /\ ((exists e, VDict resp = catch_all e)
        \/ let s := app_session w (session_of request context) in
           let echoed := if truthy s then s
                         else session_of request context in
           lookup "session_id" resp = (if truthy s then Some s else None)
           /\ exists c,
               lookup "context" resp = Some (VDict c)
               /\ lookup "session_id" c = Some echoed
               /\ lookup "runtime_session_id" c = Some echoed).
Proof.
  intros Hq Hc.
  destruct (send_message_handled_forms w request log Hq Hc)
    as (resp & log' & Hrun & [Hcatch|(r & c & r1 & n & Hpr & Hctx & Hdet
                                      & _ & Hfin)]);
    exists resp, log'; (split; [exact Hrun|]); [now left|right].
  destruct (@process_request_fresh_keys w _ _ _ _ _ _
              (dict_set_nonempty _ _ _) Hpr) as (_ & _ & _ & _ & Hsid).
  apply add_details_fields in Hdet as (r1' & [= <-] & Hkeep & _).
  destruct (@add_session_info_fields
              (app_session w (session_of request context))
              (dict_set "memory_info" (memory_info_of n context) r1) c)
    as (resp' & Hfin' & _ & Hs & Hc').
  { rewrite lookup_dict_set_neq by reflexivity.
    rewrite Hkeep by reflexivity. exact Hctx. }
  rewrite Hfin in Hfin'. injection Hfin' as <-.
  cbn zeta. split.
  - rewrite Hs. destruct (truthy (app_session w (session_of request context)));
      [reflexivity|].
    rewrite lookup_dict_set_neq by reflexivity.
    rewrite Hkeep by reflexivity. exact Hsid.
  - exists (echo_session (app_session w (session_of request context)) c).
    split; [exact Hc'|].
    assert (H1 : lookup "session_id" c = Some (session_of request context)).
    { rewrite (@process_request_context w _ _ _ _ _ _ "session_id"
                 (dict_set_nonempty _ _ _) Hpr eq_refl).
      apply enhanced_session_id. }
    assert (H2 : lookup "runtime_session_id" c
                 = Some (session_of request context)).
    { rewrite (@process_request_context w _ _ _ _ _ _ "runtime_session_id"
                 (dict_set_nonempty _ _ _) Hpr eq_refl).
      apply enhanced_runtime_session_id. }
    unfold echo_session.
    destruct (truthy (app_session w (session_of request context)));
      [|now split].
    split; [apply lookup_dict_set_eq|].
    rewrite lookup_dict_set_neq by reflexivity. apply lookup_dict_set_eq.
Qed.

Lemma X9_session_echo_witness :
  exists resp log',
    send_message exposing_world (VDict empty_session_request) []
      = (Ok (VDict resp), log')
    /\ ((exists e, VDict resp = catch_all e)
        \/ let s := app_session exposing_world
                      (session_of empty_session_request
                                  [ ("runtimeSessionId", VStr "rt-42") ]) in
           let echoed := if truthy s then s
                         else session_of empty_session_request
                                [ ("runtimeSessionId", VStr "rt-42") ] in
           lookup "session_id" resp = (if truthy s then Some s else None)
           /\ exists c,
               lookup "context" resp = Some (VDict c)
               /\ lookup "session_id" c = Some echoed
               /\ lookup "runtime_session_id" c = Some echoed).
Proof.
  apply (@X9_session_echo exposing_world empty_session_request
           [ ("runtimeSessionId", VStr "rt-42") ] []); reflexivity.
Defined.

(** X10.  The context echo of lines 636-662.  Unless the request ends in
    the envelope of line 767, the context of the response carries the
    resolved identity as [user_id] and [memory_enabled] set, and every
    key of the caller's context that the Router does not write itself
    comes back with the caller's value. *)
Theorem X10_context_echo (w : world) (request context : dict)
        (log : list event) :
  truthy (extract_question request) = true ->
  extract_context request = VDict context ->
  exists resp log',
    send_message w (VDict request) log = (Ok (VDict resp), log')
    /\ ((exists e, VDict resp = catch_all e)
        \/ exists c,
            lookup "context" resp = Some (VDict c)
            /\ lookup "user_id" c = Some (identity_of request context)
            /\ lookup "memory_enabled" c = Some (VBool true)
            /\ forall k, mem k router_context_keys = false ->
                         lookup k c = lookup k context).
Proof.
  intros Hq Hc.
  destruct (send_message_handled_forms w request log Hq Hc)
    as (resp & log' & Hrun & [Hcatch|(r & c & r1 & n & Hpr & Hctx & Hdet
                                      & _ & Hfin)]);
    exists resp, log'; (split; [exact Hrun|]); [now left|right].
  apply add_details_fields in Hdet as (r1' & [= <-] & Hkeep & _).
  destruct (@add_session_info_fields
              (app_session w (session_of request context))
              (dict_set "memory_info" (memory_info_of n context) r1) c)
    as (resp' & Hfin' & _ & _ & Hc').
  { rewrite lookup_dict_set_neq by reflexivity.
    rewrite Hkeep by reflexivity. exact Hctx. }
  rewrite Hfin in Hfin'. injection Hfin' as <-.
  exists (echo_session (app_session w (session_of request context)) c).
  split; [exact Hc'|].
  assert (Hsame : forall k, String.eqb k "conversation_context" = false ->
                            String.eqb k "session_id" = false ->
                            String.eqb k "runtime_session_id" = false ->
                            lookup k (echo_session
                                        (app_session w
                                           (session_of request context)) c)
                            = lookup k (enhanced_context_of context
                                          (identity_of request context)
                                          (session_of request context))).
  { intros k H1 H2 H3. rewrite lookup_echo_session by assumption.
    now apply (@process_request_context w _ _ _ _ _ _ k
                 (dict_set_nonempty _ _ _) Hpr). }
  split; [|split].
  - rewrite Hsame by reflexivity.
    unfold enhanced_context_of, dict_merge, user_context_of.
    cbn [fold_left fst snd].
    rewrite !lookup_dict_set_neq by reflexivity.
    apply lookup_dict_set_eq.
  - rewrite Hsame by reflexivity.
    unfold enhanced_context_of.
    rewrite !lookup_dict_set_neq by reflexivity.
    apply lookup_dict_set_eq.
  - intros k Hk. pose proof (enhanced_other_keys context
                               (identity_of request context)
                               (session_of request context) k Hk) as Hother.
    unfold router_context_keys in Hk.
    repeat (apply mem_cons_false in Hk as (? & Hk)).
    now rewrite Hsame by assumption.
Qed.

Lemma X10_context_echo_witness :
  exists resp log',
    send_message quiet_world (VDict details_request) []
      = (Ok (VDict resp), log')
    /\ ((exists e, VDict resp = catch_all e)
        \/ exists c,
            lookup "context" resp = Some (VDict c)
            /\ lookup "user_id" c
               = Some (identity_of details_request
                         [ ("user_id", VStr "u1");
                           ("authenticated", VBool true);
                           ("tenant", VStr "acme") ])
            /\ lookup "memory_enabled" c = Some (VBool true)
            /\ forall k, mem k router_context_keys = false ->
                         lookup k c
                         = lookup k [ ("user_id", VStr "u1");
                                      ("authenticated", VBool true);
                                      ("tenant", VStr "acme") ]).
Proof.
  apply (@X10_context_echo quiet_world details_request
           [ ("user_id", VStr "u1"); ("authenticated", VBool true);
             ("tenant", VStr "acme") ] []); reflexivity.
Defined.

(* ===================================================================== *)
(** ** Message extraction and the prompt without context *)
(* ===================================================================== *)

(** X11.  Message extraction for a message whose content is a list of
    blocks (lines 413-448).  The dict branch takes the content as it is,
    line 437 prints it, and the clean-up of lines 440-448 parses the
    print back and keeps the [text] of the first block alone: the later
    blocks of the answer are dropped.  The printer and the literal parser
    are external; they are assumed to print the list in brackets and to
    read the print back. *)
Theorem X11_first_content_block (w : world) (attrs d first : dict)
        (rest : list value) :
  let blocks := VList (VDict first :: rest) in
  lookup "message" attrs = Some (VDict d) ->
  dget d "content" (VStr "") = blocks ->
  startswith "[" (repr w blocks) = true ->
  ascii_is "]"%char (last_char (repr w blocks)) = true ->
  literal_eval w (repr w blocks) = Ok blocks ->
  truthy (dget first "text" VNone) = true ->
  extract_message w (VObj attrs) = Ok (dget first "text" VNone).
Proof.
  intros blocks Hm Hcontent Hopen Hclose Heval Htext.
  unfold extract_message, hasattr, getattr, dget at 1. rewrite Hm.
  cbn [rbind]. rewrite Hcontent. unfold blocks in *.
  cbn [str_of]. unfold unwrap_list_text.
  rewrite Hopen, Hclose. cbn [andb]. rewrite Heval.
  unfold py_or. now rewrite Htext.
Qed.

Lemma X11_first_content_block_witness :
  extract_message blocks_world
    (VObj [ ("message", VDict [ ("role", VStr "assistant");
                                ("content", two_blocks) ]) ])
  = Ok (dget [ ("text", VStr "Hello") ] "text" VNone).
Proof.
  apply (@X11_first_content_block blocks_world
           [ ("message", VDict [ ("role", VStr "assistant");
                                 ("content", two_blocks) ]) ]
           [ ("role", VStr "assistant"); ("content", two_blocks) ]
           [ ("text", VStr "Hello") ]
           [ VDict [ ("text", VStr "world") ] ]); reflexivity.
Defined.

(** X12.  [process_request] without context (lines 209-217, 312-316,
    475-514): for a context that is absent, empty or otherwise falsy, no
    field of it is read and the Memory Store is not consulted; the one
    external call is the decision step, on the prompt
    [Customer Request: <question>] alone.  The response, an answer or the
    envelope of line 515, carries an empty context, and the caller's
    object is left as it was. *)
Theorem X12_no_context_bare_prompt (w : world) (question context : value)
        (log : list event) :
  truthy context = false ->
  exists resp,
    process_request w question context log
      = (Ok (VDict resp, context),
         (log ++ [ EvInvoke ("Customer Request: " ++ str_of w question) ])%list)
    /\ lookup "context" resp = Some (VDict [])
    /\ shaped resp.
Proof.
  intros Hf.
  unfold process_request, try_except, process_request_body, user_field,
    build_prompt.
  rewrite Hf. unfold bind, lift, ret, call.
  destruct (invoke_async w ("Customer Request: " ++ str_of w question))
    as [response|e].
  - destruct (reconstruct_trace w response) as [ms|e].
    + unfold response_dict. rewrite Hf.
      assert (Hctx : match context with
                     | VDict _ => context
                     | _ => context
                     end = context) by now destruct context.
      rewrite Hctx. eexists. split; [reflexivity|].
      split; [reflexivity|]. right. repeat split. now eexists.
    + unfold error_response. rewrite Hf. eexists. split; [reflexivity|].
      split; [reflexivity|]. left. split; [now eexists|reflexivity].
  - unfold error_response. rewrite Hf. eexists. split; [reflexivity|].
    split; [reflexivity|]. left. split; [now eexists|reflexivity].
Qed.

Lemma X12_no_context_bare_prompt_witness :
  exists resp,
    process_request quiet_world (VStr "hi") VNone []
      = (Ok (VDict resp, VNone),
         ([] ++ [ EvInvoke ("Customer Request: "
                              ++ str_of quiet_world (VStr "hi")) ])%list)
    /\ lookup "context" resp = Some (VDict [])
    /\ shaped resp.
Proof.
  apply (@X12_no_context_bare_prompt quiet_world (VStr "hi") VNone []).
  reflexivity.
Defined.

(* ===================================================================== *)
(** ** The UI client and the Router *)
(* ===================================================================== *)

Section UiPayload.

Lemma truthy_py_or (a b : value) :
  truthy b = true -> truthy (py_or a b) = true.
Proof.
  intros Hb. unfold py_or. now destruct (truthy a) eqn:Ha.
Qed.

(** The identity [invoke_agent] settles on is never falsy. *)
Lemma effective_user_id_truthy (ss : session_state) (user_id uid : value) :
  effective_user_id ss user_id = Ok uid -> truthy uid = true.
Proof.
  unfold effective_user_id.
  destruct (truthy user_id) eqn:Hu; cbn [negb]; [now intros [= <-]|].
  destruct (m_get (ss_user_info ss) "user_id" VNone) as [a|];
    [|discriminate].
  cbn [rbind]. destruct (truthy a) eqn:Ha; [now intros [= <-]|].
  destruct (m_get (ss_user_info ss) "username" VNone) as [b|];
    [|discriminate].
  cbn [rbind]. destruct (truthy b) eqn:Hb; [now intros [= <-]|].
  intros [= <-]. now apply truthy_py_or.
Qed.

(** The user part of the context names a truthy identity. *)
Lemma ui_user_context_identity (ss : session_state) (uid : value)
      (context : dict) :
  truthy uid = true ->
  ui_user_context ss uid = Ok context ->
  exists id, lookup "user_id" context = Some id /\ truthy id = true
             /\ lookup "conversation_history" context = None
             /\ lookup "runtimeSessionId" context = None
             /\ lookup "runtime_session_id" context = None.
Proof.
  intros Hu. unfold ui_user_context.
  destruct (truthy (ss_authenticated ss) && truthy (ss_user_info ss)).
  - destruct (m_get (ss_user_info ss) "user_id" VNone) as [a|];
      [|discriminate].
    cbn [rbind].
    destruct (m_get (ss_user_info ss) "username" VNone) as [b|];
      [|discriminate].
    cbn [rbind].
    destruct (m_get (ss_user_info ss) "custom:department" (VStr "general"))
      as [d|]; [|discriminate].
    cbn [rbind].
    destruct (m_get (ss_user_info ss) "email" VNone) as [e|];
      [|discriminate].
    cbn [rbind]. intros [= <-]. exists (py_or a uid).
    split; [reflexivity|]. split; [now apply truthy_py_or|now repeat split].
  - intros [= <-]. exists uid. now repeat split.
Qed.

End UiPayload.

(** What the Router resolves on a payload of the UI client. *)
Lemma build_payload_resolved (ss : session_state)
        (message session_id user_id : value) (payload : dict) :
  build_payload ss message session_id user_id = Ok payload ->
  extract_context payload = VDict (payload_context payload)
  /\ truthy (extract_question payload) = truthy message
  /\ lookup "user_id" (payload_context payload)
     = Some (identity_of payload (payload_context payload))
  /\ truthy (identity_of payload (payload_context payload)) = true
  /\ (truthy session_id = true ->
      session_of payload (payload_context payload) = session_id).
Proof.
  unfold build_payload.
  destruct (effective_user_id ss user_id) as [uid|] eqn:Huid;
    [|discriminate].
  cbn [rbind]. apply effective_user_id_truthy in Huid.
  destruct (ui_user_context ss uid) as [context|] eqn:Hctx; [|discriminate].
  cbn [rbind].
  destruct (@ui_user_context_identity ss uid context Huid Hctx)
    as (id & Hid & Htid & Hh & Hr1 & Hr2).
  assert (Hid' : lookup "user_id" (ui_history_context ss session_id context)
                 = Some id).
  { unfold ui_history_context.
    destruct (truthy (ss_conversation_history ss)); [|exact Hid].
    now rewrite !lookup_dict_set_neq by reflexivity. }
  assert (Hne : truthy (VDict (ui_history_context ss session_id context))
                = true).
  { apply truthy_dict. intros Hnil. rewrite Hnil in Hid'. discriminate. }
  rewrite Hne. intros [= <-].
  unfold extract_context, extract_question, payload_context, identity_of,
    session_of, dget.
  cbn [dict_set lookup String.eqb Ascii.eqb Bool.eqb].
  unfold py_or at 1. rewrite Hne. rewrite Hid'. rewrite Htid.
  repeat split.
  - unfold py_or. destruct (truthy message) eqn:Hm; [exact Hm|reflexivity].
  - exact Htid.
  - intros Hs. now rewrite Hs.
Qed.

(** The history of the UI session is the in-session history of the
    context. *)
Lemma build_payload_history (ss : session_state)
      (message session_id user_id : value) (payload : dict) :
  build_payload ss message session_id user_id = Ok payload ->
  truthy (ss_conversation_history ss) = true ->
  dget (payload_context payload) "conversation_history" (VList [])
  = ss_conversation_history ss.
Proof.
  unfold build_payload.
  destruct (effective_user_id ss user_id) as [uid|]; [|discriminate].
  cbn [rbind].
  destruct (ui_user_context ss uid) as [context|]; [|discriminate].
  cbn [rbind]. intros Hp Hh. revert Hp.
  unfold ui_history_context. rewrite Hh.
  rewrite (truthy_dict (@dict_set_nonempty _ _ _)). intros [= <-].
  unfold payload_context, dget.
  cbn [dict_set lookup String.eqb Ascii.eqb Bool.eqb].
  rewrite lookup_dict_set_neq by reflexivity.
  now rewrite lookup_dict_set_eq.
Qed.

(** X13.  The payload of the UI client and the Router's resolution
    (src/ui/ui.py lines 264-305 with src/agent.py lines 595-633).  When
    [invoke_agent] builds a payload, the payload always has a context
    mapping; the Router finds its question in [input], so the
    missing-question gate passes exactly for a truthy message; the
    identity it resolves is the [user_id] the UI put into the context,
    which is never falsy, so the fall-back to ["anonymous"] is never
    taken; and a truthy session id of the UI is the session the Router
    resolves. *)
Theorem X13_ui_payload_resolution (ss : session_state)
        (message session_id user_id : value) (payload : dict) :
  build_payload ss message session_id user_id = Ok payload ->
  extract_context payload = VDict (payload_context payload)
  /\ truthy (extract_question payload) = truthy message
  /\ lookup "user_id" (payload_context payload)
     = Some (identity_of payload (payload_context payload))
  /\ truthy (identity_of payload (payload_context payload)) = true
  /\ (truthy session_id = true ->
      session_of payload (payload_context payload) = session_id).
Proof.
  apply build_payload_resolved.
Qed.

Lemma X13_ui_payload_resolution_witness :
  exists payload,
    build_payload signed_in_session (VStr "What is my name?")
                  (VStr "session-0123456789abcdef0123456789abcdef") VNone
      = Ok payload
    /\ extract_context payload = VDict (payload_context payload)
    /\ truthy (extract_question payload)
       = truthy (VStr "What is my name?")
    /\ lookup "user_id" (payload_context payload)
       = Some (identity_of payload (payload_context payload))
    /\ truthy (identity_of payload (payload_context payload)) = true
    /\ (truthy (VStr "session-0123456789abcdef0123456789abcdef") = true ->
        session_of payload (payload_context payload)
        = VStr "session-0123456789abcdef0123456789abcdef").
Proof.
  eexists. split; [vm_compute; reflexivity|].
  apply (@X13_ui_payload_resolution signed_in_session
           (VStr "What is my name?")
           (VStr "session-0123456789abcdef0123456789abcdef") VNone).
  vm_compute. reflexivity.
Defined.

(** X14.  A UI session with history never triggers long-term retrieval
    (src/ui/ui.py lines 299-301 with src/agent.py lines 225 and 284).
    The UI sends the history of its session inside the context, the
    Router takes the in-session branch of memory assembly, and the only
    external call of the request is the decision step, if any: no Memory
    Store call is made, whoever the user is. *)
Theorem X14_ui_history_skips_memory_store (w : world) (ss : session_state)
        (message session_id user_id : value) (payload : dict)
        (log : list event) :
  build_payload ss message session_id user_id = Ok payload ->
  truthy message = true ->
  truthy (ss_conversation_history ss) = true ->
  exists resp decision,
    send_message w (VDict payload) log
      = (Ok (VDict resp), (log ++ decision)%list)
    /\ at_most_one_decision decision.
Proof.
  intros Hp Hm Hh.
  destruct (build_payload_resolved _ _ _ _ Hp) as (Hc & Hq & _).
  rewrite Hm in Hq.
  destruct (send_message_handled_calls w payload log Hq Hc)
    as (resp & n & decision & Hrun & _ & Hd & Hwhen & _).
  exists resp, decision. split; [|exact Hd].
  rewrite Hrun. destruct n as [|n]; [reflexivity|].
  destruct Hwhen as (Hfalsy & _); [discriminate|].
  rewrite (build_payload_history _ _ _ _ Hp Hh), Hh in Hfalsy.
  discriminate.
Qed.

Lemma X14_ui_history_skips_memory_store_witness :
  exists payload resp decision,
    build_payload signed_in_session (VStr "What is my name?")
                  (VStr "session-0123456789abcdef0123456789abcdef") VNone
      = Ok payload
    /\ send_message quiet_world (VDict payload) []
       = (Ok (VDict resp), ([] ++ decision)%list)
    /\ at_most_one_decision decision.
Proof.
  eexists.
  assert (Hp : build_payload signed_in_session (VStr "What is my name?")
                 (VStr "session-0123456789abcdef0123456789abcdef") VNone
               = Ok _) by (vm_compute; reflexivity).
  destruct (@X14_ui_history_skips_memory_store quiet_world signed_in_session
              (VStr "What is my name?")
              (VStr "session-0123456789abcdef0123456789abcdef") VNone
              _ [] Hp eq_refl eq_refl) as (resp & decision & Hrun & Hd).
  exists resp, decision. split; [exact Hp|]. now split.
Defined.

(* ===================================================================== *)
(** ** The UI reads the trace back *)
(* ===================================================================== *)

Section ReadBack.
Variable w : world.

Lemma py_eq_str (n : string) (x : value) :
  py_eq (VStr n) x = true -> x = VStr n.
Proof.
  destruct x; cbn [py_eq]; try discriminate.
  intros H. apply String.eqb_eq in H. now subst.
Qed.

Lemma py_in_str (n : string) (l : list value) :
  py_in (VStr n) l = true -> In (VStr n) l.
Proof.
  unfold py_in. intros H. apply existsb_exists in H as (x & Hin & Heq).
  apply py_eq_str in Heq. now subst.
Qed.

Lemma cut_contains (sep s : string) :
  contains sep s = true -> exists p, cut sep s = Some p.
Proof.
  induction s as [|c s IH]; cbn [contains cut].
  - destruct (String.prefix sep ""); [now eexists|discriminate].
  - destruct (String.prefix sep (String c s)); [now eexists|].
    cbn [orb]. intros H. destruct (IH H) as ([before after] & ->).
    now eexists.
Qed.

Lemma truthy_name (n : string) : n <> "" -> truthy (VStr n) = true.
Proof.
  intros Hn. cbn [truthy]. destruct (String.eqb n "") eqn:He; [|reflexivity].
  now apply String.eqb_eq in He.
Qed.

(** The projection of an entry that names an agent, read by the UI. *)
Lemma ui_reads_agent (u : ui_lists) (item : dict) (n : string) :
  dget item "type" VNone = VStr "agent" ->
  dget item "name" VNone = VStr n ->
  n <> "" ->
  exists u',
    rfold (ui_entry_step w) u (ui_entry w (VDict item)) = Ok u'
    /\ ui_mcp_tools_used u' = ui_mcp_tools_used u
    /\ incl (ui_specialized_agents u) (ui_specialized_agents u')
    /\ In (VStr n) (ui_specialized_agents u').
Proof.
  intros Htype Hname Hn. unfold ui_entry. rewrite Htype, Hname.
  cbn [rfold ui_entry_step dget lookup String.eqb Ascii.eqb Bool.eqb
       py_iter rbind].
  unfold ui_tool_call.
  cbn [m_get dget lookup String.eqb Ascii.eqb Bool.eqb rbind].
  change (contains "a2a" (lower "a2a_send_message")) with true.
  unfold parse_args.
  cbn [orb dget lookup String.eqb Ascii.eqb Bool.eqb].
  rewrite (truthy_name Hn). cbn [andb].
  destruct (py_in (VStr n) (ui_specialized_agents u)) eqn:Hin; cbn [negb].
  - exists u. split; [reflexivity|]. split; [reflexivity|].
    split; [apply incl_refl|now apply py_in_str].
  - eexists. split; [reflexivity|]. cbn [ui_mcp_tools_used
                                          ui_specialized_agents].
    split; [reflexivity|]. split.
    + now apply incl_appl, incl_refl.
    + apply in_or_app. right. now left.
Qed.

(** The projection of a tool entry, read by the UI. *)
Lemma ui_reads_tool (u : ui_lists) (t : string) :
  is_a2a_name (lower t) = false ->
  contains "___" t = true ->
  exists u',
    rfold (ui_entry_step w) u (ui_entry w (tool_entry t)) = Ok u'
    /\ ui_mcp_tools_used u'
       = (if mem t (ui_mcp_tools_used u) then ui_mcp_tools_used u
          else (ui_mcp_tools_used u ++ [t])%list)
    /\ incl (ui_specialized_agents u) (ui_specialized_agents u').
Proof.
  intros Ha2a Hsep. unfold tool_entry, ui_entry.
  cbn [rfold ui_entry_step dget lookup String.eqb Ascii.eqb Bool.eqb
       py_iter rbind].
  unfold ui_tool_call.
  cbn [m_get dget lookup String.eqb Ascii.eqb Bool.eqb rbind].
  unfold is_a2a_name in Ha2a.
  apply Bool.orb_false_iff in Ha2a as (Ha2a & _). rewrite Ha2a, Hsep.
  unfold split_parts.
  destruct (cut_contains "___" t Hsep) as ([part0 rest] & ->).
  destruct (mapped_agent (lower part0) agent_mapping) as [agent_name|].
  - eexists. split; [reflexivity|].
    cbn [ui_mcp_tools_used ui_specialized_agents].
    split; [reflexivity|].
    destruct (py_in (VStr agent_name) (ui_specialized_agents u));
      [apply incl_refl|now apply incl_appl, incl_refl].
  - eexists. split; [reflexivity|].
    cbn [ui_mcp_tools_used ui_specialized_agents].
    split; [reflexivity|apply incl_refl].
Qed.

End ReadBack.

Section ReadBackInvariant.
Variable w : world.

(** An agent is routed to under a name that is not empty. *)
Lemma routing_of_agent_named (c : value) (n : string) (url : value) :
  routing_of w c = Ok (ToAgent n url) -> n <> "".
Proof.
  unfold routing_of.
  destruct (call_name_args c) as [[tool_name tool_args]|]; [|discriminate].
  cbn [rbind fst snd]. destruct tool_name; try discriminate.
  destruct (is_a2a_name (lower s)).
  - destruct (target_url (parse_args w tool_args)) as [agent_url|];
      [|discriminate].
    cbn [rbind]. destruct (truthy agent_url); [|discriminate].
    destruct (url_to_name agent_url) as [[name|]|]; try discriminate.
    cbn [rbind]. destruct (String.eqb name "") eqn:He; cbn [negb];
      [discriminate|].
    intros [= <- _] ->. discriminate He.
  - now destruct (is_mcp_name s (lower s)).
Qed.

(** A tool name does not carry the agent-routing signature and holds the
    separator. *)
Lemma routing_of_tool_named (c : value) (t : string) :
  routing_of w c = Ok (ToTool t) ->
  is_a2a_name (lower t) = false /\ contains "___" t = true.
Proof.
  unfold routing_of.
  destruct (call_name_args c) as [[tool_name tool_args]|]; [|discriminate].
  cbn [rbind fst snd]. destruct tool_name; try discriminate.
  destruct (is_a2a_name (lower s)) eqn:Ha.
  - destruct (target_url (parse_args w tool_args)) as [agent_url|];
      [|discriminate].
    cbn [rbind]. destruct (truthy agent_url); [|discriminate].
    destruct (url_to_name agent_url) as [[name|]|]; try discriminate.
    cbn [rbind]. now destruct (negb (String.eqb name "")).
  - destruct (is_mcp_name s (lower s)) eqn:Hm; [|discriminate].
    intros [= <-]. split; [exact Ha|].
    unfold is_mcp_name in Hm. now apply Bool.andb_true_iff in Hm.
Qed.

Lemma classify_calls_preserve_routed (P : trace_state -> Prop) :
  (forall st c r, routing_of w c = Ok r -> P st -> P (apply_routing st r)) ->
  forall calls st st',
    P st -> rfold (classify_call w) st calls = Ok st' -> P st'.
Proof.
  intros Hstep. induction calls as [|c calls IH]; intros st st' HP;
    cbn [rfold].
  - now intros [= <-].
  - rewrite classify_call_routing.
    destruct (routing_of w c) as [r|e] eqn:Hr; cbn [rbind]; [|discriminate].
    apply IH. now apply (Hstep st c r).
Qed.

Lemma scan_keywords_preserve_listed (P : trace_state -> Prop)
      (message_lower : string) :
  forall keywords,
    (forall st keyword n, In (keyword, n) keywords -> P st ->
                          P (add_agent st n (detected_entry n))) ->
    forall st, P st -> P (fold_left (scan_keyword message_lower) keywords st).
Proof.
  induction keywords as [|[keyword agent_name] keywords IH]; intros Hstep st HP;
    cbn [fold_left]; [exact HP|].
  apply IH.
  - intros st0 k n Hin. apply (Hstep st0 k n). now right.
  - unfold scan_keyword.
    destruct (contains keyword message_lower
              && negb (mem agent_name (specialized_agents st)));
      [|exact HP].
    apply (Hstep st keyword agent_name); [now left|exact HP].
Qed.

Lemma conversation_context_snoc (trace : list value) (item : value) :
  conversation_context w (trace ++ [item])
  = (conversation_context w trace ++ ui_entry w item)%list.
Proof.
  unfold conversation_context. rewrite flat_map_app. cbn [flat_map].
  now rewrite app_nil_r.
Qed.

(** Reading back goes on after the Router names one more agent. *)
Lemma read_back_add_agent (st : trace_state) (u : ui_lists) (n : string)
      (item : dict) :
  read_back w st u ->
  dget item "type" VNone = VStr "agent" ->
  dget item "name" VNone = VStr n ->
  n <> "" ->
  exists u', read_back w (add_agent st n (VDict item)) u'.
Proof.
  intros (Hrun & Htools & Hagents) Htype Hname Hn.
  destruct (@ui_reads_agent w u item n Htype Hname Hn)
    as (u' & Hstep & Htools' & Hincl & Hin).
  exists u'. unfold read_back.
  cbn [add_agent specialized_agents mcp_tools_used response_trace].
  rewrite conversation_context_snoc, rfold_app, Hrun.
  split; [exact Hstep|]. split; [congruence|].
  intros n' Hn'. apply in_app_or in Hn' as [Hold|[<-|[]]]; [|exact Hin].
  apply Hincl. now apply Hagents.
Qed.

(** Reading back goes on after the Router names one more tool. *)
Lemma read_back_add_tool (st : trace_state) (u : ui_lists) (t : string) :
  read_back w st u ->
  mem t (mcp_tools_used st) = false ->
  is_a2a_name (lower t) = false ->
  contains "___" t = true ->
  exists u', read_back w (add_tool st t) u'.
Proof.
  intros (Hrun & Htools & Hagents) Hmem Ha2a Hsep.
  destruct (@ui_reads_tool w u t Ha2a Hsep) as (u' & Hstep & Htools' & Hincl).
  exists u'. unfold read_back.
  cbn [add_tool specialized_agents mcp_tools_used response_trace].
  rewrite conversation_context_snoc, rfold_app, Hrun.
  split; [exact Hstep|]. split.
  - rewrite Htools', Htools, Hmem. reflexivity.
  - intros n Hn. apply Hincl. now apply Hagents.
Qed.

(** The UI can read back every reconstructed trace. *)
Lemma read_back_reconstructed (response : value) (ms : value * trace_state) :
  reconstruct_trace w response = Ok ms ->
  exists u, read_back w (snd ms) u.
Proof.
  intros Hms.
  apply reconstruct_trace_inv in Hms as (calls & st & _ & Hst & _ & Hscan).
  assert (Hcl : exists u, read_back w st u).
  { revert Hst.
    apply (@classify_calls_preserve_routed
             (fun st => exists u, read_back w st u)).
    - intros st0 c r Hr (u & Hu).
      destruct r as [n url|t|]; cbn [apply_routing]; [| |now exists u].
      + destruct (mem n (specialized_agents st0)); [now exists u|].
        apply routing_of_agent_named in Hr.
        now apply (@read_back_add_agent st0 u n
                     [ ("type", VStr "agent"); ("name", VStr n);
                       ("action", VStr "routed_to"); ("url", url) ]).
      + destruct (mem t (mcp_tools_used st0)) eqn:Hmem; [now exists u|].
        apply routing_of_tool_named in Hr as (Ha2a & Hsep).
        now apply (@read_back_add_tool st0 u t).
    - exists empty_ui_lists. repeat split. intros n []. }
  apply fallback_scan_inv in Hscan as [(_ & ->)|(_ & m & ->)]; [exact Hcl|].
  apply (@scan_keywords_preserve_listed
           (fun st => exists u, read_back w st u)); [|exact Hcl].
  intros st0 keyword n Hin (u & Hu).
  apply (@read_back_add_agent st0 u n
           [ ("type", VStr "agent"); ("name", VStr n);
             ("action", VStr "detected_in_response");
             ("method", VStr "message_parsing") ]);
    try reflexivity; [exact Hu|].
  unfold agent_keywords in Hin. cbn [In] in Hin.
  intros ->.
  repeat (destruct Hin as [Hin|Hin]; [discriminate Hin|]). exact Hin.
Qed.

(** An answer of [process_request]: its lists, and the projection of
    its trace in the context it leaves. *)
Lemma process_request_answer_lists (question : value) (context : dict)
      (log log' : list event) (r : dict) (c : value) :
  context <> [] ->
  process_request w question (VDict context) log
    = (Ok (VDict r, c), log') ->
  lookup "status" r = Some (VStr "processed") ->
  exists response ms,
    reconstruct_trace w response = Ok ms
    /\ lookup "specialized_agents" r
       = Some (strs (specialized_agents (snd ms)))
    /\ lookup "mcp_tools_used" r = Some (strs (mcp_tools_used (snd ms)))
    /\ c = VDict (dict_set "conversation_context"
                    (VList (conversation_context w (response_trace (snd ms))))
                    context).
Proof.
  intros Hne Hrun Hstatus.
  destruct (process_request_forms w question log Hne)
    as (rc & log1 & Hrun' & [(response & ms & Hms & ->)|(e & ->)]);
    rewrite Hrun in Hrun'.
  - unfold response_dict in Hrun'. rewrite (truthy_dict Hne) in Hrun'.
    injection Hrun' as -> -> _.
    exists response, ms. now repeat split.
  - unfold error_response in Hrun'. injection Hrun' as -> _ _.
    discriminate Hstatus.
Qed.

End ReadBackInvariant.

(** X15.  The UI reads the Router's trace back (src/agent.py lines
    486-512 with src/ui/ui.py lines 908-974).  For every answer of
    [send_message] to a handled request, the loop by which the UI
    rebuilds its lists from [context.conversation_context] runs without
    exception; the tools it finds are the [mcp_tools_used] of the
    response, in the same order; and every agent of
    [specialized_agents] is among the agents it shows, next to those it
    infers from the target names of the tools. *)
Theorem X15_ui_reads_trace_back (w : world) (request context : dict)
        (log log' : list event) (resp : dict) :
  truthy (extract_question request) = true ->
  extract_context request = VDict context ->
  send_message w (VDict request) log = (Ok (VDict resp), log') ->
  answer_shaped resp ->
  exists agents tools u,
    lookup "specialized_agents" resp = Some (strs agents)
    /\ lookup "mcp_tools_used" resp = Some (strs tools)
    /\ ui_reconstruct w resp = Ok u
    /\ ui_mcp_tools_used u = tools
    /\ forall n, In n agents -> In (VStr n) (ui_specialized_agents u).
Proof.
  intros Hq Hc Hrun (Herr & _ & Hstatus).
  destruct (send_message_handled_forms w request log Hq Hc)
    as (resp' & log1 & Hrun' & Hcases).
  rewrite Hrun in Hrun'. injection Hrun' as <- <-.
  destruct Hcases as [(e & He)|(r & c & r1 & n & Hpr & Hctx & Hdet
                                & Hlen & Hfin)].
  { unfold catch_all in He. injection He as ->. discriminate Herr. }
  apply add_details_fields in Hdet as (r1' & [= <-] & Hkeep & _).
  destruct (@add_session_info_fields
              (app_session w (session_of request context))
              (dict_set "memory_info" (memory_info_of n context) r1) c)
    as (resp' & Hfin' & Hkeep' & _ & Hc').
  { rewrite lookup_dict_set_neq by reflexivity.
    rewrite Hkeep by reflexivity. exact Hctx. }
  rewrite Hfin in Hfin'. injection Hfin' as <-.
  assert (Hkept : forall k, mem k send_message_keys = false ->
                            lookup k resp = lookup k r).
  { intros k Hk.
    apply not_send_message_key in Hk as (H1 & H2 & H3 & H4 & H5 & H6).
    rewrite Hkeep' by assumption.
    rewrite lookup_dict_set_neq by assumption. now apply Hkeep. }
  assert (Hst : lookup "status" r = Some (VStr "processed")).
  { rewrite <- Hstatus. symmetry. now apply Hkept. }
  destruct (@process_request_answer_lists w _ _ _ _ _ _
              (dict_set_nonempty _ _ _) Hpr Hst)
    as (response & ms & Hms & Hagents & Htools & Hcc).
  injection Hcc as ->.
  destruct (read_back_reconstructed w response Hms)
    as (u & Hread & Hsame & Hin).
  exists (specialized_agents (snd ms)), (mcp_tools_used (snd ms)), u.
  split; [now rewrite Hkept|]. split; [now rewrite Hkept|].
  split; [|now split].
  unfold ui_reconstruct, dget at 1. rewrite Hc'. cbn [m_get rbind].
  unfold dget. rewrite lookup_echo_session by reflexivity.
  rewrite lookup_dict_set_eq. cbn [py_iter rbind]. exact Hread.
Qed.

Lemma X15_ui_reads_trace_back_witness :
  exists resp log' agents tools u,
    send_message routing_world (VDict ticket_request) []
      = (Ok (VDict resp), log')
    /\ lookup "specialized_agents" resp = Some (strs agents)
    /\ lookup "mcp_tools_used" resp = Some (strs tools)
    /\ ui_reconstruct routing_world resp = Ok u
    /\ ui_mcp_tools_used u = tools
    /\ forall n, In n agents -> In (VStr n) (ui_specialized_agents u).
Proof.
  assert (Hrun : exists resp log',
             send_message routing_world (VDict ticket_request) []
               = (Ok (VDict resp), log')
             /\ answer_shaped resp).
  { eexists. eexists. split; [vm_compute; reflexivity|].
    split; [reflexivity|]. split; [|reflexivity].
    eexists. reflexivity. }
  destruct Hrun as (resp & log' & Hrun & Hans).
  destruct (@X15_ui_reads_trace_back routing_world ticket_request
              [ ("user_id", VStr "u2") ] [] log' resp
              eq_refl eq_refl Hrun Hans)
    as (agents & tools & u & H).
  now exists resp, log', agents, tools, u.
Defined.

(* ===================================================================== *)
(** ** The prompt of a handled request *)
(* ===================================================================== *)

Section PromptAnatomy.
Variable w : world.

(** Lines 300-311: the prompt ends with the session line and the
    request line. *)
Lemma user_info_suffix (question : value) (context : dict)
      (username department permissions authenticated uid : value)
      (history_text prompt : string) :
  user_info w question context username department permissions
            authenticated uid history_text = Ok prompt ->
  exists pre,
    prompt = pre ++ "Session ID: "
                 ++ str_of w (dget context "session_id"
                                   (VStr "Not provided - new session"))
                 ++ nl ++ "Customer Request: " ++ str_of w question ++ nl.
Proof.
  unfold user_info.
  destruct (m_title department) as [dept|]; [|discriminate]. cbn [rbind].
  destruct (if truthy permissions then py_join ", " permissions
            else Ok "Basic") as [perms|]; [|discriminate].
  cbn [rbind]. intros [= <-].
  exists (nl ++ "User Context:" ++ nl
             ++ "- Username: " ++ str_of w username ++ nl
             ++ "- Department: " ++ dept ++ nl
             ++ "- Permissions: " ++ perms ++ nl
             ++ "- Authenticated: " ++ str_of w authenticated ++ nl
             ++ "- User ID: " ++ str_of w uid ++ " (for LTM)" ++ nl
             ++ ltm_note w uid ++ nl
             ++ history_text ++ nl).
  now rewrite !append_assoc.
Qed.

(** The decision step of [process_request] is called on a prompt of
    lines 300-311, after the Memory Store calls. *)
Lemma process_request_decision (question : value) (context : dict)
      (log : list event) :
  context <> [] ->
  exists rc n decision,
    process_request w question (VDict context) log
      = (Ok rc,
         (log ++ firstn n (memory_calls w question context
                                        (ltm_user_id context))
              ++ decision)%list)
    /\ (decision = []
        \/ exists history_text prompt,
            prompt_of w question context history_text = Ok prompt
            /\ decision = [ EvInvoke prompt ]).
Proof.
  intros Hne. unfold process_request, try_except.
  rewrite (process_request_body_stages w question log Hne).
  destruct (history_block_calls w question context (ltm_user_id context) log)
    as (r & n & -> & _).
  destruct r as [history_text|e].
  2:{ eexists. exists n, []. rewrite app_nil_r.
      split; [reflexivity|now left]. }
  destruct (prompt_of w question context history_text) as [prompt|e] eqn:Hp.
  2:{ eexists. exists n, []. rewrite app_nil_r.
      split; [reflexivity|now left]. }
  cbn zeta.
  destruct (invoke_async w prompt) as [response|e];
    [destruct (reconstruct_trace w response) as [ms|e]|];
    eexists; exists n, [ EvInvoke prompt ]; rewrite <- app_assoc;
    (split; [reflexivity|right; now exists history_text, prompt]).
Qed.

End PromptAnatomy.

(** X16.  The prompt of a handled request (lines 300-311 and 655-662).
    When the decision step is called, its prompt ends with the session
    line and with the question as the last line.  Since [send_message]
    always puts [session_id] into the context, the session line shows
    the resolved session as it prints, [None] when there is none: the
    default text of line 309 is never used. *)
Theorem X16_prompt_ends_with_request (w : world) (request context : dict)
        (log : list event) :
  truthy (extract_question request) = true ->
  extract_context request = VDict context ->
  exists resp n decision,
    send_message w (VDict request) log
      = (Ok (VDict resp),
         (log ++ firstn n (request_memory_calls w request context)
              ++ decision)%list)
    /\ (decision = []
        \/ exists pre,
            decision
            = [ EvInvoke
                  (pre ++ "Session ID: "
                       ++ str_of w (session_of request context) ++ nl
                       ++ "Customer Request: "
                       ++ str_of w (extract_question request) ++ nl) ]).
Proof.
  intros Hq Hc. rewrite (send_message_handled w request log Hq Hc). cbn zeta.
  set (uid := identity_of request context).
  set (rsid := session_of request context).
  destruct (log_history_length rsid
              (dget context "conversation_history" (VList []))).
  2:{ unfold catch_all. eexists. exists 0%nat, [].
      cbn [firstn app]. rewrite app_nil_r.
      split; [reflexivity|now left]. }
  destruct (@process_request_decision w (extract_question request)
              (enhanced_context_of context uid rsid) log
              (dict_set_nonempty _ _ _))
    as (rc & n & decision & Hrun & Hdec).
  destruct (@process_request_shape w (extract_question request)
              (enhanced_context_of context uid rsid) log
              (dict_set_nonempty _ _ _))
    as (r & c & log2 & Hrun2 & _ & Hctx & _).
  rewrite Hrun in Hrun2. injection Hrun2 as -> <-.
  rewrite Hrun. cbn [fst snd].
  unfold uid, rsid in Hrun, Hdec |- *.
  rewrite enhanced_user_id, enhanced_memory_calls in *.
  fold uid rsid in Hdec |- *.
  assert (Hdec' : decision = []
                  \/ exists pre,
                      decision
                      = [ EvInvoke
                            (pre ++ "Session ID: " ++ str_of w rsid ++ nl
                                 ++ "Customer Request: "
                                 ++ str_of w (extract_question request)
                                 ++ nl) ]).
  { destruct Hdec as [->|(h & p & Hp & ->)]; [now left|right].
    unfold prompt_of in Hp. apply user_info_suffix in Hp as (pre & ->).
    exists pre. unfold dget. now rewrite enhanced_session_id. }
  destruct (@finish_response_cases w
              (dget request "include_details" (VBool false))
              (user_context_of context uid rsid) rsid r c c Hctx)
    as [(e & -> & _)|(r' & -> & _)].
  - unfold catch_all. eexists. exists n, decision.
    split; [reflexivity|exact Hdec'].
  - exists r', n, decision. split; [reflexivity|exact Hdec'].
Qed.

Lemma X16_prompt_ends_with_request_witness :
  exists resp n decision,
    send_message quiet_world (VDict both_ids_request) []
      = (Ok (VDict resp),
         ([] ++ firstn n (request_memory_calls quiet_world both_ids_request
                            [ ("user_id", VStr "ctx") ])
             ++ decision)%list)
    /\ (decision = []
        \/ exists pre,
            decision
            = [ EvInvoke
                  (pre ++ "Session ID: "
                       ++ str_of quiet_world
                            (session_of both_ids_request
                                        [ ("user_id", VStr "ctx") ]) ++ nl
                       ++ "Customer Request: "
                       ++ str_of quiet_world
                            (extract_question both_ids_request) ++ nl) ]).
Proof.
  apply (@X16_prompt_ends_with_request quiet_world both_ids_request
           [ ("user_id", VStr "ctx") ] []); reflexivity.
Defined.

(* ===================================================================== *)
(** ** The UI client: brace scanner and control characters *)
(* ===================================================================== *)

Section BraceScanner.

(** What follows the closing brace does not matter. *)
Lemma scan_braces_tail (s t : string) :
  forall i brace_count in_string escape_next,
    (0 <= i)%Z ->
    (0 < scan_braces s i brace_count in_string escape_next)%Z ->
    scan_braces (s ++ t) i brace_count in_string escape_next
    = scan_braces s i brace_count in_string escape_next.
Proof.
  induction s as [|char s IH]; intros i bc ins esc Hi;
    [cbn [scan_braces]; lia|].
  cbn [scan_braces append].
  destruct esc; [intros H; apply IH; [lia|exact H]|].
  destruct (Ascii.eqb char backslash); [intros H; apply IH; [lia|exact H]|].
  destruct (Ascii.eqb char quote); [intros H; apply IH; [lia|exact H]|].
  destruct (negb ins); [|intros H; apply IH; [lia|exact H]].
  destruct (Ascii.eqb char "{"); [intros H; apply IH; [lia|exact H]|].
  destruct (Ascii.eqb char "}"); [|intros H; apply IH; [lia|exact H]].
  destruct (Z.eqb (bc - 1) 0); [reflexivity|].
  intros H; apply IH; [lia|exact H].
Qed.

(** The end found lies inside the text. *)
Lemma scan_braces_bounds (s : string) :
  forall i brace_count in_string escape_next,
    (0 <= i)%Z ->
    (0 < scan_braces s i brace_count in_string escape_next)%Z ->
    (i < scan_braces s i brace_count in_string escape_next
     <= i + Z.of_nat (String.length s))%Z.
Proof.
  induction s as [|char s IH]; intros i bc ins esc Hi;
    [cbn [scan_braces]; lia|].
  cbn [scan_braces String.length]. rewrite Nat2Z.inj_succ.
  assert (Hrec : forall bc' ins' esc',
             (0 < scan_braces s (i + 1) bc' ins' esc')%Z ->
             (i < scan_braces s (i + 1) bc' ins' esc'
              <= i + Z.succ (Z.of_nat (String.length s)))%Z).
  { intros bc' ins' esc' H.
    pose proof (IH (i + 1)%Z bc' ins' esc' ltac:(lia) H). lia. }
  destruct esc; [apply Hrec|].
  destruct (Ascii.eqb char backslash); [apply Hrec|].
  destruct (Ascii.eqb char quote); [apply Hrec|].
  destruct (negb ins); [|apply Hrec].
  destruct (Ascii.eqb char "{"); [apply Hrec|].
  destruct (Ascii.eqb char "}"); [|apply Hrec].
  destruct (Z.eqb (bc - 1) 0); [lia|apply Hrec].
Qed.

(** Scanning the text up to the end found gives the same end, and that
    text closes with a brace. *)
Lemma scan_braces_cut (s : string) :
  forall i brace_count in_string escape_next,
    (0 <= i)%Z ->
    (0 < scan_braces s i brace_count in_string escape_next)%Z ->
    let json_end := scan_braces s i brace_count in_string escape_next in
    let cut := String.substring 0 (Z.to_nat (json_end - i)) s in
    scan_braces cut i brace_count in_string escape_next = json_end
    /\ last_char cut = Some "}"%char.
Proof.
  induction s as [|char s IH]; intros i bc ins esc Hi;
    [cbn [scan_braces]; lia|].
  cbn zeta. cbn [scan_braces].
  assert (Hrec : forall bc' ins' esc',
             (0 < scan_braces s (i + 1) bc' ins' esc')%Z ->
             String.substring 0
               (Z.to_nat (scan_braces s (i + 1) bc' ins' esc' - i))
               (String char s)
             = String char
                 (String.substring 0
                    (Z.to_nat (scan_braces s (i + 1) bc' ins' esc'
                               - (i + 1))) s)
             /\ scan_braces
                  (String.substring 0
                     (Z.to_nat (scan_braces s (i + 1) bc' ins' esc'
                                - (i + 1))) s)
                  (i + 1) bc' ins' esc'
                = scan_braces s (i + 1) bc' ins' esc'
             /\ last_char
                  (String char
                     (String.substring 0
                        (Z.to_nat (scan_braces s (i + 1) bc' ins' esc'
                                   - (i + 1))) s))
                = Some "}"%char).
  { intros bc' ins' esc' H.
    pose proof (@scan_braces_bounds s (i + 1)%Z bc' ins' esc' ltac:(lia) H)
      as Hb.
    destruct (IH (i + 1)%Z bc' ins' esc' ltac:(lia) H) as (Hcut & Hlast).
    set (e := scan_braces s (i + 1) bc' ins' esc') in *.
    replace (Z.to_nat (e - i)) with (S (Z.to_nat (e - (i + 1)))) by lia.
    split; [reflexivity|]. split; [exact Hcut|].
    destruct (String.substring 0 (Z.to_nat (e - (i + 1))) s);
      [discriminate Hlast|exact Hlast]. }
  destruct esc.
  { intros H. destruct (Hrec _ _ _ H) as (-> & Hcut & Hlast).
    cbn [scan_braces]. now split. }
  destruct (Ascii.eqb char backslash) eqn:Hb.
  { intros H. destruct (Hrec _ _ _ H) as (-> & Hcut & Hlast).
    cbn [scan_braces]. rewrite Hb. now split. }
  destruct (Ascii.eqb char quote) eqn:Hq.
  { intros H. destruct (Hrec _ _ _ H) as (-> & Hcut & Hlast).
    cbn [scan_braces]. rewrite Hb, Hq. now split. }
  destruct (negb ins) eqn:Hins.
  2:{ intros H. destruct (Hrec _ _ _ H) as (-> & Hcut & Hlast).
      cbn [scan_braces]. rewrite Hb, Hq, Hins. now split. }
  destruct (Ascii.eqb char "{") eqn:Ho.
  { intros H. destruct (Hrec _ _ _ H) as (-> & Hcut & Hlast).
    cbn [scan_braces]. rewrite Hb, Hq, Hins, Ho. now split. }
  destruct (Ascii.eqb char "}") eqn:Hc.
  2:{ intros H. destruct (Hrec _ _ _ H) as (-> & Hcut & Hlast).
      cbn [scan_braces]. rewrite Hb, Hq, Hins, Ho, Hc. now split. }
  destruct (Z.eqb (bc - 1) 0) eqn:Hz.
  - intros _. replace (Z.to_nat (i + 1 - i)) with 1%nat by lia.
    cbn [String.substring scan_braces last_char].
    rewrite Hb, Hq, Hins, Ho, Hc, Hz.
    apply Ascii.eqb_eq in Hc. subst. now destruct s.
  - intros H. destruct (Hrec _ _ _ H) as (-> & Hcut & Hlast).
    cbn [scan_braces]. rewrite Hb, Hq, Hins, Ho, Hc, Hz. now split.
Qed.

Lemma substring_prefix (n : nat) :
  forall s, exists rest, s = String.substring 0 n s ++ rest.
Proof.
  induction n as [|n IH]; intros s.
  - exists s. now destruct s.
  - destruct s as [|char s]; [now exists EmptyString|].
    destruct (IH s) as (rest & Hrest). exists rest.
    cbn [String.substring append]. now rewrite <- Hrest.
Qed.

Lemma substring_append (s t : string) :
  String.substring 0 (String.length s) (s ++ t) = s.
Proof.
  induction s as [|char s IH]; cbn [String.length append String.substring].
  - now destruct t.
  - now rewrite IH.
Qed.

Lemma substring_length (n : nat) :
  forall s, (n <= String.length s)%nat ->
            String.length (String.substring 0 n s) = n.
Proof.
  induction n as [|n IH]; intros s Hn; [now destruct s|].
  destruct s as [|char s]; cbn [String.length] in *; [lia|].
  cbn [String.substring String.length]. rewrite IH; lia.
Qed.

End BraceScanner.

(** X17.  The text that the brace scanner of the UI cuts out of the
    output of the command line (src/ui/ui.py lines 378-409).  When the
    scanner finds an end, the text cut out is an initial part of the
    candidate and closes with a brace; and it is all the scanner looks
    at: scanning the text cut out followed by anything else cuts out the
    same text again. *)
Theorem X17_json_text_stable (json_candidate json_str : string) :
  json_text json_candidate = Some json_str ->
  (exists rest, json_candidate = json_str ++ rest)
  /\ last_char json_str = Some "}"%char
  /\ forall t, json_text (json_str ++ t) = Some json_str.
Proof.
  unfold json_text. cbn zeta.
  destruct (Z.ltb 0 (scan_braces json_candidate 0 0 false false)) eqn:Hpos;
    [|discriminate].
  apply Z.ltb_lt in Hpos. intros [= <-].
  pose proof (@scan_braces_bounds json_candidate 0 0 false false
                ltac:(lia) Hpos) as Hb.
  destruct (@scan_braces_cut json_candidate 0 0 false false ltac:(lia) Hpos)
    as (Hcut & Hlast).
  rewrite Z.sub_0_r in Hcut, Hlast.
  set (e := scan_braces json_candidate 0 0 false false) in *.
  set (j := String.substring 0 (Z.to_nat e) json_candidate) in *.
  split; [apply substring_prefix|]. split; [exact Hlast|].
  intros t.
  rewrite scan_braces_tail by (rewrite ?Hcut; lia).
  rewrite Hcut.
  assert (Hpos' : Z.ltb 0 e = true) by now apply Z.ltb_lt.
  rewrite Hpos'. f_equal.
  assert (Hlen : String.length j = Z.to_nat e).
  { unfold j. apply substring_length. lia. }
  rewrite <- Hlen. apply substring_append.
Qed.

Lemma X17_json_text_stable_witness :
  exists json_str,
    json_text cli_candidate = Some json_str
    /\ (exists rest, cli_candidate = json_str ++ rest)
    /\ last_char json_str = Some "}"%char
    /\ forall t, json_text (json_str ++ t) = Some json_str.
Proof.
  eexists. split; [vm_compute; reflexivity|].
  apply (@X17_json_text_stable cli_candidate). vm_compute. reflexivity.
Defined.

Section ControlCharacters.

Lemma fix_control_plain (char : ascii) (s : string) (in_string : bool) :
  plain char ->
  fix_control (String char s) in_string false
  = String char (fix_control s in_string false).
Proof.
  intros (Hb & Hq & Hn & Hr & Hc). cbn [fix_control].
  rewrite Hb, Hq, Hn, Hr, Hc. now rewrite !Bool.andb_false_r.
Qed.

Lemma fix_control_escaped (char : ascii) (s : string) (in_string : bool) :
  fix_control (String char s) in_string true
  = String char (fix_control s in_string false).
Proof.
  reflexivity.
Qed.

Lemma fix_control_backslash (s : string) (in_string : bool) :
  fix_control (String backslash s) in_string false
  = String backslash (fix_control s in_string true).
Proof.
  reflexivity.
Qed.

Lemma hex_digit_plain (n : nat) : (n < 16)%nat -> plain (hex_digit n).
Proof.
  intros Hn.
  do 16 (destruct n as [|n]; [now repeat split|]). lia.
Qed.

(** The escape written for a control character is left alone by a
    second pass. *)
Lemma fix_control_unicode_escape (char : ascii) (s : string)
      (in_string : bool) :
  Nat.ltb (nat_of_ascii char) 32 = true ->
  fix_control (unicode_escape char ++ s) in_string false
  = unicode_escape char ++ fix_control s in_string false.
Proof.
  intros Hc. apply Nat.ltb_lt in Hc.
  unfold unicode_escape. cbn [append].
  rewrite fix_control_backslash, fix_control_escaped.
  rewrite (@fix_control_plain "0"%char) by now repeat split.
  rewrite (@fix_control_plain "0"%char) by now repeat split.
  rewrite fix_control_plain
    by (apply hex_digit_plain; apply Nat.Div0.div_lt_upper_bound; lia).
  rewrite fix_control_plain
    by (apply hex_digit_plain; apply Nat.mod_upper_bound; lia).
  reflexivity.
Qed.

Lemma fix_control_idempotent (s : string) :
  forall in_string escape_next,
    fix_control (fix_control s in_string escape_next) in_string escape_next
    = fix_control s in_string escape_next.
Proof.
  induction s as [|char s IH]; intros ins esc; [reflexivity|].
  cbn [fix_control].
  destruct esc; [cbn [fix_control]; now rewrite IH|].
  destruct (Ascii.eqb char backslash) eqn:Hb;
    [cbn [fix_control]; rewrite Hb; now rewrite IH|].
  destruct (Ascii.eqb char quote) eqn:Hq;
    [cbn [fix_control]; rewrite Hb, Hq; now rewrite IH|].
  destruct ins; cbn [andb].
  - destruct (Ascii.eqb char newline) eqn:Hn.
    { rewrite fix_control_backslash, fix_control_escaped. now rewrite IH. }
    destruct (Ascii.eqb char carriage_return) eqn:Hr.
    { rewrite fix_control_backslash, fix_control_escaped. now rewrite IH. }
    destruct (Nat.ltb (nat_of_ascii char) 32) eqn:Hc; cbn [andb].
    + destruct (Ascii.eqb char tab) eqn:Ht; cbn [negb].
      * cbn [fix_control]. rewrite Hb, Hq, Hn, Hr, Hc, Ht. cbn [andb negb].
        now rewrite IH.
      * rewrite fix_control_unicode_escape by exact Hc. now rewrite IH.
    + cbn [fix_control]. rewrite Hb, Hq, Hn, Hr, Hc. cbn [andb].
      now rewrite IH.
  - cbn [fix_control]. rewrite Hb, Hq. cbn [andb]. now rewrite IH.
Qed.

Lemma fix_control_printable (s : string) :
  forall in_string escape_next,
    printable s = true -> fix_control s in_string escape_next = s.
Proof.
  induction s as [|char s IH]; intros ins esc; [reflexivity|].
  cbn [printable fix_control]. intros Hp.
  apply Bool.andb_true_iff in Hp as (Hc & Hp).
  destruct esc; [now rewrite IH|].
  destruct (Ascii.eqb char backslash); [now rewrite IH|].
  destruct (Ascii.eqb char quote); [now rewrite IH|].
  destruct (Ascii.eqb char newline) eqn:Hn.
  { apply Ascii.eqb_eq in Hn. subst. discriminate Hc. }
  destruct (Ascii.eqb char carriage_return) eqn:Hr.
  { apply Ascii.eqb_eq in Hr. subst. discriminate Hc. }
  rewrite !Bool.andb_false_r.
  destruct (Nat.ltb (nat_of_ascii char) 32); cbn [negb orb] in Hc.
  - rewrite Hc. cbn [negb]. rewrite !Bool.andb_false_r. now rewrite IH.
  - rewrite Bool.andb_false_r. cbn [andb]. now rewrite IH.
Qed.

End ControlCharacters.

(** X18.  The repair of control characters is idempotent (src/ui/ui.py
    lines 411-454): what one pass writes -- the escapes for the line
    break, the carriage return and the other control characters inside
    string literals -- a second pass copies unchanged. *)
Theorem X18_fixed_json_idempotent (json_str : string) :
  fixed_json (fixed_json json_str) = fixed_json json_str.
Proof.
  apply fix_control_idempotent.
Qed.

(** X19.  The repair changes nothing in a text without control
    characters other than the tab (src/ui/ui.py lines 411-454): a JSON
    text that is valid in this respect reaches the parser as it was
    cut out. *)
Theorem X19_fixed_json_keeps_printable (json_str : string) :
  printable json_str = true -> fixed_json json_str = json_str.
Proof.
  apply fix_control_printable.
Qed.

Lemma X19_fixed_json_keeps_printable_witness :
  fixed_json ticket_args_text = ticket_args_text.
Proof.
  apply (@X19_fixed_json_keeps_printable ticket_args_text). reflexivity.
Defined.

(* ===================================================================== *)
(** ** Call discovery (lines 326-357) *)
(* ===================================================================== *)

Section DiscoveryFacts.
Variable w : world.

Lemma extend_from_item_adds (l : list value) (item v : value) :
  extend_from_item (VList l) item = Ok v ->
  exists extra, v = VList (l ++ extra).
Proof.
  unfold extend_from_item, extend.
  destruct item; try (intros [= <-]; exists []; now rewrite app_nil_r).
  destruct (has_key "tool_calls" d).
  - destruct (py_iter (dget d "tool_calls" (VList []))) as [xs|];
      [|discriminate].
    cbn [rbind]. intros [= <-]. now exists xs.
  - intros [= <-]. exists []. now rewrite app_nil_r.
Qed.

Lemma extend_from_msg_adds (l : list value) (msg v : value) :
  extend_from_msg (VList l) msg = Ok v ->
  exists extra, v = VList (l ++ extra).
Proof.
  unfold extend_from_msg.
  destruct (hasattr msg "tool_calls"
            && truthy (getattr msg "tool_calls" VNone));
    [|apply extend_from_item_adds].
  unfold extend.
  destruct (py_iter (getattr msg "tool_calls" VNone)) as [xs|];
    [|discriminate].
  cbn [rbind]. intros [= <-]. now exists xs.
Qed.

Lemma extend_while_ok_adds (msgs : list value) :
  forall l, exists extra,
    extend_while_ok (VList l) msgs = VList (l ++ extra).
Proof.
  induction msgs as [|msg msgs IH]; intros l; cbn [extend_while_ok].
  - exists []. now rewrite app_nil_r.
  - destruct (extend_from_msg (VList l) msg) as [v|] eqn:Hm.
    + apply extend_from_msg_adds in Hm as (xs & ->).
      destruct (IH (l ++ xs)%list) as (extra & ->).
      exists (xs ++ extra)%list. now rewrite app_assoc.
    + exists []. now rewrite app_nil_r.
Qed.

(** A value that is no list cannot be extended: the log leaves it. *)
Lemma extend_not_list (tool_calls x : value) :
  (forall l, tool_calls <> VList l) ->
  exists e, extend tool_calls x = Raise e.
Proof.
  intros Hnl. unfold extend.
  destruct tool_calls; try (eexists; reflexivity). now elim (Hnl l).
Qed.

Lemma extend_from_msg_not_list (tool_calls msg : value) :
  (forall l, tool_calls <> VList l) ->
  extend_from_msg tool_calls msg = Ok tool_calls
  \/ exists e, extend_from_msg tool_calls msg = Raise e.
Proof.
  intros Hnl. unfold extend_from_msg, extend_from_item.
  destruct (hasattr msg "tool_calls"
            && truthy (getattr msg "tool_calls" VNone)).
  - right. now apply extend_not_list.
  - destruct msg; try (now left).
    destruct (has_key "tool_calls" d); [|now left].
    right. now apply extend_not_list.
Qed.

Lemma extend_while_ok_not_list (msgs : list value) (tool_calls : value) :
  (forall l, tool_calls <> VList l) ->
  extend_while_ok tool_calls msgs = tool_calls.
Proof.
  intros Hnl. induction msgs as [|msg msgs IH]; cbn [extend_while_ok];
    [reflexivity|].
  destruct (extend_from_msg_not_list msg Hnl) as [->|(e & ->)];
    [exact IH|reflexivity].
Qed.

(** The interaction log only adds records, after those of the
    response. *)
Lemma calls_of_conversation_adds (tool_calls : value) (l : list value) :
  py_iter tool_calls = Ok l ->
  exists extra,
    py_iter (calls_of_conversation w tool_calls) = Ok (l ++ extra)%list.
Proof.
  intros Hl.
  assert (Hsame : exists extra, py_iter tool_calls = Ok (l ++ extra)%list)
    by (exists []; now rewrite app_nil_r).
  assert (Hext : forall msgs,
             exists extra,
               py_iter (extend_while_ok tool_calls msgs)
               = Ok (l ++ extra)%list).
  { intros msgs. destruct tool_calls;
      try (rewrite extend_while_ok_not_list by discriminate; exact Hsame).
    injection Hl as ->.
    destruct (extend_while_ok_adds msgs l) as (extra & ->).
    now exists extra. }
  unfold calls_of_conversation.
  destruct (agent_conversation w) as [conversation|]; [|exact Hsame].
  destruct (truthy conversation); [|exact Hsame].
  destruct (py_iter conversation) as [msgs|]; [apply Hext|exact Hsame].
Qed.

End DiscoveryFacts.

(** X20.  Call discovery (lines 326-357).  The interaction log of the
    agent can only add call records: whenever the result object yields
    its records, discovery succeeds, the records of the result object
    come first and in their order, and what the log contributes follows
    them.  Reading the log never fails the request, and nothing is added
    when the agent keeps no log. *)
Theorem X20_log_only_adds_calls (w : world) (response tool_calls : value)
        (l : list value) :
  calls_of_response response = Ok tool_calls ->
  py_iter tool_calls = Ok l ->
  exists extra,
    discovered_calls w response = Ok (l ++ extra)%list
    /\ (agent_conversation w = None -> extra = []).
Proof.
  intros Hresp Hl. unfold discovered_calls, discover_calls.
  rewrite Hresp. cbn [rbind].
  destruct (agent_conversation w) as [conversation|] eqn:Hlog.
  - destruct (calls_of_conversation_adds w tool_calls Hl) as (extra & ->).
    exists extra. split; [reflexivity|discriminate].
  - exists []. unfold calls_of_conversation. rewrite Hlog, app_nil_r.
    now split.
Qed.

Lemma X20_log_only_adds_calls_witness :
  exists extra,
    discovered_calls logging_world reporting_answer
      = Ok ([ kb_tool_call ] ++ extra)%list
    /\ (agent_conversation logging_world = None -> extra = []).
Proof.
  apply (@X20_log_only_adds_calls logging_world reporting_answer
           (VList [ kb_tool_call ]) [ kb_tool_call ]); reflexivity.
Defined.

(* ===================================================================== *)
(** ** The replay of stored turns (lines 262-275) *)
(* ===================================================================== *)

Lemma append_nil_r (s : string) : s ++ "" = s.
Proof.
  induction s as [|char s IH]; cbn [append]; [reflexivity|now rewrite IH].
Qed.

Section ReplayRendering.
Variable w : world.

Lemma render_turn_messages (messages : list value) :
  Forall replayed_message messages ->
  forall acc,
    rfold (render_turn_message w) acc messages
    = Ok (acc ++ replay_lines w [ messages ]).
Proof.
  unfold replay_lines. cbn [concat]. rewrite app_nil_r.
  induction 1 as [|message messages Hm _ IH]; intros acc;
    cbn [rfold fold_right].
  - now rewrite append_nil_r.
  - destruct Hm as (d & r & c & -> & Hr & Hc).
    unfold render_turn_message at 1. cbn [m_get rbind]. rewrite Hr, Hc.
    cbn [m_get rbind replay_line]. rewrite Hr, Hc.
    destruct (truthy (dget c "text" (VStr ""))).
    + cbn [m_upper rbind]. rewrite IH. now rewrite !append_assoc.
    + now rewrite IH.
Qed.

Lemma replay_lines_cons (messages : list value) (turns : list (list value)) :
  replay_lines w (messages :: turns)
  = replay_lines w [ messages ] ++ replay_lines w turns.
Proof.
  unfold replay_lines. cbn [concat]. rewrite app_nil_r.
  induction messages as [|message messages IH]; cbn [app fold_right];
    [reflexivity|].
  now rewrite IH, append_assoc.
Qed.

Lemma render_replayed_turns (turns : list (list value)) :
  Forall (Forall replayed_message) turns ->
  forall acc,
    render_turns w acc (VList (map VList turns))
    = Ok (acc ++ replay_lines w turns).
Proof.
  unfold render_turns. cbn [py_iter rbind].
  induction 1 as [|messages turns Hm _ IH]; intros acc; cbn [map rfold].
  - unfold replay_lines. cbn [concat fold_right]. now rewrite append_nil_r.
  - cbn [py_iter rbind]. rewrite (render_turn_messages Hm). rewrite IH.
    now rewrite (replay_lines_cons messages turns), append_assoc.
Qed.

End ReplayRendering.

(** X21.  The replay of stored turns (lines 236-275).  When the Memory
    Store replays turns whose messages are mappings with a text role and
    a content mapping, the memory block is the header of line 264, one
    line [ROLE: text] per message with a truthy text, turn after turn
    and message after message, and the closing lines; messages without
    text are passed over, and the semantic retrieval is not called. *)
Theorem X21_replayed_turns_rendered (w : world) (question : value)
        (context : dict) (uid : value) (log : list event)
        (turns : list (list value)) :
  memory_client w = Ok tt ->
  get_last_k_turns w uid (replay_session context uid) 5
    = Ok (VList (map VList turns)) ->
  turns <> [] ->
  Forall (Forall replayed_message) turns ->
  ltm_block w question context uid log
    = (Ok (ltm_turns_header ++ replay_lines w turns
             ++ ltm_end ++ ltm_turns_critical),
       (log ++ firstn 2 (memory_calls w question context uid))%list).
Proof.
  intros Hclient Hturns Hne Hwf.
  destruct (ltm_block_outcome w question context uid log)
    as (text & n & -> & Hcases).
  assert (Ht : truthy (VList (map VList turns)) = true)
    by (destruct turns; [contradiction|reflexivity]).
  destruct Hcases
    as [(_ & _ & e & He)|[(_ & _ & e & He)|[(-> & t & Hr & _ & Hblock)
                                            |(_ & _ & t & Hr & Hfalsy)]]].
  - rewrite Hclient in He. discriminate.
  - rewrite Hturns in He. discriminate.
  - rewrite Hturns in Hr. injection Hr as <-.
    unfold replayed_turns_block in Hblock.
    cbn [py_len rbind] in Hblock.
    rewrite (@render_replayed_turns w turns Hwf) in Hblock. cbn [rbind] in Hblock.
    rewrite Hblock. now rewrite !append_assoc.
  - rewrite Hturns in Hr. injection Hr as <-. rewrite Ht in Hfalsy.
    discriminate.
Qed.

Lemma X21_replayed_turns_rendered_witness :
  ltm_block replay_world (VStr "What is my name?") [] (VStr "u1") []
    = (Ok (ltm_turns_header
             ++ replay_lines replay_world
                  [ [ VDict [ ("role", VStr "user");
                              ("content",
                               VDict [ ("text", VStr "My name is Ana") ]) ];
                      VDict [ ("role", VStr "assistant");
                              ("content", VDict []) ] ] ]
             ++ ltm_end ++ ltm_turns_critical),
       ([] ++ firstn 2 (memory_calls replay_world (VStr "What is my name?")
                                     [] (VStr "u1")))%list).
Proof.
  apply (@X21_replayed_turns_rendered replay_world (VStr "What is my name?")
           [] (VStr "u1") []
           [ [ VDict [ ("role", VStr "user");
                       ("content",
                        VDict [ ("text", VStr "My name is Ana") ]) ];
               VDict [ ("role", VStr "assistant");
                       ("content", VDict []) ] ] ]);
    try reflexivity; [discriminate|].
  repeat constructor; eexists; eexists; eexists; repeat split.
Defined.

(** The context of a signed-in session. *)
Lemma build_payload_signed_in (ss : session_state) (info : dict)
      (message session_id user_id : value) (payload : dict) :
  truthy (ss_authenticated ss) = true ->
  ss_user_info ss = VDict info ->
  info <> [] ->
  build_payload ss message session_id user_id = Ok payload ->
  exists uid,
    lookup "user_id" (payload_context payload)
    = Some (py_or (dget info "user_id" VNone) uid)
    /\ lookup "authenticated" (payload_context payload) = Some (VBool true).
Proof.
  intros Hauth Hui Hne. unfold build_payload.
  destruct (effective_user_id ss user_id) as [uid|]; [|discriminate].
  cbn [rbind]. unfold ui_user_context.
  rewrite Hui, Hauth, (truthy_dict Hne). cbn [andb m_get rbind].
  intros Hp. exists uid. revert Hp. unfold ui_history_context.
  destruct (truthy (ss_conversation_history ss)).
  - rewrite (truthy_dict (@dict_set_nonempty _ _ _)). intros [= <-].
    unfold payload_context, dget at 1.
    cbn [dict_set lookup String.eqb Ascii.eqb Bool.eqb]. now split.
  - cbn [truthy]. intros [= <-]. now split.
Qed.

(** X22.  From the ID token to the Router (src/ui/ui.py lines 245-257
    and 264-305 with src/agent.py lines 629-633).  For a signed-in UI
    session whose user information was read from a token with a truthy
    [sub] claim, the identity the Router resolves for every payload of
    [invoke_agent] is that claim, whatever [user_id] the caller of
    [invoke_agent] passes, and the context is marked authenticated. *)
Theorem X22_token_subject_is_identity (ss : session_state)
        (claims info : dict) (message session_id user_id : value)
        (payload : dict) :
  get_user_info_from_token (VDict claims) = Ok info ->
  truthy (dget claims "sub" VNone) = true ->
  truthy (ss_authenticated ss) = true ->
  ss_user_info ss = VDict info ->
  build_payload ss message session_id user_id = Ok payload ->
  identity_of payload (payload_context payload) = dget claims "sub" VNone
  /\ lookup "authenticated" (payload_context payload) = Some (VBool true).
Proof.
  intros Hinfo Hsub Hauth Hui Hp.
  assert (Hne : truthy (VDict claims) = true).
  { destruct claims; [discriminate Hsub|reflexivity]. }
  unfold get_user_info_from_token in Hinfo. rewrite Hne in Hinfo.
  cbn [negb m_get rbind] in Hinfo.
  assert (Hid : dget info "user_id" VNone = dget claims "sub" VNone
                /\ info <> []).
  { destruct (truthy (dget claims "cognito:username" VNone));
      cbn [m_get rbind] in Hinfo; injection Hinfo as <-;
      (split; [reflexivity|discriminate]). }
  destruct Hid as (Hid & Hinfo_ne).
  destruct (@build_payload_signed_in ss info message session_id user_id
              payload Hauth Hui Hinfo_ne Hp)
    as (uid & Huser & Hflag).
  split; [|exact Hflag].
  destruct (build_payload_resolved _ _ _ _ Hp) as (_ & _ & Hres & _).
  rewrite Huser in Hres. injection Hres as <-.
  unfold py_or. now rewrite Hid, Hsub.
Qed.

Lemma X22_token_subject_is_identity_witness :
  exists payload,
    build_payload ana_session (VStr "hi") VNone (VStr "someone-else")
      = Ok payload
    /\ identity_of payload (payload_context payload)
       = dget ana_claims "sub" VNone
    /\ lookup "authenticated" (payload_context payload) = Some (VBool true).
Proof.
  eexists. split; [vm_compute; reflexivity|].
  eapply (@X22_token_subject_is_identity ana_session ana_claims _
            (VStr "hi") VNone (VStr "someone-else"));
    vm_compute; reflexivity.
Defined.
